(** * ParaBank registration tests: outcome detection, retry loop and run recorder

    A shallow embedding of the page objects ([BasePage], [RegistrationPage],
    [HomePage]), the user-data generator, the TC 001 retry loop of the
    Playwright spec and the stand-alone [ParaBankTestSuite] runner, together
    with the properties stated about them.

    The browser, the clock, the random source, the file system and the
    process are the environment: an abstract world [W] with one operation per
    call the code makes.  Code is written in a small monad that threads the
    world, records every environment call in a trace and propagates JavaScript
    exceptions.  Console output ([console.log], [console.error]) changes
    nothing of what the code returns or records and is left out. *)

From Stdlib Require Import String Ascii List ZArith NArith Lia Bool.
From Stdlib Require SpecFloat.
Import ListNotations.

Local Open Scope string_scope.
Local Open Scope Z_scope.

(* ===================================================================== *)
(** * JavaScript strings *)
(* ===================================================================== *)

(** Strings are sequences of bytes: the UTF-8 encoding of the JavaScript
    string, as the string literals of this file are.  A character outside
    ASCII is a sequence of two to four bytes, none of which is an ASCII
    byte, so that searching a text in a string gives the same answer on
    the bytes as on the characters.

    [toLowerCase] maps the letters A to Z and leaves the characters outside
    ASCII as they are.  JavaScript maps those too, but only two of them to
    an ASCII letter: U+212A to 'k', and U+0130 to 'i' followed by U+0307.
    None of the texts that the code searches for in a lower-cased string
    ('username', 'exists', 'account was created', 'welcome', 'successful')
    has a 'k' or ends in 'i': whether one of them is found is the same
    here as in JavaScript. *)
Module JsString.

(** [s.includes(needle)] *)
Fixpoint includes (s needle : string) : bool :=
  if String.prefix needle s then true
  else match s with
       | EmptyString => false
       | String _ rest => includes rest needle
       end.

(** "[s] ends in [suffix]": some tail of [s] is [suffix]. *)
Fixpoint endsWith (s suffix : string) : bool :=
  if String.eqb s suffix then true
  else match s with
       | EmptyString => false
       | String _ rest => endsWith rest suffix
       end.

Definition lowerChar (c : ascii) : ascii :=
  let n := nat_of_ascii c in
  if ((65 <=? n) && (n <=? 90))%nat then ascii_of_nat (n + 32) else c.

(** [s.toLowerCase()] *)
Fixpoint toLowerCase (s : string) : string :=
  match s with
  | EmptyString => EmptyString
  | String c rest => String (lowerChar c) (toLowerCase rest)
  end.

(** The UTF-8 encoding of the character with code point [cp]. *)
Definition utf8 (cp : N) : string :=
  let byte (n : N) := String (ascii_of_N n) EmptyString in
  if (cp <? 0x80)%N then byte cp
  else if (cp <? 0x800)%N then
    byte (0xC0 + cp / 64)%N ++ byte (0x80 + cp mod 64)%N
  else if (cp <? 0x10000)%N then
    byte (0xE0 + cp / 4096)%N ++ byte (0x80 + (cp / 64) mod 64)%N
    ++ byte (0x80 + cp mod 64)%N
  else
    byte (0xF0 + cp / 262144)%N ++ byte (0x80 + (cp / 4096) mod 64)%N
    ++ byte (0x80 + (cp / 64) mod 64)%N ++ byte (0x80 + cp mod 64)%N.

(** The code points that [trim] removes: the white space (TAB, VT, FF,
    SPACE, NO-BREAK SPACE, the byte-order mark U+FEFF and the space
    separators of Unicode) and the line terminators (LF, CR, U+2028,
    U+2029). *)
Definition whiteSpaceCodePoints : list N :=
  [0x9; 0xA; 0xB; 0xC; 0xD; 0x20; 0xA0; 0x1680;
   0x2000; 0x2001; 0x2002; 0x2003; 0x2004; 0x2005; 0x2006; 0x2007; 0x2008; 0x2009; 0x200A;
   0x2028; 0x2029; 0x202F; 0x205F; 0x3000; 0xFEFF]%N.

Definition whiteSpace : list string := map utf8 whiteSpaceCodePoints.

(** [s] without the prefix [p], when it starts with [p]. *)
Fixpoint stripPrefix (p s : string) : option string :=
  match p with
  | EmptyString => Some s
  | String a p' =>
      match s with
      | EmptyString => None
      | String b s' => if Ascii.eqb a b then stripPrefix p' s' else None
      end
  end.

(** [s] without the first of [prefixes] it starts with, if there is one. *)
Fixpoint stripOneOf (prefixes : list string) (s : string) : option string :=
  match prefixes with
  | [] => None
  | p :: more =>
      match stripPrefix p s with
      | Some rest => Some rest
      | None => stripOneOf more s
      end
  end.

(** [s] without the [prefixes] it starts with, one after the other: each
    round removes one; [fuel] bounds the rounds. *)
Fixpoint stripAll (prefixes : list string) (fuel : nat) (s : string) : string :=
  match fuel with
  | O => s
  | S fuel' =>
      match stripOneOf prefixes s with
      | Some rest => stripAll prefixes fuel' rest
      | None => s
      end
  end.

Fixpoint reverse (s : string) : string :=
  match s with
  | EmptyString => EmptyString
  | String c rest => reverse rest ++ String c EmptyString
  end.

(** [s.trimStart()]: no round removes less than one byte. *)
Definition trimStart (s : string) : string :=
  stripAll whiteSpace (String.length s) s.

(** [s.trimEnd()]: the same from the end. *)
Definition trimEnd (s : string) : string :=
  reverse (stripAll (map reverse whiteSpace) (String.length s) (reverse s)).

(** [s.trim()] *)
Definition trim (s : string) : string := trimEnd (trimStart s).

(** Truthiness of a string: [if (s)] holds for the non-empty ones. *)
Definition truthy (s : string) : bool :=
  match s with EmptyString => false | String _ _ => true end.

(** Digit of value [d] in [Number.prototype.toString(radix)]. *)
Definition digitChar (d : N) : ascii :=
  if (d <? 10)%N then ascii_of_N (48 + d) else ascii_of_N (87 + d).

Fixpoint digitsOf (fuel : nat) (radix n : N) (acc : string) : string :=
  match fuel with
  | O => acc
  | S fuel' =>
      let acc' := String (digitChar (n mod radix)) acc in
      if (n / radix =? 0)%N then acc' else digitsOf fuel' radix (n / radix) acc'
  end.

(** [n.toString(radix)] for an integer [n]. *)
Definition toStringRadix (radix : N) (n : Z) : string :=
  let m := Z.abs_N n in
  let body := digitsOf (S (N.to_nat (N.log2 m))) radix m EmptyString in
  if n <? 0 then String "-" body else body.

(** [n.toString()] *)
Definition toString (n : Z) : string := toStringRadix 10 n.

(** Relative index of [slice] and [substr]: negative counts from the end. *)
Definition relativeIndex (len i : Z) : Z :=
  if i <? 0 then Z.max (len + i) 0 else Z.min i len.

(** [s.slice(start)] and [s.slice(start, end)] *)
Definition slice (s : string) (start : Z) (end_ : option Z) : string :=
  let len := Z.of_nat (String.length s) in
  let from := relativeIndex len start in
  let to := match end_ with
            | None => len
            | Some e => relativeIndex len e
            end in
  String.substring (Z.to_nat from) (Z.to_nat (to - from)) s.

(** [s.substr(start, length)] *)
Definition substr (s : string) (start len : Z) : string :=
  let size := Z.of_nat (String.length s) in
  let from := relativeIndex size start in
  String.substring (Z.to_nat from) (Z.to_nat (Z.min (Z.max len 0) (size - from))) s.

Fixpoint repeatChar (c : ascii) (n : nat) : string :=
  match n with
  | O => EmptyString
  | S n' => String c (repeatChar c n')
  end.

(** [s.padStart(targetLength, c)] for a one-character filler. *)
Definition padStart (s : string) (targetLength : nat) (c : ascii) : string :=
  repeatChar c (targetLength - String.length s) ++ s.

End JsString.

(* ===================================================================== *)
(** * JavaScript numbers *)
(* ===================================================================== *)

(** A number is an IEEE 754 double.  Every finite double is a multiple of
    2^-1074, the smallest positive one: a finite number that is not negative
    is given here by the integer [n] of which it is [n * 2^-1074].  The
    integers that stand for a double are those written with at most 53
    significant bits.  An operation of the code on numbers is the exact
    operation on these integers followed by the rounding of the standard: to
    the nearest double, and to the one with an even last bit in a tie.  The
    numbers met here stay far below the largest double. *)
Module JsNumber.

(** The number 1. *)
Definition one : Z := 2 ^ 1074.

(** The double nearest to [n]: [n] written with 53 significant bits, the
    bits below them rounded off, to the even neighbour in a tie. *)
Definition round (n : Z) : Z :=
  let shift := Z.log2 n - 52 in
  if shift <=? 0 then n
  else
    let q := n / 2 ^ shift in
    let r := n mod 2 ^ shift in
    let half := 2 ^ (shift - 1) in
    if (half <? r) || ((r =? half) && Z.odd q)
    then (q + 1) * 2 ^ shift
    else q * 2 ^ shift.

(** [x * k], for an integer [k]. *)
Definition times (x k : Z) : Z := round (x * k).

(** [x + y] *)
Definition plus (x y : Z) : Z := round (x + y).

(** [Math.floor(x)], as an integer. *)
Definition floor (x : Z) : Z := x / one.

(** A result of [Math.random()]: a double in [0, 1), given by the exponent
    field and the fraction field of its encoding, which are taken modulo
    1023 and modulo 2^52.  Every double in [0, 1) is one of them. *)
Record Random := mkRandom {
  exponentField : N;
  fractionField : N
}.

(** The number encoded: [fraction * 2^-1074] when the exponent field is 0,
    and [(2^52 + fraction) * 2^(exponent - 1075)] otherwise. *)
Definition valueOf (x : Random) : Z :=
  let exponent := Z.of_N (exponentField x mod 1023) in
  let fraction := Z.of_N (fractionField x mod 2 ^ 52) in
  if exponent =? 0 then fraction
  else (2 ^ 52 + fraction) * 2 ^ (exponent - 1).

(** The distance from [x] to the next double. *)
Definition ulp (x : Z) : Z := 2 ^ Z.max (Z.log2 x - 52) 0.

(** The carry of a digit rounded up, through the digits written, the last
    one first: a digit below 35 takes it; a digit 35 is dropped.  [true]
    when the carry reaches the integer part. *)
Fixpoint carryOver (written : list Z) : bool * list Z :=
  match written with
  | [] => (true, [])
  | digit :: before =>
      if digit + 1 <? 36 then (false, digit + 1 :: before) else carryOver before
  end.

(** The loop that writes the digits: [fraction *= 36; delta *= 36], the
    digit is the integer part of [fraction], which is taken off it (what is
    left is a double: this subtraction is exact).  [written] holds the
    digits written, the last one first; the result tells whether a carry
    reached the integer part. *)
Fixpoint fractionDigits (fuel : nat) (fraction delta : Z) (written : list Z)
  : bool * list Z :=
  match fuel with
  | O => (false, written)
  | S fuel' =>
      let fraction := times fraction 36 in
      let delta := times delta 36 in
      let digit := floor fraction in
      let written := digit :: written in
      let fraction := fraction - digit * one in
      if ((one / 2 <? fraction) || ((fraction =? one / 2) && Z.odd digit))
         && (one <? plus fraction delta)
      then carryOver written
      else if delta <=? fraction then fractionDigits fuel' fraction delta written
      else (false, written)
  end.

(** The digits written, the first one first, as characters. *)
Definition digitString (written : list Z) : string :=
  fold_left (fun s digit => String (JsString.digitChar (Z.to_N digit)) s)
            written EmptyString.

(** [x.toString(36)] for [x] in [0, 1), as the V8 engine of Node.js
    computes it (the language leaves the digits to the implementation): 0
    gives "0"; otherwise digits are written as long as what is left of the
    fraction is not below [delta], half the distance to the next double.
    When what is left after a digit is above one half, or is one half after
    an odd digit, and the number written so far is nearer to the next
    number of that many digits, the last digit is rounded up and the loop
    ends.  [delta] is [0.5 * (next - x)] for the double [next] after [x],
    and at least the smallest double; half of the smallest distance is
    rounded to 0.  [fuel] bounds the rounds of the loop. *)
Definition toString36_within (fuel : nat) (x : Z) : string :=
  if x =? 0 then "0"
  else
    let delta := Z.max 1 (ulp x / 2) in
    let (carried, written) :=
      if delta <=? x then fractionDigits fuel x delta [] else (false, []) in
    (if carried then "1" else "0")
    ++ match written with
       | [] => EmptyString
       | _ => "." ++ digitString written
       end.

(** V8 keeps room for 1100 characters; no number needs as many. *)
Definition toString36 (x : Z) : string := toString36_within 1100 x.

(** ** The doubles of the standard library

    The standard library has a model of the doubles, [SpecFloat], with its
    own rounding; [round] is proved below to be that rounding. *)

(** The double to which the standard library rounds [n * 2^-1074]. *)
Definition binary64 (n : Z) : SpecFloat.spec_float :=
  SpecFloat.binary_normalize 53 1024 n (-1074) false.

(** The integer that stands for a double of the standard library. *)
Definition scaled (x : SpecFloat.spec_float) : Z :=
  match x with
  | SpecFloat.S754_finite false m e => Zpos m * 2 ^ (e + 1074)
  | _ => 0
  end.

(** The number of bits that the standard library shifts out of [m * 2^e]
    to bring it to the precision of a double. *)
Definition shiftOf (m e : Z) : Z := Z.max (Z.log2 m + 1 + e - 53) (-1074) - e.

End JsNumber.

(* ===================================================================== *)
(** * Errors, results and the trace of environment calls *)
(* ===================================================================== *)

(** A thrown JavaScript error: its class name and its [message]. *)
Record JsError := mkError { errName : string; message : string }.

Definition Error (msg : string) : JsError := mkError "Error" msg.
Definition TypeError (msg : string) : JsError := mkError "TypeError" msg.
Definition ReferenceError (msg : string) : JsError := mkError "ReferenceError" msg.
Definition TimeoutError (msg : string) : JsError := mkError "TimeoutError" msg.

(** What an environment call answers: a value, or a rejection. *)
Inductive Result (A : Type) : Type :=
| Ok (a : A)
| Err (e : JsError).
Arguments Ok {A} a.
Arguments Err {A} e.

Definition succeeded {A} (r : Result A) : bool :=
  match r with Ok _ => true | Err _ => false end.

Inductive SelectorState := Visible | Hidden.

(** Element handles returned by [page.$$]. *)
Definition ElementHandle := nat.

(** One entry per call made to the environment, with its arguments and its
    answer, in the order the calls were made. *)
Inductive Event :=
| EvWaitForTimeout (ms : Z) (r : Result unit)
| EvUrl (r : Result string)
| EvCount (selector : string) (r : Result nat)
| EvAllTextContents (selector : string) (r : Result (list string))
| EvWaitForSelector (selector : string) (state : SelectorState) (timeout : Z)
                    (r : Result unit)
| EvTextContent (selector : string) (r : Result (option string))
| EvContent (r : Result string)
| EvQueryAll (selector : string) (r : Result (list ElementHandle))
| EvElementTextContent (h : ElementHandle) (r : Result (option string))
| EvFill (selector value : string) (r : Result unit)
| EvClick (selector : string) (r : Result unit)
| EvInputValue (selector : string) (r : Result string)
| EvWaitForLoadState (state : string) (r : Result unit)
| EvGoto (url waitUntil : string) (timeout : option Z) (r : Result unit)
| EvReload (r : Result unit)
| EvTitle (r : Result string)
| EvIsVisible (selector : string) (r : Result bool)
| EvScreenshot (path : string) (r : Result unit)
| EvDateNow (t : Z)
| EvRandom (x : JsNumber.Random)
| EvGetEnv (name : string) (v : option string)
| EvLaunch (headless : bool) (r : Result unit)
| EvNewContext (r : Result unit)
| EvNewPage (r : Result unit)
| EvBrowserClose (r : Result unit)
| EvExistsSync (path : string) (r : Result bool)
| EvMkdirSync (path : string) (r : Result unit)
| EvWriteFileSync (path data : string) (r : Result unit).

(* ===================================================================== *)
(** * The monad of the test code *)
(* ===================================================================== *)

(** How a piece of code ends: it returns, it throws, or the process is
    ended by [process.exit]. *)
Inductive Outcome (A : Type) : Type :=
| Ret (a : A)
| Throw (e : JsError)
| Exit (code : Z).
Arguments Ret {A} a.
Arguments Throw {A} e.
Arguments Exit {A} code.

Record Run (S A : Type) : Type := mkRun {
  outcome : Outcome A;
  final : S;
  trace : list Event
}.
Arguments mkRun {S A} outcome final trace.
Arguments outcome {S A} r.
Arguments final {S A} r.
Arguments trace {S A} r.

Definition M (S A : Type) : Type := S -> Run S A.

Definition ret {S A} (a : A) : M S A := fun s => mkRun (Ret a) s [].

Definition throw {S A} (e : JsError) : M S A := fun s => mkRun (Throw e) s [].

(** [process.exit(code)] *)
Definition process_exit {S A} (code : Z) : M S A := fun s => mkRun (Exit code) s [].

Definition bind {S A B} (m : M S A) (k : A -> M S B) : M S B :=
  fun s =>
    match m s with
    | mkRun (Ret a) s1 t1 =>
        match k a s1 with
        | mkRun o s2 t2 => mkRun o s2 (t1 ++ t2)
        end
    | mkRun (Throw e) s1 t1 => mkRun (Throw e) s1 t1
    | mkRun (Exit c) s1 t1 => mkRun (Exit c) s1 t1
    end.

(** [try { m } catch (e) { h e }]: effects of [m] before the throw stay. *)
Definition try_catch {S A} (m : M S A) (h : JsError -> M S A) : M S A :=
  fun s =>
    match m s with
    | mkRun (Throw e) s1 t1 =>
        match h e s1 with
        | mkRun o s2 t2 => mkRun o s2 (t1 ++ t2)
        end
    | r => r
    end.

(** [try { m } finally { f }]: [f] runs however [m] completes, unless the
    process has exited; an abrupt completion of [f] replaces that of [m]. *)
Definition try_finally {S A} (m : M S A) (f : M S unit) : M S A :=
  fun s =>
    match m s with
    | mkRun (Exit c) s1 t1 => mkRun (Exit c) s1 t1
    | mkRun o s1 t1 =>
        match f s1 with
        | mkRun (Ret _) s2 t2 => mkRun o s2 (t1 ++ t2)
        | mkRun (Throw e) s2 t2 => mkRun (Throw e) s2 (t1 ++ t2)
        | mkRun (Exit c) s2 t2 => mkRun (Exit c) s2 (t1 ++ t2)
        end
    end.

(** [promise.catch(() => dflt)] *)
Definition promise_catch {S A} (m : M S A) (dflt : A) : M S A :=
  try_catch m (fun _ => ret dflt).

(** Local variables and object fields that outlive a throw are a frame [L]
    on top of the state. *)
Definition lift {L S A} (m : M S A) : M (L * S) A :=
  fun ls =>
    match m (snd ls) with
    | mkRun o s' t => mkRun o (fst ls, s') t
    end.

Definition getL {L S} : M (L * S) L := fun ls => mkRun (Ret (fst ls)) ls [].

Definition modifyL {L S} (f : L -> L) : M (L * S) unit :=
  fun ls => mkRun (Ret tt) (f (fst ls), snd ls) [].

(** Run [body] with a fresh frame holding [init]; the frame is handed back
    when [body] returns and dropped when it throws. *)
Definition in_frame {L S A} (init : L) (body : M (L * S) A) : M S (A * L) :=
  fun s =>
    match body (init, s) with
    | mkRun (Ret a) (l, s') t => mkRun (Ret (a, l)) s' t
    | mkRun (Throw e) (_, s') t => mkRun (Throw e) s' t
    | mkRun (Exit c) (_, s') t => mkRun (Exit c) s' t
    end.

(** [array.push(x)] *)
Definition push {A} (array : list A) (x : A) : list A := (array ++ [x])%list.

Declare Scope js_scope.
Delimit Scope js_scope with js.
Notation "x <- m ;; k" := (bind m (fun x => k))
  (at level 100, m at next level, right associativity) : js_scope.
Notation "m ;; k" := (bind m (fun _ => k))
  (at level 100, right associativity) : js_scope.
Local Open Scope js_scope.

(** [expect(b).toBeTruthy()]: the message is the one of the matcher for a
    received [false], as it reads without the colour codes of a terminal. *)
Definition expect_toBeTruthy {S} (b : bool) : M S unit :=
  let lineFeed := String (ascii_of_nat 10) EmptyString in
  if b then ret tt
  else throw (Error ("expect(received).toBeTruthy()" ++ lineFeed ++ lineFeed
                     ++ "Received: false")).

(* ===================================================================== *)
(** * The environment *)
(* ===================================================================== *)

(** The calls the code makes to Playwright's [page] and [browser], to
    [Date], [Math.random], [process.env] and [fs].  Each call may change the
    world; those that can reject answer a [Result]. *)
Class Env (W : Type) := {
  env_waitForTimeout : Z -> W -> Result unit * W;
  env_url : W -> Result string * W;
  env_count : string -> W -> Result nat * W;
  env_allTextContents : string -> W -> Result (list string) * W;
  env_waitForSelector : string -> SelectorState -> Z -> W -> Result unit * W;
  env_textContent : string -> W -> Result (option string) * W;
  env_content : W -> Result string * W;
  env_queryAll : string -> W -> Result (list ElementHandle) * W;
  env_elementTextContent : ElementHandle -> W -> Result (option string) * W;
  env_fill : string -> string -> W -> Result unit * W;
  env_click : string -> W -> Result unit * W;
  env_inputValue : string -> W -> Result string * W;
  env_waitForLoadState : string -> W -> Result unit * W;
  env_goto : string -> string -> option Z -> W -> Result unit * W;
  env_reload : W -> Result unit * W;
  env_title : W -> Result string * W;
  env_isVisible : string -> W -> Result bool * W;
  env_screenshot : string -> W -> Result unit * W;
  env_dateNow : W -> Z * W;
  env_random : W -> JsNumber.Random * W;
  env_getEnv : string -> W -> option string * W;
  env_launch : bool -> W -> Result unit * W;
  env_newContext : W -> Result unit * W;
  env_newPage : W -> Result unit * W;
  env_browserClose : W -> Result unit * W;
  env_existsSync : string -> W -> Result bool * W;
  env_mkdirSync : string -> W -> Result unit * W;
  env_writeFileSync : string -> string -> W -> Result unit * W
}.

(** A call that can reject: the answer is recorded, a rejection is thrown. *)
Definition perform {W A} (op : W -> Result A * W) (ev : Result A -> Event) : M W A :=
  fun w =>
    match op w with
    | (Ok a, w') => mkRun (Ret a) w' [ev (Ok a)]
    | (Err e, w') => mkRun (Throw e) w' [ev (Err e)]
    end.

(** A call that always answers. *)
Definition observe {W A} (op : W -> A * W) (ev : A -> Event) : M W A :=
  fun w =>
    match op w with
    | (a, w') => mkRun (Ret a) w' [ev a]
    end.

Module Page.
Section Page.
Context {W : Type} `{Env W}.

Definition waitForTimeout (ms : Z) : M W unit :=
  perform (env_waitForTimeout ms) (EvWaitForTimeout ms).
Definition url : M W string := perform env_url EvUrl.
Definition locator_count (selector : string) : M W nat :=
  perform (env_count selector) (EvCount selector).
Definition locator_allTextContents (selector : string) : M W (list string) :=
  perform (env_allTextContents selector) (EvAllTextContents selector).
Definition waitForSelector (selector : string) (state : SelectorState) (timeout : Z)
  : M W unit :=
  perform (env_waitForSelector selector state timeout)
          (EvWaitForSelector selector state timeout).
Definition textContent (selector : string) : M W (option string) :=
  perform (env_textContent selector) (EvTextContent selector).
Definition content : M W string := perform env_content EvContent.
Definition queryAll (selector : string) : M W (list ElementHandle) :=
  perform (env_queryAll selector) (EvQueryAll selector).
Definition element_textContent (h : ElementHandle) : M W (option string) :=
  perform (env_elementTextContent h) (EvElementTextContent h).
Definition fill (selector value : string) : M W unit :=
  perform (env_fill selector value) (EvFill selector value).
Definition click (selector : string) : M W unit :=
  perform (env_click selector) (EvClick selector).
Definition inputValue (selector : string) : M W string :=
  perform (env_inputValue selector) (EvInputValue selector).
Definition waitForLoadState (state : string) : M W unit :=
  perform (env_waitForLoadState state) (EvWaitForLoadState state).
Definition goto (url waitUntil : string) (timeout : option Z) : M W unit :=
  perform (env_goto url waitUntil timeout) (EvGoto url waitUntil timeout).
Definition reload : M W unit := perform env_reload EvReload.
Definition title : M W string := perform env_title EvTitle.
Definition isVisible (selector : string) : M W bool :=
  perform (env_isVisible selector) (EvIsVisible selector).
Definition screenshot (path : string) : M W unit :=
  perform (env_screenshot path) (EvScreenshot path).
End Page.
End Page.

Module Sys.
Section Sys.
Context {W : Type} `{Env W}.

(** [Date.now()]; [new Date()] is the same reading. *)
Definition dateNow : M W Z := observe env_dateNow EvDateNow.
(** [Math.random()] *)
Definition random : M W JsNumber.Random := observe env_random EvRandom.
(** [process.env[name]] *)
Definition getEnv (name : string) : M W (option string) :=
  observe (env_getEnv name) (EvGetEnv name).
Definition launch (headless : bool) : M W unit :=
  perform (env_launch headless) (EvLaunch headless).
Definition newContext : M W unit := perform env_newContext EvNewContext.
Definition newPage : M W unit := perform env_newPage EvNewPage.
Definition browserClose : M W unit := perform env_browserClose EvBrowserClose.
Definition existsSync (path : string) : M W bool :=
  perform (env_existsSync path) (EvExistsSync path).
Definition mkdirSync (path : string) : M W unit :=
  perform (env_mkdirSync path) (EvMkdirSync path).
Definition writeFileSync (path data : string) : M W unit :=
  perform (env_writeFileSync path data) (EvWriteFileSync path data).
End Sys.
End Sys.

(* ===================================================================== *)
(** * BasePage *)
(* ===================================================================== *)

Module BasePage.
Section BasePage.
Context {W : Type} `{Env W}.

(** [this.timeout = 30000] *)
Definition timeout : Z := 30000.

Definition waitForElement (selector : string) (timeout : Z) : M W unit :=
  Page.waitForSelector selector Visible timeout.

Definition clickElement (selector : string) : M W unit :=
  waitForElement selector timeout ;;
  Page.click selector.

Definition fillField (selector value : string) : M W unit :=
  waitForElement selector timeout ;;
  Page.fill selector value.

Definition getTextContent (selector : string) : M W (option string) :=
  waitForElement selector timeout ;;
  Page.textContent selector.

Definition isElementVisible (selector : string) : M W bool :=
  try_catch
    (Page.waitForSelector selector Visible 5000 ;;
     ret true)
    (fun _ => ret false).

Definition waitForPageLoad : M W unit := Page.waitForLoadState "networkidle".

Definition handleCloudflareChallenge : M W unit :=
  try_catch
    (cloudflareChallenge <- isElementVisible ".cf-challenge-container" ;;
     if cloudflareChallenge
     then Page.waitForSelector ".cf-challenge-container" Hidden 30000
     else ret tt)
    (fun _ => ret tt).

Definition getCurrentUrl : M W string := Page.url.

Definition getPageTitle : M W string := Page.title.

(** [page.goto(url, { waitUntil: 'networkidle' })]: no timeout is given. *)
Definition navigateTo (url : string) : M W unit :=
  Page.goto url "networkidle" None.

End BasePage.
End BasePage.

(* ===================================================================== *)
(** * RegistrationPage *)
(* ===================================================================== *)

(** The registrant data filled into the form. *)
Record UserData := mkUserData {
  firstName : string;
  lastName : string;
  address : string;
  city : string;
  state : string;
  zipCode : string;
  phone : string;
  ssn : string;
  username : string;
  password : string
}.

(** The double-quote character of attribute selectors. *)
Definition dq : string := String (ascii_of_nat 34) EmptyString.

Module RegistrationPage.
Section RegistrationPage.
Context {W : Type} `{Env W}.

(** [this.elements]: the selectors the page object uses. *)
Definition firstNameInput := "input[id=" ++ dq ++ "customer.firstName" ++ dq ++ "]".
Definition lastNameInput := "input[id=" ++ dq ++ "customer.lastName" ++ dq ++ "]".
Definition addressInput := "input[id=" ++ dq ++ "customer.address.street" ++ dq ++ "]".
Definition cityInput := "input[id=" ++ dq ++ "customer.address.city" ++ dq ++ "]".
Definition stateInput := "input[id=" ++ dq ++ "customer.address.state" ++ dq ++ "]".
Definition zipCodeInput := "input[id=" ++ dq ++ "customer.address.zipCode" ++ dq ++ "]".
Definition phoneInput := "input[id=" ++ dq ++ "customer.phoneNumber" ++ dq ++ "]".
Definition ssnInput := "input[id=" ++ dq ++ "customer.ssn" ++ dq ++ "]".
Definition usernameInput := "input[id=" ++ dq ++ "customer.username" ++ dq ++ "]".
Definition passwordInput := "input[id=" ++ dq ++ "customer.password" ++ dq ++ "]".
Definition confirmPasswordInput := "input[id=" ++ dq ++ "repeatedPassword" ++ dq ++ "]".
Definition registerButton := "input[value=" ++ dq ++ "Register" ++ dq ++ "]".
Definition successMessage := "text=Your account was created successfully".
Definition welcomeMessage := "h1.title".
Definition errorMessage := ".error".
Definition accountServicesSection := "#accountServices".
Definition usernameParagraph :=
  "p:has-text(" ++ dq ++ "Your account was created successfully" ++ dq ++ ")".
Definition pageTitle := ".title".
Definition registrationForm := "#customerForm".

Definition isRegistrationPageLoaded : M W bool :=
  try_catch
    (BasePage.waitForElement registrationForm BasePage.timeout ;;
     BasePage.waitForElement firstNameInput BasePage.timeout ;;
     ret true)
    (fun _ => ret false).

Definition fillRegistrationForm (userData : UserData) : M W unit :=
  BasePage.fillField firstNameInput (firstName userData) ;;
  BasePage.fillField lastNameInput (lastName userData) ;;
  BasePage.fillField addressInput (address userData) ;;
  BasePage.fillField cityInput (city userData) ;;
  BasePage.fillField stateInput (state userData) ;;
  BasePage.fillField zipCodeInput (zipCode userData) ;;
  BasePage.fillField phoneInput (phone userData) ;;
  BasePage.fillField ssnInput (ssn userData) ;;
  BasePage.fillField usernameInput (username userData) ;;
  BasePage.fillField passwordInput (password userData) ;;
  BasePage.fillField confirmPasswordInput (password userData).

Definition submitRegistration : M W unit :=
  BasePage.clickElement registerButton ;;
  BasePage.handleCloudflareChallenge ;;
  BasePage.waitForPageLoad.

(** [welcomeText.includes('Welcome')]: [textContent] may answer [null],
    and a property read on [null] throws. *)
Definition text_includes (text : option string) (needle : string) : M W bool :=
  match text with
  | Some s => ret (JsString.includes s needle)
  | None => throw (TypeError "Cannot read properties of null (reading 'includes')")
  end.

(** Methods 1 to 6 of [isRegistrationSuccessful], reached when the
    rejection check did not return. *)
Definition successSignals (currentUrl : string) : M W bool :=
  (* Method 1 *)
  m1 <- BasePage.isElementVisible successMessage ;;
  if m1 then ret true else
  (* Method 2 *)
  m2 <- BasePage.isElementVisible usernameParagraph ;;
  if m2 then ret true else
  (* Method 3 *)
  m3 <- BasePage.isElementVisible welcomeMessage ;;
  found <- (if m3 then
              welcomeText <- BasePage.getTextContent welcomeMessage ;;
              text_includes welcomeText "Welcome"
            else ret false) ;;
  if found then ret true else
  (* Method 4 *)
  m4 <- BasePage.isElementVisible accountServicesSection ;;
  if m4 then ret true else
  (* Method 5 *)
  if JsString.includes currentUrl "overview"
     || JsString.includes currentUrl "account"
     || negb (JsString.includes currentUrl "register.htm")
  then ret true else
  (* Method 6 *)
  pageContent <- Page.content ;;
  let hasSuccessContent :=
    JsString.includes (JsString.toLowerCase pageContent) "account was created"
    || JsString.includes (JsString.toLowerCase pageContent) "welcome"
    || JsString.includes (JsString.toLowerCase pageContent) "successful" in
  if hasSuccessContent then ret true else ret false.

(** The body of the [try] block of [isRegistrationSuccessful]. *)
Definition isRegistrationSuccessful_try : M W bool :=
  Page.waitForTimeout 2000 ;;
  currentUrl <- BasePage.getCurrentUrl ;;
  if JsString.includes currentUrl "register.htm" then
    errorElements <- Page.locator_count ".error" ;;
    if (0 <? errorElements)%nat then
      _errorMessages <- Page.locator_allTextContents ".error" ;;
      ret false
    else successSignals currentUrl
  else successSignals currentUrl.

Definition isRegistrationSuccessful : M W bool :=
  try_catch isRegistrationSuccessful_try (fun _error => ret false).

(** The loop of [getErrorMessages]; [errorMessages] is the array declared
    before the [try], kept in the frame so that what was pushed stays when
    a later element throws. *)
Fixpoint getErrorMessages_loop (errorElements : list ElementHandle)
  : M (list string * W) unit :=
  match errorElements with
  | [] => ret tt
  | element :: rest =>
      text <- lift (Page.element_textContent element) ;;
      match text with
      | None => throw (TypeError "Cannot read properties of null (reading 'trim')")
      | Some text =>
          (if JsString.truthy (JsString.trim text)
           then modifyL (fun errorMessages => push errorMessages (JsString.trim text))
           else ret tt) ;;
          getErrorMessages_loop rest
      end
  end.

Definition getErrorMessages : M W (list string) :=
  r <- in_frame []
         (try_catch
            (errorElements <- lift (Page.queryAll errorMessage) ;;
             getErrorMessages_loop errorElements)
            (fun _error => ret tt)) ;;
  ret (snd r).

Definition validateFormData (expectedData : UserData) : M W bool :=
  try_catch
    (firstNameValue <- Page.inputValue firstNameInput ;;
     lastNameValue <- Page.inputValue lastNameInput ;;
     usernameValue <- Page.inputValue usernameInput ;;
     ret (String.eqb firstNameValue (firstName expectedData)
          && String.eqb lastNameValue (lastName expectedData)
          && String.eqb usernameValue (username expectedData)))
    (fun _error => ret false).

(** [formFields] of [clearForm]. *)
Definition formFields : list string :=
  [firstNameInput; lastNameInput; addressInput; cityInput; stateInput; zipCodeInput;
   phoneInput; ssnInput; usernameInput; passwordInput; confirmPasswordInput].

(** The [for] loop of [clearForm]: each field has its own [try]. *)
Fixpoint clearForm_loop (formFields : list string) : M W unit :=
  match formFields with
  | [] => ret tt
  | field :: rest =>
      try_catch (Page.fill field EmptyString) (fun _error => ret tt) ;;
      clearForm_loop rest
  end.

Definition clearForm : M W unit := clearForm_loop formFields.

(** [getTextContent] answers a string or [null]; [getPageTitle] a string. *)
Definition getRegistrationPageTitle : M W (option string) :=
  try_catch
    (BasePage.getTextContent pageTitle)
    (fun _error =>
       title <- BasePage.getPageTitle ;;
       ret (Some title)).

End RegistrationPage.
End RegistrationPage.

(* ===================================================================== *)
(** * HomePage *)
(* ===================================================================== *)

Module HomePage.
Section HomePage.
Context {W : Type} `{Env W}.

Definition registerLink := "a[href*=" ++ dq ++ "register.htm" ++ dq ++ "]".

Definition clickRegisterLink : M W unit :=
  BasePage.clickElement registerLink ;;
  BasePage.waitForPageLoad.

(** [this.url] and the other selectors of [this.elements] that the methods
    below use. *)
Definition url := "https://parabank.parasoft.com/parabank".
Definition logo := ".logo".
Definition loginSection := "#loginPanel".
Definition usernameInput := "input[name=" ++ dq ++ "username" ++ dq ++ "]".
Definition passwordInput := "input[name=" ++ dq ++ "password" ++ dq ++ "]".
Definition loginButton := "input[value=" ++ dq ++ "Log In" ++ dq ++ "]".
Definition aboutLink := "a[href*=" ++ dq ++ "about.htm" ++ dq ++ "]".
Definition servicesLink := "a[href*=" ++ dq ++ "services.htm" ++ dq ++ "]".
Definition productsLink := "a[href*=" ++ dq ++ "products.jsp" ++ dq ++ "]".
Definition locationsLink := "a[href*=" ++ dq ++ "contacts.jsp" ++ dq ++ "]".
Definition welcomeMessage := ".caption".

Definition open : M W unit :=
  BasePage.navigateTo url ;;
  BasePage.handleCloudflareChallenge ;;
  BasePage.waitForPageLoad.

Definition isHomePageLoaded : M W bool :=
  try_catch
    (BasePage.waitForElement logo BasePage.timeout ;;
     BasePage.waitForElement registerLink BasePage.timeout ;;
     BasePage.waitForElement loginSection BasePage.timeout ;;
     ret true)
    (fun _error => ret false).

Definition getWelcomeMessage : M W (option string) :=
  BasePage.getTextContent welcomeMessage.

(** [links] of [areNavigationLinksVisible]. *)
Definition links : list string := [aboutLink; servicesLink; productsLink; locationsLink].

(** The [for] loop of [areNavigationLinksVisible], with what follows it. *)
Fixpoint areNavigationLinksVisible_loop (links : list string) : M W bool :=
  match links with
  | [] => ret true
  | link :: rest =>
      visible <- BasePage.isElementVisible link ;;
      if negb visible then ret false
      else areNavigationLinksVisible_loop rest
  end.

Definition areNavigationLinksVisible : M W bool :=
  areNavigationLinksVisible_loop links.

Definition login (username password : string) : M W unit :=
  BasePage.fillField usernameInput username ;;
  BasePage.fillField passwordInput password ;;
  BasePage.clickElement loginButton ;;
  BasePage.waitForPageLoad.

Definition isUserLoggedIn : M W bool :=
  BasePage.isElementVisible ("a[href*=" ++ dq ++ "logout.htm" ++ dq ++ "]").

Definition getTitle : M W string := BasePage.getPageTitle.

End HomePage.
End HomePage.

(* ===================================================================== *)
(** * test-data/userData: generateUniqueUser *)
(* ===================================================================== *)

Module UserDataGen.
Section UserDataGen.
Context {W : Type} `{Env W}.

(** [Math.floor(x * k)] for a result [x] of [Math.random()]. *)
Definition floorTimes (x : JsNumber.Random) (k : Z) : Z :=
  JsNumber.floor (JsNumber.times (JsNumber.valueOf x) k).

Definition generateUniqueUser : M W UserData :=
  timestamp <- Sys.dateNow ;;
  r <- Sys.random ;;
  let randomNum := floorTimes r 1000 in
  r' <- Sys.random ;;
  ret {| firstName := "Test" ++ JsString.toString randomNum;
         lastName := "User" ++ JsString.toString randomNum;
         address := JsString.toString randomNum ++ " Test Street";
         city := "TestCity";
         state := "TC";
         zipCode := JsString.padStart (JsString.toString randomNum) 5 "0";
         phone := "555-" ++ JsString.padStart (JsString.toString randomNum) 3 "0"
                  ++ "-" ++ JsString.slice (JsString.toString timestamp) (-4) None;
         ssn := JsString.padStart (JsString.toString randomNum) 3 "0"
                ++ "-" ++ JsString.slice (JsString.toString timestamp) (-6) (Some (-3))
                ++ "-" ++ JsString.slice (JsString.toString timestamp) (-3) None;
         username := "u" ++ JsString.toStringRadix 36 timestamp
                     ++ JsString.toStringRadix 36 randomNum
                     ++ JsString.substr (JsNumber.toString36 (JsNumber.valueOf r')) 2 5;
         password := "TestPass" ++ JsString.toString randomNum ++ "!" |}.

(** The user records of the [testData] object; its [urls], [messages] and
    [config] entries are constants that no function reads. *)
Record TestUsers := mkTestUsers { user1 : UserData; user2 : UserData }.
Record InvalidData := mkInvalidData { emptyUser : UserData; invalidFormats : UserData }.
Record TestData := mkTestData {
  validUser : UserData;
  testUsers : TestUsers;
  invalidData : InvalidData
}.

(** The evaluation of the [testData] object literal, once, when the module
    is loaded: the three usernames read the clock and the random source
    then. *)
Definition testData : M W TestData :=
  now <- Sys.dateNow ;;
  r <- Sys.random ;;
  now1 <- Sys.dateNow ;;
  now2 <- Sys.dateNow ;;
  ret {| validUser :=
           {| firstName := "John";
              lastName := "Doe";
              address := "123 Main Street";
              city := "New York";
              state := "NY";
              zipCode := "10001";
              phone := "555-123-4567";
              ssn := "123-45-6789";
              username := "testuser_" ++ JsString.toString now ++ "_"
                          ++ JsString.toString (floorTimes r 10000);
              password := "TestPassword123!" |};
         testUsers :=
           {| user1 :=
                {| firstName := "Alice";
                   lastName := "Smith";
                   address := "456 Oak Avenue";
                   city := "Los Angeles";
                   state := "CA";
                   zipCode := "90210";
                   phone := "555-987-6543";
                   ssn := "987-65-4321";
                   username := "alice_" ++ JsString.toString now1;
                   password := "AlicePass123!" |};
              user2 :=
                {| firstName := "Bob";
                   lastName := "Johnson";
                   address := "789 Pine Road";
                   city := "Chicago";
                   state := "IL";
                   zipCode := "60601";
                   phone := "555-456-7890";
                   ssn := "456-78-9012";
                   username := "bob_" ++ JsString.toString now2;
                   password := "BobPass123!" |} |};
         invalidData :=
           {| emptyUser :=
                {| firstName := EmptyString;
                   lastName := EmptyString;
                   address := EmptyString;
                   city := EmptyString;
                   state := EmptyString;
                   zipCode := EmptyString;
                   phone := EmptyString;
                   ssn := EmptyString;
                   username := EmptyString;
                   password := EmptyString |};
              invalidFormats :=
                {| firstName := "123";
                   lastName := "!@#";
                   address := EmptyString;
                   city := "123";
                   state := "InvalidState";
                   zipCode := "ABC";
                   phone := "invalid-phone";
                   ssn := "invalid-ssn";
                   username := "a";
                   password := "123" |} |} |}.

(** [getTestData(scenario)], reading the [testData] object of the module. *)
Definition getTestData (testData : TestData) (scenario : string) : M W UserData :=
  if String.eqb scenario "valid_registration" then generateUniqueUser
  else if String.eqb scenario "duplicate_user" then ret (validUser testData)
  else if String.eqb scenario "invalid_data" then ret (invalidFormats (invalidData testData))
  else if String.eqb scenario "empty_data" then ret (emptyUser (invalidData testData))
  else generateUniqueUser.

End UserDataGen.
End UserDataGen.

(* ===================================================================== *)
(** * tests/registration.spec.js: the retry loop of TC 001 *)
(* ===================================================================== *)

Module RegistrationSpec.
Section RegistrationSpec.
Context {W : Type} `{Env W}.

Definition maxAttempts : Z := 3.

(** [errorMessages.some(msg => msg.toLowerCase().includes('username')
    && msg.toLowerCase().includes('exists'))] *)
Definition hasUsernameConflict (errorMessages : list string) : bool :=
  existsb (fun msg =>
             JsString.includes (JsString.toLowerCase msg) "username"
             && JsString.includes (JsString.toLowerCase msg) "exists")
          errorMessages.

(** [userData.username.includes('testuser_') ?
     testData.generateUniqueUser() : userData].
    The spec file imports [generateUniqueUser] and [getTestData] only:
    [testData] is not bound there, and reading it throws. *)
Definition freshUserData (userData : UserData) : M W UserData :=
  if JsString.includes (username userData) "testuser_"
  then throw (ReferenceError "testData is not defined")
  else ret userData.

(** The [while] loop.  [None] is returned only when [fuel] runs out before
    the loop ends; [Some success] is the value of [success] at its end. *)
Fixpoint retryLoop (fuel : nat) (userData : UserData) (attempt : Z) (success : bool)
  : M W (option bool) :=
  if (attempt <? maxAttempts) && negb success then
    match fuel with
    | O => ret None
    | S fuel' =>
        let attempt := attempt + 1 in
        freshUserData <- freshUserData userData ;;
        RegistrationPage.fillRegistrationForm freshUserData ;;
        isFormValid <- RegistrationPage.validateFormData freshUserData ;;
        expect_toBeTruthy isFormValid ;;
        RegistrationPage.submitRegistration ;;
        isSuccessful <- RegistrationPage.isRegistrationSuccessful ;;
        if isSuccessful then
          retryLoop fuel' userData attempt true
        else
          errorMessages <- RegistrationPage.getErrorMessages ;;
          if hasUsernameConflict errorMessages && (attempt <? maxAttempts) then
            Page.reload ;;
            HomePage.clickRegisterLink ;;
            retryLoop fuel' userData attempt success
          else
            (* break *)
            ret (Some success)
    end
  else ret (Some success).

(** The body of the step 'Fill registration form with valid data'. *)
Definition fillRegistrationStep (fuel : nat) (userData : UserData) : M W (option unit) :=
  done <- retryLoop fuel userData 0 false ;;
  match done with
  | None => ret None
  | Some success =>
      if negb success then
        throw (Error ("Registration failed after " ++ JsString.toString maxAttempts
                      ++ " attempts"))
      else ret (Some tt)
  end.

End RegistrationSpec.
End RegistrationSpec.

(* ===================================================================== *)
(** * test.js: ParaBankTestSuite *)
(* ===================================================================== *)

Inductive Status := RUNNING | PASSED | FAILED.

(** The [step] object of [executeStep]. *)
Record StepResult := mkStep {
  step_name : string;
  step_status : Status;
  step_startTime : Z;
  step_endTime : option Z;
  step_result : option string;
  step_error : option string
}.

(** The [testCase] object of [runTestCase001]. *)
Record CaseResult := mkCase {
  case_id : string;
  case_name : string;
  case_status : Status;
  case_steps : list StepResult;
  case_startTime : Z;
  case_endTime : option Z;
  case_error : option string
}.

(** [this.testResults] *)
Record RunRecord := mkRunRecord {
  startTime : Z;
  endTime : option Z;
  totalTests : Z;
  passedTests : Z;
  failedTests : Z;
  testCases : list CaseResult
}.

(** The fields of a [ParaBankTestSuite] object; [browser] holds whether
    [this.browser] has been set. *)
Record Suite := mkSuite {
  browser : bool;
  testResults : RunRecord
}.

Module TestSuite.
Section TestSuite.
Context {W : Type} `{Env W}.

(** The HTML text that [generateReport] builds from the run record, from
    [process.env.CI] and from the time of generation. *)
Variable renderReport : RunRecord -> option string -> Z -> string.

Definition newline : string := String (ascii_of_nat 10) EmptyString.

(** Field updates. *)
Definition set_step_status (v : Status) (s : StepResult) : StepResult :=
  mkStep (step_name s) v (step_startTime s) (step_endTime s) (step_result s) (step_error s).
Definition set_step_endTime (v : option Z) (s : StepResult) : StepResult :=
  mkStep (step_name s) (step_status s) (step_startTime s) v (step_result s) (step_error s).
Definition set_step_result (v : option string) (s : StepResult) : StepResult :=
  mkStep (step_name s) (step_status s) (step_startTime s) (step_endTime s) v (step_error s).
Definition set_step_error (v : option string) (s : StepResult) : StepResult :=
  mkStep (step_name s) (step_status s) (step_startTime s) (step_endTime s) (step_result s) v.

Definition set_case_status (v : Status) (c : CaseResult) : CaseResult :=
  mkCase (case_id c) (case_name c) v (case_steps c) (case_startTime c) (case_endTime c)
         (case_error c).
Definition push_case_step (v : StepResult) (c : CaseResult) : CaseResult :=
  mkCase (case_id c) (case_name c) (case_status c) (push (case_steps c) v)
         (case_startTime c) (case_endTime c) (case_error c).
Definition set_case_endTime (v : option Z) (c : CaseResult) : CaseResult :=
  mkCase (case_id c) (case_name c) (case_status c) (case_steps c) (case_startTime c) v
         (case_error c).
Definition set_case_error (v : option string) (c : CaseResult) : CaseResult :=
  mkCase (case_id c) (case_name c) (case_status c) (case_steps c) (case_startTime c)
         (case_endTime c) v.

Definition on_testResults (f : RunRecord -> RunRecord) (t : Suite) : Suite :=
  mkSuite (browser t) (f (testResults t)).
Definition set_browser (v : bool) (t : Suite) : Suite :=
  mkSuite v (testResults t).
Definition incr_passedTests (r : RunRecord) : RunRecord :=
  mkRunRecord (startTime r) (endTime r) (totalTests r) (passedTests r + 1)
              (failedTests r) (testCases r).
Definition incr_failedTests (r : RunRecord) : RunRecord :=
  mkRunRecord (startTime r) (endTime r) (totalTests r) (passedTests r)
              (failedTests r + 1) (testCases r).
Definition incr_totalTests (r : RunRecord) : RunRecord :=
  mkRunRecord (startTime r) (endTime r) (totalTests r + 1) (passedTests r)
              (failedTests r) (testCases r).
Definition push_testCase (c : CaseResult) (r : RunRecord) : RunRecord :=
  mkRunRecord (startTime r) (endTime r) (totalTests r) (passedTests r)
              (failedTests r) (push (testCases r) c).
Definition set_endTime (v : option Z) (r : RunRecord) : RunRecord :=
  mkRunRecord (startTime r) v (totalTests r) (passedTests r) (failedTests r)
              (testCases r).

(** [constructor()] *)
Definition constructor : M W Suite :=
  now <- Sys.dateNow ;;
  ret (mkSuite false (mkRunRecord now None 0 0 0 [])).

(** [this.browser] is set once [chromium.launch] has returned; the listener
    that [page.on] registers only writes to the console. *)
Definition initialize : M (Suite * W) unit :=
  env <- lift (Sys.getEnv "HEADLESS") ;;
  let headless := match env with
                  | Some v => negb (String.eqb v "false")
                  | None => true
                  end in
  lift (Sys.launch headless) ;;
  modifyL (set_browser true) ;;
  lift Sys.newContext ;;
  lift Sys.newPage.

Definition cleanup : M (Suite * W) unit :=
  this <- getL ;;
  (if browser this then lift Sys.browserClose else ret tt) ;;
  now <- lift Sys.dateNow ;;
  modifyL (on_testResults (set_endTime (Some now))).

(** The [try]/[catch]/[finally] of [executeStep], run on the [step]
    object held in the frame. *)
Definition executeStep_try (stepFunction : M W string) : M (StepResult * W) unit :=
  try_finally
    (try_catch
       (result <- lift stepFunction ;;
        modifyL (set_step_result (Some result)) ;;
        modifyL (set_step_status PASSED))
       (fun error =>
          modifyL (set_step_status FAILED) ;;
          modifyL (set_step_error (Some (message error))) ;;
          throw error))
    (now <- lift Sys.dateNow ;;
     modifyL (set_step_endTime (Some now))).

Definition executeStep (stepName : string) (stepFunction : M W string) : M W StepResult :=
  now <- Sys.dateNow ;;
  r <- in_frame (mkStep stepName RUNNING now None None None)
                (executeStep_try stepFunction) ;;
  ret (snd r).

(** ** The five steps of TC 001 *)

Definition successText := "text=Your account was created successfully".

Definition step1 : M W string :=
  Page.goto "https://parabank.parasoft.com/parabank/index.htm" "domcontentloaded"
            (Some 30000) ;;
  Page.waitForSelector "text=Customer Login" Visible 10000 ;;
  title <- Page.title ;;
  if negb (JsString.includes title "ParaBank") then
    throw (Error ("Expected ParaBank in title, got: " ++ title))
  else
    ret ("Successfully navigated to ParaBank. Title: " ++ title).

Definition step2 : M W string :=
  Page.click "text=Register" ;;
  Page.waitForSelector "text=Signing up is easy!" Visible 10000 ;;
  url <- Page.url ;;
  if negb (JsString.includes url "register.htm") then
    throw (Error ("Expected register.htm in URL, got: " ++ url))
  else
    ret ("Successfully navigated to registration page: " ++ url).

Definition byName (name : string) : string := "[name=" ++ dq ++ name ++ dq ++ "]".

Definition step3 (uniqueUsername : string) (testData : UserData) : M W string :=
  Page.fill (byName "customer.firstName") (firstName testData) ;;
  Page.fill (byName "customer.lastName") (lastName testData) ;;
  Page.fill (byName "customer.address.street") (address testData) ;;
  Page.fill (byName "customer.address.city") (city testData) ;;
  Page.fill (byName "customer.address.state") (state testData) ;;
  Page.fill (byName "customer.address.zipCode") (zipCode testData) ;;
  Page.fill (byName "customer.phoneNumber") (phone testData) ;;
  Page.fill (byName "customer.ssn") (ssn testData) ;;
  Page.fill (byName "customer.username") (username testData) ;;
  Page.fill (byName "customer.password") (password testData) ;;
  Page.fill (byName "repeatedPassword") (password testData) ;;
  ret ("Form filled with username: " ++ uniqueUsername).

(** [text.includes(needle)] on the answer of [textContent], which may be
    [null]. *)
Definition text_includes (text : option string) (needle : string) : M W bool :=
  match text with
  | Some s => ret (JsString.includes s needle)
  | None => throw (TypeError "Cannot read properties of null (reading 'includes')")
  end.

(** [Some v]: the [catch] block returned [v] from the step function. *)
Definition step4 : M W string :=
  Page.click ("input[value=" ++ dq ++ "Register" ++ dq ++ "]") ;;
  returned <-
    try_catch
      (Page.waitForSelector successText Visible 60000 ;;
       ret None)
      (fun error =>
         pageContent <- Page.content ;;
         if JsString.includes pageContent "Verifying you are human"
            || JsString.includes pageContent "Just a moment" then
           Page.waitForTimeout 15000 ;;
           Page.waitForSelector successText Visible 45000 ;;
           ret None
         else
           welcomeText <- promise_catch (Page.textContent "body") (Some EmptyString) ;;
           hasWelcome <- text_includes welcomeText "Welcome" ;;
           hasCreated <- (if hasWelcome
                          then text_includes welcomeText "Your account was created"
                          else ret false) ;;
           if hasCreated then
             ret (Some "Registration successful - found via alternative text check")
           else throw error) ;;
  match returned with
  | Some v => ret v
  | None => ret "Registration form submitted successfully"
  end.

Definition step5 (uniqueUsername : string) : M W string :=
  pageTitle <- Page.title ;;
  let welcomeSelector := "text=Welcome " ++ uniqueUsername in
  let successMessage := successText in
  try_catch
    (Page.waitForSelector welcomeSelector Visible 10000)
    (fun _error =>
       n <- Page.locator_count "text=Welcome" ;;
       let hasWelcome := (0 <? n)%nat in
       if negb hasWelcome then
         throw (Error ("Welcome message for " ++ uniqueUsername
                       ++ " not found after registration"))
       else ret tt) ;;
  n <- Page.locator_count successMessage ;;
  let hasSuccessMessage := (0 <? n)%nat in
  let verifications : list string := [] in
  let verifications :=
    if JsString.includes pageTitle "Customer Created"
       || JsString.includes pageTitle "ParaBank"
    then push verifications "✅ Page title indicates successful registration"
    else push verifications ("❌ Unexpected page title: " ++ pageTitle) in
  welcomeVisible <- promise_catch (Page.isVisible welcomeSelector) false ;;
  verifications <-
    (if welcomeVisible then
       ret (push verifications
                 ("✅ Welcome message for " ++ uniqueUsername ++ " displayed"))
     else
       anyWelcome <- promise_catch (Page.textContent "body") (Some EmptyString) ;;
       found <- text_includes anyWelcome "Welcome" ;;
       if found then
         ret (push verifications
                   "✅ General welcome message found (user may be logged in)")
       else ret (push verifications "❌ No welcome message found")) ;;
  verifications <-
    (if hasSuccessMessage then
       ret (push verifications "✅ Success message displayed")
     else
       bodyText <- promise_catch (Page.textContent "body") (Some EmptyString) ;;
       hasSuccessfully <- text_includes bodyText "successfully" ;;
       hasCreated <- (if hasSuccessfully then ret true
                      else text_includes bodyText "created") ;;
       if hasCreated then
         ret (push verifications "✅ Success indicators found in page content")
       else ret (push verifications "❌ No clear success message found")) ;;
  ret (String.concat newline verifications).

(** [testCase.steps.push(await this.executeStep(name, fn))]: the push
    happens once [executeStep] has returned the step. *)
Definition pushStep (stepName : string) (stepFunction : M W string)
  : M (CaseResult * (Suite * W)) unit :=
  step <- lift (lift (executeStep stepName stepFunction)) ;;
  modifyL (push_case_step step).

Definition runTestCase001_try : M (CaseResult * (Suite * W)) unit :=
  pushStep "Navigate to ParaBank homepage" step1 ;;
  pushStep "Click on Register link" step2 ;;
  timestamp <- lift (lift Sys.dateNow) ;;
  let uniqueUsername := "testuser" ++ JsString.toString timestamp in
  let testData :=
    {| firstName := "Test";
       lastName := "User";
       address := "123 Test Street";
       city := "Test City";
       state := "CA";
       zipCode := "12345";
       phone := "555-123-4567";
       ssn := "123-45-6789";
       username := uniqueUsername;
       password := "TestPass123!" |} in
  pushStep "Fill registration form with test data" (step3 uniqueUsername testData) ;;
  pushStep "Submit registration form" step4 ;;
  pushStep "Verify welcome message with username" (step5 uniqueUsername) ;;
  modifyL (set_case_status PASSED) ;;
  now <- lift (lift Sys.dateNow) ;;
  modifyL (set_case_endTime (Some now)) ;;
  lift (modifyL (on_testResults incr_passedTests)).

Definition runTestCase001_catch (error : JsError) : M (CaseResult * (Suite * W)) unit :=
  modifyL (set_case_status FAILED) ;;
  modifyL (set_case_error (Some (message error))) ;;
  now <- lift (lift Sys.dateNow) ;;
  modifyL (set_case_endTime (Some now)) ;;
  lift (modifyL (on_testResults incr_failedTests)) ;;
  try_catch
    (lift (lift (Page.screenshot "test-results/failure-screenshot.png")))
    (fun _screenshotError => ret tt).

Definition runTestCase001 : M (Suite * W) CaseResult :=
  now <- lift Sys.dateNow ;;
  r <- in_frame
         (mkCase "TC 001" "Verify that user can register a new customer" RUNNING []
                 now None None)
         (try_catch runTestCase001_try runTestCase001_catch) ;;
  let testCase := snd r in
  modifyL (on_testResults (push_testCase testCase)) ;;
  modifyL (on_testResults incr_totalTests) ;;
  ret testCase.

(** The report text is built from [this.testResults], [process.env.CI] and
    [new Date()]; then the directory is made if missing and the file
    written. *)
Definition generateReport : M (Suite * W) string :=
  this <- getL ;;
  ci <- lift (Sys.getEnv "CI") ;;
  now <- lift Sys.dateNow ;;
  let report := renderReport (testResults this) ci now in
  let testResultsDir := "test-results" in
  present <- lift (Sys.existsSync testResultsDir) ;;
  (if negb present then lift (Sys.mkdirSync testResultsDir) else ret tt) ;;
  lift (Sys.writeFileSync "Test_Execution_Report.html" report) ;;
  ret report.

(** [process.exit] ends the process where it is called: neither the [catch]
    nor the [finally] block runs after it.  Between the report and the exit
    the method only computes the success rate and prints the summary. *)
Definition run : M (Suite * W) unit :=
  try_finally
    (try_catch
       (initialize ;;
        runTestCase001 ;;
        generateReport ;;
        this <- getL ;;
        if 0 <? failedTests (testResults this) then process_exit 1
        else process_exit 0)
       (fun _error => process_exit 1))
    cleanup.

End TestSuite.
End TestSuite.

(* ===================================================================== *)
(** * Reading traces *)
(* ===================================================================== *)

(** The environment rejected the call. *)
Definition rejected (ev : Event) : bool :=
  match ev with
  | EvWaitForTimeout _ r | EvWaitForSelector _ _ _ r | EvFill _ _ r | EvClick _ r
  | EvWaitForLoadState _ r | EvGoto _ _ _ r | EvReload r | EvScreenshot _ r
  | EvLaunch _ r | EvNewContext r | EvNewPage r | EvBrowserClose r
  | EvMkdirSync _ r | EvWriteFileSync _ _ r => negb (succeeded r)
  | EvUrl r | EvContent r | EvInputValue _ r | EvTitle r => negb (succeeded r)
  | EvCount _ r => negb (succeeded r)
  | EvAllTextContents _ r => negb (succeeded r)
  | EvTextContent _ r | EvElementTextContent _ r => negb (succeeded r)
  | EvQueryAll _ r => negb (succeeded r)
  | EvIsVisible _ r | EvExistsSync _ r => negb (succeeded r)
  | EvDateNow _ | EvRandom _ | EvGetEnv _ _ => false
  end.

(** The visibility probe of [isElementVisible]: the 5000 ms wait whose
    failure the method turns into [false]. *)
Definition visibilityProbe (ev : Event) : bool :=
  match ev with
  | EvWaitForSelector _ Visible timeout _ => timeout =? 5000
  | _ => false
  end.

(** The probe of one given selector. *)
Definition probeOf (selector : string) (ev : Event) : bool :=
  match ev with
  | EvWaitForSelector s Visible timeout _ => String.eqb s selector && (timeout =? 5000)
  | _ => false
  end.

(** An element lookup made for a success signal: an element wait or an
    element text read. *)
Definition elementLookup (ev : Event) : bool :=
  match ev with
  | EvWaitForSelector _ _ _ _ | EvTextContent _ _ => true
  | _ => false
  end.

(** A success-signal lookup: an element lookup or the page-content read. *)
Definition successSignalLookup (ev : Event) : bool :=
  match ev with
  | EvContent _ => true
  | _ => elementLookup ev
  end.

(** A fill or a click. *)
Definition formAction (ev : Event) : bool :=
  match ev with
  | EvFill _ _ _ | EvClick _ _ => true
  | _ => false
  end.

(** The value filled into [selector], when [ev] is such a fill. *)
Definition filledInto (selector : string) (ev : Event) : option string :=
  match ev with
  | EvFill s v _ => if String.eqb s selector then Some v else None
  | _ => None
  end.

(** The values filled into [selector], in order. *)
Fixpoint fillsOf (selector : string) (t : list Event) : list string :=
  match t with
  | [] => []
  | ev :: rest =>
      match filledInto selector ev with
      | Some v => v :: fillsOf selector rest
      | None => fillsOf selector rest
      end
  end.

Definition isClickOn (selector : string) (ev : Event) : bool :=
  match ev with
  | EvClick s _ => String.eqb s selector
  | _ => false
  end.

(** How many times [selector] was clicked. *)
Definition clicksOn (selector : string) (t : list Event) : nat :=
  List.length (filter (isClickOn selector) t).

(** A reading of the clock or of the random source. *)
Definition readsTimeOrRandomness (ev : Event) : bool :=
  match ev with
  | EvDateNow _ | EvRandom _ => true
  | _ => false
  end.

(** The texts [getErrorMessages] keeps from the element reads of a trace:
    trimmed, and dropped when empty. *)
Fixpoint messagesRead (t : list Event) : list string :=
  match t with
  | [] => []
  | EvElementTextContent _ (Ok (Some text)) :: rest =>
      if JsString.truthy (JsString.trim text)
      then JsString.trim text :: messagesRead rest
      else messagesRead rest
  | _ :: rest => messagesRead rest
  end.

(** [r] with the calls of [t] made before it. *)
Definition after_trace {S A} (t : list Event) (r : Run S A) : Run S A :=
  mkRun (outcome r) (final r) (t ++ trace r).

(* ===================================================================== *)
(** * The vocabulary of the statements *)
(* ===================================================================== *)

(** Method 5, the URL signal: it makes no call. *)
Definition urlSignal (currentUrl : string) : bool :=
  JsString.includes currentUrl "overview"
  || JsString.includes currentUrl "account"
  || negb (JsString.includes currentUrl "register.htm").

(** The URL read in [t] satisfies the URL signal. *)
Definition urlSignalIn (t : list Event) : bool :=
  existsb (fun ev => match ev with
                     | EvUrl (Ok currentUrl) => urlSignal currentUrl
                     | _ => false
                     end) t.

(** [ev] is a lookup of the element [selector]. *)
Definition lookupOf (selector : string) (ev : Event) : bool :=
  match ev with
  | EvWaitForSelector s _ _ _ | EvTextContent s _ => String.eqb s selector
  | _ => false
  end.

(** Evaluation goes on after the lookup [ev] of an element signal: the calls
    made [after] it start with the probe of the next element signal; after
    the last element signal they are the page-content read of Method 6 and
    nothing else, unless the URL read [before] satisfies the URL signal,
    which then answers [true] without a call. *)
Definition goesOn (before : list Event) (ev : Event) (after : list Event)
                  (result : Outcome bool) : Prop :=
  if lookupOf RegistrationPage.successMessage ev then
    exists next rest,
      after = next :: rest /\ probeOf RegistrationPage.usernameParagraph next = true
  else if lookupOf RegistrationPage.usernameParagraph ev then
    exists next rest,
      after = next :: rest /\ probeOf RegistrationPage.welcomeMessage next = true
  else if lookupOf RegistrationPage.welcomeMessage ev then
    exists next rest,
      after = next :: rest
      /\ probeOf RegistrationPage.accountServicesSection next = true
  else if lookupOf RegistrationPage.accountServicesSection ev then
    if urlSignalIn before then after = [] /\ result = Ret true
    else exists x, after = [EvContent x]
  else False.

(** Evaluation goes on after every failed lookup of the kind [lookup]. *)
Definition continues_after_failed {S} (lookup : Event -> bool) (r : Run S bool) : Prop :=
  forall before ev after,
    trace r = (before ++ ev :: after)%list ->
    lookup ev = true -> rejected ev = true ->
    goesOn before ev after (outcome r).


(** Every character of [s] satisfies [p]. *)
Fixpoint allChars (p : ascii -> bool) (s : string) : bool :=
  match s with
  | EmptyString => true
  | String c rest => p c && allChars p rest
  end.

Definition notUnderscore (c : ascii) : bool := negb (Ascii.eqb c "_").

(** Digits that [digitChar] writes as a digit or as a letter. *)
Definition writtenDigits (written : list Z) : Prop :=
  Forall (fun digit => 0 <= digit < 128) written.

Section LoopParts.
Context {W : Type} `{Env W}.

(** One pass of the loop body of TC 001 in which the detector is asked and
    then the error messages are read: fill, validate, submit, detect,
    collect.  It returns what [validateFormData], [isRegistrationSuccessful]
    and [getErrorMessages] returned. *)
Definition attemptPass (userData : UserData) : M W (bool * bool * list string) :=
  RegistrationPage.fillRegistrationForm userData ;;
  isFormValid <- RegistrationPage.validateFormData userData ;;
  RegistrationPage.submitRegistration ;;
  isSuccessful <- RegistrationPage.isRegistrationSuccessful ;;
  errorMessages <- RegistrationPage.getErrorMessages ;;
  ret (isFormValid, isSuccessful, errorMessages).

(** What the loop does between two passes. *)
Definition reloadAndReopen : M W unit :=
  Page.reload ;;
  HomePage.clickRegisterLink.

End LoopParts.

(** [m] never ends the process. *)
Definition never_exits {S A} (m : M S A) : Prop :=
  forall s code, outcome (m s) <> Exit code.

(** A step record that has been closed as failed with the message of [e]. *)
Definition finalizedAsFailed (e : JsError) (step : StepResult) : Prop :=
  step_status step = FAILED /\
  step_error step = Some (message e) /\
  step_endTime step <> None.

(** Every step recorded in the case has passed. *)
Definition allStepsPassed (c : CaseResult) : Prop :=
  Forall (fun step => step_status step = PASSED) (case_steps c).

(** A case whose status is final and whose end time is set. *)
Definition terminal (c : CaseResult) : Prop :=
  (case_status c = PASSED \/ case_status c = FAILED) /\ case_endTime c <> None.

(** The invariant of the run record. *)
Definition recordInvariant (r : RunRecord) : Prop :=
  totalTests r = passedTests r + failedTests r /\
  totalTests r = Z.of_nat (List.length (testCases r)) /\
  Forall terminal (testCases r).

(* ===================================================================== *)
(** * A scripted environment *)
(* ===================================================================== *)

(** A browser whose answers are fixed in advance by a [Script].  Its state is
    the content of the form fields and a clock that advances by one at each
    reading.  It serves to run the code on concrete inputs. *)
Record Script := mkScript {
  sc_waitForTimeout : Result unit;
  sc_url : Result string;
  sc_count : string -> Result nat;
  sc_allTextContents : string -> Result (list string);
  sc_waitForSelector : string -> SelectorState -> Z -> Result unit;
  sc_textContent : string -> Result (option string);
  sc_content : Result string;
  sc_queryAll : string -> Result (list ElementHandle);
  sc_elementTextContent : ElementHandle -> Result (option string);
  sc_title : Result string;
  sc_isVisible : string -> Result bool;
  sc_goto : Result unit;
  sc_random : JsNumber.Random;
  sc_launch : Result unit;
  sc_writeFileSync : Result unit
}.

Record Scripted := mkScripted {
  script : Script;
  form : list (string * string);
  clock : Z
}.

Definition form_lookup (selector : string) (form : list (string * string)) : string :=
  match find (fun kv => String.eqb (fst kv) selector) form with
  | Some kv => snd kv
  | None => EmptyString
  end.

Definition fixed {A} (r : A) (w : Scripted) : A * Scripted := (r, w).

#[export] Instance scripted_env : Env Scripted := {
  env_waitForTimeout _ w := (sc_waitForTimeout (script w), w);
  env_url w := (sc_url (script w), w);
  env_count selector w := (sc_count (script w) selector, w);
  env_allTextContents selector w := (sc_allTextContents (script w) selector, w);
  env_waitForSelector selector st timeout w :=
    (sc_waitForSelector (script w) selector st timeout, w);
  env_textContent selector w := (sc_textContent (script w) selector, w);
  env_content w := (sc_content (script w), w);
  env_queryAll selector w := (sc_queryAll (script w) selector, w);
  env_elementTextContent h w := (sc_elementTextContent (script w) h, w);
  env_fill selector value w :=
    (Ok tt, mkScripted (script w) ((selector, value) :: form w) (clock w));
  env_click _ := fixed (Ok tt);
  env_inputValue selector w := (Ok (form_lookup selector (form w)), w);
  env_waitForLoadState _ := fixed (Ok tt);
  env_goto _ _ _ w := (sc_goto (script w), w);
  env_reload w := (Ok tt, mkScripted (script w) [] (clock w));
  env_title w := (sc_title (script w), w);
  env_isVisible selector w := (sc_isVisible (script w) selector, w);
  env_screenshot _ := fixed (Ok tt);
  env_dateNow w := (clock w, mkScripted (script w) (form w) (clock w + 1));
  env_random w := (sc_random (script w), w);
  env_getEnv _ := fixed None;
  env_launch _ w := (sc_launch (script w), w);
  env_newContext := fixed (Ok tt);
  env_newPage := fixed (Ok tt);
  env_browserClose := fixed (Ok tt);
  env_existsSync _ := fixed (Ok true);
  env_mkdirSync _ := fixed (Ok tt);
  env_writeFileSync _ _ w := (sc_writeFileSync (script w), w)
}.

(** The session a script starts in: empty form, clock at [now]. *)
Definition session (s : Script) (now : Z) : Scripted := mkScripted s [] now.

Definition timedOut {A} : Result A := Err (TimeoutError "Timeout exceeded").

(** The value a run returned, or [dflt]. *)
Definition returned {S A} (dflt : A) (r : Run S A) : A :=
  match outcome r with
  | Ret a => a
  | _ => dflt
  end.

(* ===================================================================== *)
(** * Scripts *)
(* ===================================================================== *)

(** The number 0.36715673, for [Math.random()]. *)
Definition sample_random : JsNumber.Random := JsNumber.mkRandom 1021 2110508022287783.

(** A page on which every element is found and every read answers. *)
Definition everything_present : Script := {|
  sc_waitForTimeout := Ok tt;
  sc_url := Ok "https://parabank.parasoft.com/parabank/register.htm";
  sc_count := fun _ => Ok 1%nat;
  sc_allTextContents := fun _ => Ok ["This username already exists."];
  sc_waitForSelector := fun _ _ _ => Ok tt;
  sc_textContent := fun _ => Ok (Some "Welcome testuser Your account was created successfully.");
  sc_content := Ok "<h1 class='title'>Welcome</h1><p>Your account was created successfully.</p>";
  sc_queryAll := fun _ => Ok [0%nat];
  sc_elementTextContent := fun _ => Ok (Some " This username already exists. ");
  sc_title := Ok "ParaBank | Customer Created";
  sc_isVisible := fun _ => Ok true;
  sc_goto := Ok tt;
  sc_random := sample_random;
  sc_launch := Ok tt;
  sc_writeFileSync := Ok tt
|}.

(** The registration page after a submission: no error element, none of the
    success elements, and the given page text, when it can be read. *)
Definition bare_page (pageContent : Result string) : Script := {|
  sc_waitForTimeout := Ok tt;
  sc_url := Ok "https://parabank.parasoft.com/parabank/register.htm";
  sc_count := fun _ => Ok 0%nat;
  sc_allTextContents := fun _ => Ok [];
  sc_waitForSelector := fun _ _ _ => timedOut;
  sc_textContent := fun _ => timedOut;
  sc_content := pageContent;
  sc_queryAll := fun _ => Ok [];
  sc_elementTextContent := fun _ => Ok None;
  sc_title := Ok "ParaBank | Register for Free Online Account Access";
  sc_isVisible := fun _ => Ok false;
  sc_goto := Ok tt;
  sc_random := JsNumber.mkRandom 0 0;
  sc_launch := Ok tt;
  sc_writeFileSync := Ok tt
|}.

(** The registration page, after a submission, of a site whose address has
    'account' in it: no error element, none of the success elements, and
    the success text in the page content. *)
Definition account_site_page : Script := {|
  sc_waitForTimeout := Ok tt;
  sc_url := Ok "https://account.parabank.example/register.htm";
  sc_count := fun _ => Ok 0%nat;
  sc_allTextContents := fun _ => Ok [];
  sc_waitForSelector := fun _ _ _ => timedOut;
  sc_textContent := fun _ => timedOut;
  sc_content := Ok "<p>Your account was created successfully. You are now logged in.</p>";
  sc_queryAll := fun _ => Ok [];
  sc_elementTextContent := fun _ => Ok None;
  sc_title := Ok "ParaBank | Customer Created";
  sc_isVisible := fun _ => Ok false;
  sc_goto := Ok tt;
  sc_random := JsNumber.mkRandom 0 0;
  sc_launch := Ok tt;
  sc_writeFileSync := Ok tt
|}.

(** The browser redirected to the overview, with none of the success
    elements found. *)
Definition redirected : Script := {|
  sc_waitForTimeout := Ok tt;
  sc_url := Ok "https://parabank.parasoft.com/parabank/overview.htm";
  sc_count := fun _ => Ok 0%nat;
  sc_allTextContents := fun _ => Ok [];
  sc_waitForSelector := fun _ _ _ => Err (Error "Target page has been closed");
  sc_textContent := fun _ => timedOut;
  sc_content := Ok EmptyString;
  sc_queryAll := fun _ => Ok [];
  sc_elementTextContent := fun _ => Ok None;
  sc_title := Ok "ParaBank | Accounts Overview";
  sc_isVisible := fun _ => Ok false;
  sc_goto := Ok tt;
  sc_random := JsNumber.mkRandom 0 0;
  sc_launch := Ok tt;
  sc_writeFileSync := Ok tt
|}.

(** The success page on which the welcome title is shown but its text cannot
    be read, while the account-services section is shown and the browser has
    been redirected to the overview. *)
Definition title_unreadable : Script := {|
  sc_waitForTimeout := Ok tt;
  sc_url := Ok "https://parabank.parasoft.com/parabank/overview.htm";
  sc_count := fun _ => Ok 0%nat;
  sc_allTextContents := fun _ => Ok [];
  sc_waitForSelector := fun selector _ _ =>
    if String.eqb selector RegistrationPage.welcomeMessage
       || String.eqb selector RegistrationPage.accountServicesSection
    then Ok tt else timedOut;
  sc_textContent := fun _ => Err (Error "Element is not attached to the DOM");
  sc_content := Ok "<h1 class='title'>Welcome</h1>";
  sc_queryAll := fun _ => Ok [];
  sc_elementTextContent := fun _ => Ok None;
  sc_title := Ok "ParaBank | Accounts Overview";
  sc_isVisible := fun _ => Ok true;
  sc_goto := Ok tt;
  sc_random := JsNumber.mkRandom 0 0;
  sc_launch := Ok tt;
  sc_writeFileSync := Ok tt
|}.

(** A page whose only error element holds a no-break space and a
    byte-order mark, and nothing else. *)
Definition blank_error : Script := {|
  sc_waitForTimeout := Ok tt;
  sc_url := Ok "https://parabank.parasoft.com/parabank/register.htm";
  sc_count := fun _ => Ok 1%nat;
  sc_allTextContents := fun _ => Ok [JsString.utf8 0xA0 ++ JsString.utf8 0xFEFF];
  sc_waitForSelector := fun _ _ _ => timedOut;
  sc_textContent := fun _ => timedOut;
  sc_content := Ok EmptyString;
  sc_queryAll := fun _ => Ok [0%nat];
  sc_elementTextContent := fun _ => Ok (Some (JsString.utf8 0xA0 ++ JsString.utf8 0xFEFF));
  sc_title := Ok "ParaBank | Register for Free Online Account Access";
  sc_isVisible := fun _ => Ok false;
  sc_goto := Ok tt;
  sc_random := JsNumber.mkRandom 0 0;
  sc_launch := Ok tt;
  sc_writeFileSync := Ok tt
|}.


(** The registration page of a site on which every username is taken: each
    submission leaves the page with one error element. *)
Definition username_taken : Script := {|
  sc_waitForTimeout := Ok tt;
  sc_url := Ok "https://parabank.parasoft.com/parabank/register.htm";
  sc_count := fun selector =>
    if String.eqb selector ".error" then Ok 1%nat else Ok 0%nat;
  sc_allTextContents := fun _ => Ok ["This username already exists."];
  sc_waitForSelector := fun selector st _ =>
    match st with
    | Visible => if String.eqb selector ".cf-challenge-container" then timedOut else Ok tt
    | Hidden => Ok tt
    end;
  sc_textContent := fun _ => Ok (Some "Signing up is easy!");
  sc_content := Ok "<span class='error'>This username already exists.</span>";
  sc_queryAll := fun _ => Ok [0%nat];
  sc_elementTextContent := fun _ => Ok (Some "This username already exists.");
  sc_title := Ok "ParaBank | Register for Free Online Account Access";
  sc_isVisible := fun _ => Ok false;
  sc_goto := Ok tt;
  sc_random := sample_random;
  sc_launch := Ok tt;
  sc_writeFileSync := Ok tt
|}.

(** The start of the Playwright test on the site where every username is
    taken, and the user data generated there. *)
Definition test_start : Scripted := session username_taken 1700000000000.

Definition sample_user : UserData :=
  Eval vm_compute in
    returned (mkUserData EmptyString EmptyString EmptyString EmptyString EmptyString
                         EmptyString EmptyString EmptyString EmptyString EmptyString)
             (UserDataGen.generateUniqueUser test_start).

(** The site cannot be reached: the first navigation times out. *)
Definition site_unreachable : Script := {|
  sc_waitForTimeout := Ok tt;
  sc_url := Ok "about:blank";
  sc_count := fun _ => Ok 0%nat;
  sc_allTextContents := fun _ => Ok [];
  sc_waitForSelector := fun _ _ _ => timedOut;
  sc_textContent := fun _ => Ok (Some EmptyString);
  sc_content := Ok EmptyString;
  sc_queryAll := fun _ => Ok [];
  sc_elementTextContent := fun _ => Ok None;
  sc_title := Ok EmptyString;
  sc_isVisible := fun _ => Ok false;
  sc_goto := timedOut;
  sc_random := JsNumber.mkRandom 0 0;
  sc_launch := Ok tt;
  sc_writeFileSync := Ok tt
|}.

(** The registration succeeds, and the report file cannot be written. *)
Definition report_unwritable : Script := {|
  sc_waitForTimeout := sc_waitForTimeout everything_present;
  sc_url := sc_url everything_present;
  sc_count := sc_count everything_present;
  sc_allTextContents := sc_allTextContents everything_present;
  sc_waitForSelector := sc_waitForSelector everything_present;
  sc_textContent := sc_textContent everything_present;
  sc_content := sc_content everything_present;
  sc_queryAll := sc_queryAll everything_present;
  sc_elementTextContent := sc_elementTextContent everything_present;
  sc_title := sc_title everything_present;
  sc_isVisible := sc_isVisible everything_present;
  sc_goto := sc_goto everything_present;
  sc_random := sc_random everything_present;
  sc_launch := sc_launch everything_present;
  sc_writeFileSync := Err (Error "EROFS: read-only file system, open 'Test_Execution_Report.html'")
|}.

(** A report text for the runs on scripted environments. *)
Definition sampleReport (r : RunRecord) (ci : option string) (now : Z) : string :=
  "<html>Total Tests: " ++ JsString.toString (totalTests r) ++ "</html>".

(** A new suite object: what [constructor] returns at time [now]. *)
Definition newSuite (now : Z) : Suite := mkSuite false (mkRunRecord now None 0 0 0 []).

(* ===================================================================== *)
(** * More vocabulary: calls, waits and evidence *)
(* ===================================================================== *)

(** Every call [m] makes satisfies [P], whatever state it starts in. *)
Definition calls_only {S A} (P : Event -> bool) (m : M S A) : Prop :=
  forall s, forallb P (trace (m s)) = true.

(** How many calls of the kind [p] a trace holds. *)
Definition countOf (p : Event -> bool) (t : list Event) : nat :=
  List.length (filter p t).

(** [m] makes at most [n] calls of the kind [p], whatever state it starts
    in. *)
Definition calls_at_most {S A} (p : Event -> bool) (n : nat) (m : M S A) : Prop :=
  forall s, (countOf p (trace (m s)) <= n)%nat.

Definition isReload (ev : Event) : bool :=
  match ev with EvReload _ => true | _ => false end.

(** A fill of the username field of the registration form. *)
Definition isUsernameFill (ev : Event) : bool :=
  match filledInto RegistrationPage.usernameInput ev with
  | Some _ => true
  | None => false
  end.

(** [ev] brings no new user data: it reads neither the clock nor the random
    source, and if it fills the username field, it fills it with [name]. *)
Definition keepsUsername (name : string) (ev : Event) : bool :=
  negb (readsTimeOrRandomness ev)
  && match filledInto RegistrationPage.usernameInput ev with
     | Some value => String.eqb value name
     | None => true
     end.

Definition isFill (ev : Event) : bool :=
  match ev with EvFill _ _ _ => true | _ => false end.

Definition isScreenshot (ev : Event) : bool :=
  match ev with EvScreenshot _ _ => true | _ => false end.

Definition isBrowserClose (ev : Event) : bool :=
  match ev with EvBrowserClose _ => true | _ => false end.

Definition isFileWrite (ev : Event) : bool :=
  match ev with EvWriteFileSync _ _ _ => true | _ => false end.

(** A wait on the container of the Cloudflare challenge. *)
Definition challengeWait (ev : Event) : bool :=
  match ev with
  | EvWaitForSelector selector _ _ _ => String.eqb selector ".cf-challenge-container"
  | _ => false
  end.

(** The field and the value of every fill that was attempted, in order. *)
Fixpoint fillAttempts (t : list Event) : list (string * string) :=
  match t with
  | [] => []
  | EvFill selector value _ :: rest => (selector, value) :: fillAttempts rest
  | _ :: rest => fillAttempts rest
  end.

(** The field and the value of every fill the page accepted, in order. *)
Fixpoint successfulFills (t : list Event) : list (string * string) :=
  match t with
  | [] => []
  | EvFill selector value (Ok _) :: rest => (selector, value) :: successfulFills rest
  | _ :: rest => successfulFills rest
  end.

(** The fields of the registration form, with the value that
    [fillRegistrationForm] gives to each, in the order it fills them. *)
Definition formValues (userData : UserData) : list (string * string) :=
  [(RegistrationPage.firstNameInput, firstName userData);
   (RegistrationPage.lastNameInput, lastName userData);
   (RegistrationPage.addressInput, address userData);
   (RegistrationPage.cityInput, city userData);
   (RegistrationPage.stateInput, state userData);
   (RegistrationPage.zipCodeInput, zipCode userData);
   (RegistrationPage.phoneInput, phone userData);
   (RegistrationPage.ssnInput, ssn userData);
   (RegistrationPage.usernameInput, username userData);
   (RegistrationPage.passwordInput, password userData);
   (RegistrationPage.confirmPasswordInput, password userData)].

(** The selectors of the waits for visibility made with the time limit
    [timeout], in order. *)
Fixpoint waitedFor (timeout : Z) (t : list Event) : list string :=
  match t with
  | [] => []
  | EvWaitForSelector selector Visible limit _ :: rest =>
      if limit =? timeout then selector :: waitedFor timeout rest
      else waitedFor timeout rest
  | _ :: rest => waitedFor timeout rest
  end.

(** The time a call may block for: the delay asked of [waitForTimeout], the
    time limit given to [waitForSelector]. *)
Definition waitRequested (ev : Event) : Z :=
  match ev with
  | EvWaitForTimeout ms _ => ms
  | EvWaitForSelector _ _ timeout _ => timeout
  | _ => 0
  end.

Definition totalWait (t : list Event) : Z :=
  fold_right (fun ev acc => waitRequested ev + acc) 0 t.

(** An answer of the environment that one of the six methods of the
    detector takes as a sign of success. *)
Definition affirmative (ev : Event) : bool :=
  match ev with
  | EvWaitForSelector selector Visible timeout (Ok _) =>
      (timeout =? 5000)
      && (String.eqb selector RegistrationPage.successMessage
          || String.eqb selector RegistrationPage.usernameParagraph
          || String.eqb selector RegistrationPage.accountServicesSection)
  | EvTextContent selector (Ok (Some text)) =>
      String.eqb selector RegistrationPage.welcomeMessage
      && JsString.includes text "Welcome"
  | EvUrl (Ok currentUrl) =>
      JsString.includes currentUrl "overview"
      || JsString.includes currentUrl "account"
      || negb (JsString.includes currentUrl "register.htm")
  | EvContent (Ok pageContent) =>
      JsString.includes (JsString.toLowerCase pageContent) "account was created"
      || JsString.includes (JsString.toLowerCase pageContent) "welcome"
      || JsString.includes (JsString.toLowerCase pageContent) "successful"
  | _ => false
  end.

(** A reading of the '.error' elements by the detector. *)
Definition errorLookup (ev : Event) : bool :=
  match ev with
  | EvCount _ _ | EvAllTextContents _ _ => true
  | _ => false
  end.

(** The names of the steps of TC 001 in [runTestCase001], in order. *)
Definition stepNames : list string :=
  ["Navigate to ParaBank homepage";
   "Click on Register link";
   "Fill registration form with test data";
   "Submit registration form";
   "Verify welcome message with username"].

Section MoreLoopParts.
Context {W : Type} `{Env W}.

(** One pass of the loop body of TC 001 up to the answer of the detector:
    fill, validate, submit, detect.  It returns what [validateFormData] and
    [isRegistrationSuccessful] returned. *)
Definition detectionPass (userData : UserData) : M W (bool * bool) :=
  RegistrationPage.fillRegistrationForm userData ;;
  isFormValid <- RegistrationPage.validateFormData userData ;;
  RegistrationPage.submitRegistration ;;
  isSuccessful <- RegistrationPage.isRegistrationSuccessful ;;
  ret (isFormValid, isSuccessful).

End MoreLoopParts.

(* ===================================================================== *)
(** * More scripted environments *)
(* ===================================================================== *)

(** The registration page after a submission that the site accepted. *)
Definition account_created : Script := {|
  sc_waitForTimeout := Ok tt;
  sc_url := Ok "https://parabank.parasoft.com/parabank/register.htm";
  sc_count := fun _ => Ok 0%nat;
  sc_allTextContents := fun _ => Ok [];
  sc_waitForSelector := fun selector st _ =>
    match st with
    | Visible => if String.eqb selector ".cf-challenge-container" then timedOut else Ok tt
    | Hidden => Ok tt
    end;
  sc_textContent := fun _ => Ok (Some "Welcome u1");
  sc_content := Ok "<h1 class='title'>Welcome u1</h1><p>Your account was created successfully.</p>";
  sc_queryAll := fun _ => Ok [];
  sc_elementTextContent := fun _ => Ok None;
  sc_title := Ok "ParaBank | Customer Created";
  sc_isVisible := fun _ => Ok true;
  sc_goto := Ok tt;
  sc_random := sample_random;
  sc_launch := Ok tt;
  sc_writeFileSync := Ok tt
|}.

(** The registration page after a submission that changed nothing: the form
    is still shown, with no error element and no sign of success. *)
Definition nothing_happened : Script := {|
  sc_waitForTimeout := Ok tt;
  sc_url := Ok "https://parabank.parasoft.com/parabank/register.htm";
  sc_count := fun _ => Ok 0%nat;
  sc_allTextContents := fun _ => Ok [];
  sc_waitForSelector := fun _ _ timeout => if timeout =? 5000 then timedOut else Ok tt;
  sc_textContent := fun _ => Ok (Some "Signing up is easy!");
  sc_content := Ok "<h1 class='title'>Signing up is easy!</h1>";
  sc_queryAll := fun _ => Ok [];
  sc_elementTextContent := fun _ => Ok None;
  sc_title := Ok "ParaBank | Register for Free Online Account Access";
  sc_isVisible := fun _ => Ok false;
  sc_goto := Ok tt;
  sc_random := sample_random;
  sc_launch := Ok tt;
  sc_writeFileSync := Ok tt
|}.

(** The browser cannot be started. *)
Definition launch_fails : Script := {|
  sc_waitForTimeout := sc_waitForTimeout everything_present;
  sc_url := sc_url everything_present;
  sc_count := sc_count everything_present;
  sc_allTextContents := sc_allTextContents everything_present;
  sc_waitForSelector := sc_waitForSelector everything_present;
  sc_textContent := sc_textContent everything_present;
  sc_content := sc_content everything_present;
  sc_queryAll := sc_queryAll everything_present;
  sc_elementTextContent := sc_elementTextContent everything_present;
  sc_title := sc_title everything_present;
  sc_isVisible := sc_isVisible everything_present;
  sc_goto := sc_goto everything_present;
  sc_random := sc_random everything_present;
  sc_launch := Err (Error "browserType.launch: Executable doesn't exist");
  sc_writeFileSync := Ok tt
|}.

(** A site on which the username is taken for the first [refusals]
    submissions and free afterwards: a click on the Register button turns
    the page into the one showing the conflict, or into the one showing the
    new account. *)
Record Busy := mkBusy {
  refusals : nat;
  shown : Scripted
}.

Definition on_shown {A} (op : Scripted -> A * Scripted) (w : Busy) : A * Busy :=
  let (a, b) := op (shown w) in (a, mkBusy (refusals w) b).

Definition busy_click (selector : string) (w : Busy) : Result unit * Busy :=
  if String.eqb selector RegistrationPage.registerButton then
    match refusals w with
    | O => (Ok tt, mkBusy O (mkScripted account_created (form (shown w)) (clock (shown w))))
    | S n => (Ok tt, mkBusy n (mkScripted username_taken (form (shown w)) (clock (shown w))))
    end
  else on_shown (env_click selector) w.

#[export] Instance busy_env : Env Busy := {
  env_waitForTimeout ms := on_shown (env_waitForTimeout ms);
  env_url := on_shown env_url;
  env_count selector := on_shown (env_count selector);
  env_allTextContents selector := on_shown (env_allTextContents selector);
  env_waitForSelector selector st timeout :=
    on_shown (env_waitForSelector selector st timeout);
  env_textContent selector := on_shown (env_textContent selector);
  env_content := on_shown env_content;
  env_queryAll selector := on_shown (env_queryAll selector);
  env_elementTextContent h := on_shown (env_elementTextContent h);
  env_fill selector value := on_shown (env_fill selector value);
  env_click := busy_click;
  env_inputValue selector := on_shown (env_inputValue selector);
  env_waitForLoadState st := on_shown (env_waitForLoadState st);
  env_goto url waitUntil timeout := on_shown (env_goto url waitUntil timeout);
  env_reload := on_shown env_reload;
  env_title := on_shown env_title;
  env_isVisible selector := on_shown (env_isVisible selector);
  env_screenshot path := on_shown (env_screenshot path);
  env_dateNow := on_shown env_dateNow;
  env_random := on_shown env_random;
  env_getEnv name := on_shown (env_getEnv name);
  env_launch headless := on_shown (env_launch headless);
  env_newContext := on_shown env_newContext;
  env_newPage := on_shown env_newPage;
  env_browserClose := on_shown env_browserClose;
  env_existsSync path := on_shown (env_existsSync path);
  env_mkdirSync path := on_shown (env_mkdirSync path);
  env_writeFileSync path data := on_shown (env_writeFileSync path data)
}.

(** The registration form of a site that refuses the first two
    submissions. *)
Definition busy_start : Busy := mkBusy 2 (session username_taken 1700000000003).

(** What [getTestData] gives for 'duplicate_user' when the module was
    loaded at the start of the test. *)
Definition duplicate_user : UserData :=
  Eval vm_compute in
    returned sample_user
             (bind UserDataGen.testData
                   (fun data => UserDataGen.getTestData data "duplicate_user")
                   test_start).

(* ===================================================================== *)
(** * Proof automation *)
(* ===================================================================== *)

(** Unfolding the monad and the page calls down to the environment. *)
Ltac unfold_js :=
  cbv beta iota delta
    [bind ret throw try_catch try_finally promise_catch lift getL modifyL in_frame
     perform observe expect_toBeTruthy process_exit
     Page.waitForTimeout Page.url Page.locator_count Page.locator_allTextContents
     Page.waitForSelector Page.textContent Page.content Page.queryAll
     Page.element_textContent Page.fill Page.click Page.inputValue
     Page.waitForLoadState Page.goto Page.reload Page.title Page.isVisible
     Page.screenshot
     Sys.dateNow Sys.random Sys.getEnv Sys.launch Sys.newContext Sys.newPage
     Sys.browserClose Sys.existsSync Sys.mkdirSync Sys.writeFileSync
     BasePage.waitForElement BasePage.clickElement BasePage.fillField
     BasePage.getTextContent BasePage.isElementVisible BasePage.waitForPageLoad
     BasePage.handleCloudflareChallenge BasePage.getCurrentUrl
     BasePage.getPageTitle BasePage.timeout].

(** One case split on the answer of the next environment call, or on the
    next test the code makes. *)
Ltac case_env :=
  match goal with
  | |- context [match ?x with pair _ _ => _ end] =>
      destruct x as [[?|?] ?] eqn:?
  end.

Ltac case_if :=
  match goal with
  | |- context [if ?b then _ else _] => destruct b eqn:?
  end.

Ltac case_option :=
  match goal with
  | |- context [match ?o with Some _ => _ | None => _ end] => destruct o eqn:?
  end.

Ltac all_paths :=
  repeat (first [case_env | case_if | case_option]; cbn [outcome trace final app]).

(** Membership in a trace that is an explicit list: one case per entry. *)
Ltac split_in H :=
  cbn [In app] in H;
  repeat match type of H with
         | _ \/ _ => destruct H as [H | H]
         | False => contradiction
         end.

(** A trace that is an explicit list, cut at one of its entries: one case
    per entry. *)
Ltac split_at H :=
  repeat match type of H with
         | (_ :: _)%list = (?before ++ _ :: _)%list =>
             destruct before as [|? before]; cbn [app] in H;
             [ injection H as <- <- | injection H as _ H ]
         | [] = (?before ++ _ :: _)%list =>
             destruct before; discriminate H
         end.

(** As [split_at], keeping the entries before the cut. *)
Ltac cut_at H :=
  repeat match type of H with
         | (_ :: _)%list = (?before ++ _ :: _)%list =>
             destruct before as [|? before]; cbn [app] in H;
             [ injection H as <- <- | injection H as <- H ]
         | [] = (?before ++ _ :: _)%list =>
             destruct before; discriminate H
         end.

(** Comparisons of selectors, computed. *)
Ltac eval_eqb :=
  repeat match goal with
         | |- context [String.eqb ?a ?b] =>
             let v := eval vm_compute in (String.eqb a b) in
             change (String.eqb a b) with v
         end.

(** The tests made on the way, used in the goal. *)
Ltac use_tests :=
  repeat match goal with
         | Hb : ?x = true |- context [?x] => rewrite Hb
         | Hb : ?x = false |- context [?x] => rewrite Hb
         end.

(** Unfolding the detector down to the environment. *)
Ltac open_detector :=
  unfold RegistrationPage.isRegistrationSuccessful,
    RegistrationPage.isRegistrationSuccessful_try,
    RegistrationPage.successSignals, RegistrationPage.text_includes;
  unfold_js.

(** Unfolding a step function of the suite down to the environment. *)
Ltac open_step := unfold TestSuite.text_includes; unfold_js.

(** One [pushStep] of [runTestCase001_try]: by [spec] it returns with the
    step pushed, or it throws, which ends the [try] block. *)
Ltac push_one spec Hfn :=
  match goal with
  | |- context [bind (TestSuite.pushStep ?n ?f) _ (?c, (?s, ?w))] =>
      let o := fresh "o" in
      let c' := fresh "c" in
      let w' := fresh "w" in
      let t := fresh "t" in
      let E := fresh "E" in
      let step := fresh "step" in
      let e := fresh "e" in
      let Hst := fresh "Hst" in
      unfold bind at 1;
      destruct (spec n f c s w Hfn)
        as (o & c' & w' & t & E & [[-> (step & -> & Hst)] | (e & -> & ->)]);
      rewrite E; clear E;
      [ | do 5 eexists; split; [reflexivity|]; split; [assumption|];
          right; eexists; split; reflexivity ]
  end.

(* ===================================================================== *)
(** * Facts about the string methods *)
(* ===================================================================== *)

Module JsStringFacts.
Import JsString.

Lemma append_assoc (a b c : string) : (a ++ b) ++ c = a ++ (b ++ c).
Proof. induction a as [|x a IH]; simpl; [reflexivity | now rewrite IH]. Qed.

Lemma append_empty_r (a : string) : a ++ EmptyString = a.
Proof. induction a as [|x a IH]; simpl; [reflexivity | now rewrite IH]. Qed.

Lemma prefix_append (n s : string) : String.prefix n (n ++ s) = true.
Proof.
  induction n as [|x n IH]; simpl.
  - now destruct s.
  - destruct (ascii_dec x x); [exact IH | congruence].
Qed.

Lemma prefix_inv (n s : string) :
  String.prefix n s = true -> exists t, s = n ++ t.
Proof.
  revert s. induction n as [|x n IH]; intros s Hp.
  - exists s. reflexivity.
  - destruct s as [|y s]; simpl in Hp; [discriminate|].
    destruct (ascii_dec x y) as [->|]; [|discriminate].
    destruct (IH _ Hp) as [t ->]. exists t. reflexivity.
Qed.

Lemma includes_unfold (s n : string) :
  includes s n =
  if String.prefix n s then true
  else match s with
       | EmptyString => false
       | String _ rest => includes rest n
       end.
Proof. destruct s; reflexivity. Qed.

Lemma includes_append (a n b : string) : includes (a ++ n ++ b) n = true.
Proof.
  induction a as [|x a IH].
  - simpl append. rewrite includes_unfold, prefix_append. reflexivity.
  - rewrite includes_unfold. simpl append.
    destruct (String.prefix n (String x (a ++ n ++ b))); [reflexivity | exact IH].
Qed.

Lemma includes_inv (s n : string) :
  includes s n = true -> exists a b, s = a ++ n ++ b.
Proof.
  induction s as [|x s IH]; rewrite includes_unfold;
    destruct (String.prefix n _) eqn:Hp; intros Hi; try discriminate.
  - destruct (prefix_inv _ _ Hp) as [t ->]. exists EmptyString, t. reflexivity.
  - destruct (prefix_inv _ _ Hp) as [t ->]. exists EmptyString, t. reflexivity.
  - destruct (IH Hi) as (a & b & ->). exists (String x a), b. reflexivity.
Qed.

Lemma includes_trans (s t u : string) :
  includes s t = true -> includes t u = true -> includes s u = true.
Proof.
  intros Hst Htu.
  destruct (includes_inv _ _ Hst) as (a & b & ->).
  destruct (includes_inv _ _ Htu) as (c & d & ->).
  replace (a ++ (c ++ u ++ d) ++ b) with ((a ++ c) ++ u ++ (d ++ b)).
  - apply includes_append.
  - now rewrite !append_assoc.
Qed.

Lemma includes_refl (s : string) : includes s s = true.
Proof.
  pose proof (includes_append EmptyString s EmptyString) as P.
  simpl append in P. now rewrite append_empty_r in P.
Qed.

Lemma endsWith_unfold (s suffix : string) :
  endsWith s suffix =
  if String.eqb s suffix then true
  else match s with
       | EmptyString => false
       | String _ rest => endsWith rest suffix
       end.
Proof. destruct s; reflexivity. Qed.

Lemma endsWith_includes (s suffix : string) :
  endsWith s suffix = true -> includes s suffix = true.
Proof.
  induction s as [|x s IH]; rewrite endsWith_unfold.
  - destruct (String.eqb_spec EmptyString suffix) as [<-|];
      intros He; [reflexivity | discriminate He].
  - destruct (String.eqb_spec (String x s) suffix) as [<-|]; intros He.
    + apply includes_refl.
    + rewrite includes_unfold.
      destruct (String.prefix suffix (String x s)); [reflexivity | auto].
Qed.

Lemma toLowerCase_append (a b : string) :
  toLowerCase (a ++ b) = toLowerCase a ++ toLowerCase b.
Proof. induction a as [|x a IH]; simpl; [reflexivity | now rewrite IH]. Qed.

Lemma includes_toLowerCase (s n : string) :
  includes s n = true -> includes (toLowerCase s) (toLowerCase n) = true.
Proof.
  intros Hi. destruct (includes_inv _ _ Hi) as (a & b & ->).
  rewrite !toLowerCase_append. apply includes_append.
Qed.

(** The page text of the success page contains the first keyword of
    Method 6. *)
Lemma success_text_keyword (pageContent : string) :
  includes pageContent "Your account was created successfully" = true ->
  includes (toLowerCase pageContent) "account was created" = true.
Proof.
  intros Hi. apply includes_toLowerCase in Hi.
  apply (includes_trans _ _ _ Hi). reflexivity.
Qed.

(** ** [trim] *)








Section StripAll.
Variable prefixes : list string.
Hypothesis nonempty : forall p, In p prefixes -> p <> EmptyString.




End StripAll.











(** ** Number to string *)

(** More fuel than the number of binary digits changes nothing: the digits
    of [toStringRadix] are all there. *)
Lemma digitsOf_fuel_enough (radix : N) (fuel : nat) :
  (2 <= radix)%N ->
  forall (n : N) (acc : string),
    (n < 2 ^ N.of_nat (S fuel))%N ->
    digitsOf (S (S fuel)) radix n acc = digitsOf (S fuel) radix n acc.
Proof.
  intros Hradix. induction fuel as [|fuel IH]; intros n acc Hn.
  - cbn [digitsOf]. destruct (n / radix =? 0)%N eqn:Hq; [reflexivity|].
    apply N.eqb_neq in Hq. exfalso. apply Hq.
    apply N.div_small. change (2 ^ N.of_nat 1)%N with 2%N in Hn. lia.
  - change (digitsOf (S (S (S fuel))) radix n acc)
      with (if (n / radix =? 0)%N then String (digitChar (n mod radix)) acc
            else digitsOf (S (S fuel)) radix (n / radix)
                          (String (digitChar (n mod radix)) acc)).
    change (digitsOf (S (S fuel)) radix n acc)
      with (if (n / radix =? 0)%N then String (digitChar (n mod radix)) acc
            else digitsOf (S fuel) radix (n / radix)
                          (String (digitChar (n mod radix)) acc)).
    destruct (n / radix =? 0)%N; [reflexivity|].
    apply IH.
    rewrite Nat2N.inj_succ, N.pow_succ_r' in Hn.
    apply N.Div0.div_lt_upper_bound.
    apply N.lt_le_trans with (1 := Hn).
    apply N.mul_le_mono_r. exact Hradix.
Qed.

Example toString_decimal : toString 1700000000123 = "1700000000123".
Proof. reflexivity. Qed.

Example toString_base36 : toStringRadix 36 1700000000000 = "loyw3v28".
Proof. reflexivity. Qed.

Example slice_from_end : slice "1700000000123" (-6) (Some (-3)) = "000".
Proof. reflexivity. Qed.

Example substr_of_fraction : substr "0.d7u2bgeo5b9" 2 5 = "d7u2b".
Proof. reflexivity. Qed.

Example padStart_zip : padStart "367" 5 "0" = "00367".
Proof. reflexivity. Qed.

Example trim_message : trim "  This username already exists. " = "This username already exists.".
Proof. vm_compute. reflexivity. Qed.

(** The no-break space, the byte-order mark and the line separator are
    white space as much as the space is. *)
Example trim_unicode_space :
  trim (utf8 0xA0 ++ utf8 0xFEFF ++ " Username " ++ utf8 0x2028 ++ utf8 0x3000) = "Username"
  /\ trim (utf8 0xA0) = EmptyString.
Proof. vm_compute. split; reflexivity. Qed.

End JsStringFacts.

(* ===================================================================== *)
(** * Facts about the numbers *)
(* ===================================================================== *)

Module JsNumberFacts.
Import JsNumber.

(** ** Rounding *)

Lemma round_exact (n : Z) : n < 2 ^ 53 -> round n = n.
Proof.
  intros Hn. unfold round.
  assert (Hs : Z.log2 n - 52 <= 0).
  { destruct (Z.le_gt_cases n 0) as [Hle | Hpos].
    - rewrite Z.log2_nonpos by exact Hle. lia.
    - assert (Z.log2 n < 53) by (apply Z.log2_lt_pow2; lia). lia. }
  apply Z.leb_le in Hs. now rewrite Hs.
Qed.

(** The parts of [n] that [round] works on. *)
Lemma round_parts (n : Z) :
  0 < Z.log2 n - 52 ->
  let shift := Z.log2 n - 52 in
  let q := n / 2 ^ shift in
  let r := n mod 2 ^ shift in
  let half := 2 ^ (shift - 1) in
  n = q * 2 ^ shift + r /\ 0 <= r < 2 ^ shift /\ 2 ^ shift = 2 * half
  /\ 0 < half /\ 2 ^ shift <= n.
Proof.
  intros Hs shift q r half.
  assert (Hpow : 0 < 2 ^ shift) by (apply Z.pow_pos_nonneg; lia).
  assert (Hn : 0 < n).
  { destruct (Z.le_gt_cases n 0) as [Hle | Hpos]; [|exact Hpos].
    rewrite Z.log2_nonpos in Hs by exact Hle. lia. }
  split; [|split; [|split; [|split]]].
  - subst q r. rewrite Z.mul_comm. apply Z.div_mod. lia.
  - apply Z.mod_pos_bound. exact Hpow.
  - subst half. rewrite <- Z.pow_succ_r by lia. f_equal. lia.
  - apply Z.pow_pos_nonneg; lia.
  - apply Z.le_trans with (2 ^ Z.log2 n).
    + apply Z.pow_le_mono_r; lia.
    + apply Z.log2_spec. exact Hn.
Qed.

Lemma round_upper (n : Z) : 0 <= n -> round n <= n + 2 ^ (Z.log2 n - 53).
Proof.
  intros Hn. unfold round.
  destruct (Z.log2 n - 52 <=? 0) eqn:Hs.
  - assert (0 <= 2 ^ (Z.log2 n - 53)) by (apply Z.pow_nonneg; lia). lia.
  - apply Z.leb_gt in Hs.
    destruct (round_parts n Hs) as (Heq & Hr & Hhalf & Hpos & _).
    replace (Z.log2 n - 53) with (Z.log2 n - 52 - 1) by lia.
    set (shift := Z.log2 n - 52) in *.
    set (q := n / 2 ^ shift) in *. set (r := n mod 2 ^ shift) in *.
    set (half := 2 ^ (shift - 1)) in *.
    destruct ((half <? r) || ((r =? half) && Z.odd q))%bool eqn:Hup.
    + assert (half <= r).
      { apply Bool.orb_true_iff in Hup as [Hlt | Heqb].
        - apply Z.ltb_lt in Hlt. lia.
        - apply Bool.andb_true_iff in Heqb as [Heqb _]. apply Z.eqb_eq in Heqb. lia. }
      lia.
    + lia.
Qed.

Lemma round_lower (n : Z) : 0 <= n -> n <= 2 * round n.
Proof.
  intros Hn. unfold round.
  destruct (Z.log2 n - 52 <=? 0) eqn:Hs; [lia|].
  apply Z.leb_gt in Hs.
  destruct (round_parts n Hs) as (Heq & Hr & Hhalf & Hpos & Hle).
  set (shift := Z.log2 n - 52) in *.
  set (q := n / 2 ^ shift) in *. set (r := n mod 2 ^ shift) in *.
  set (half := 2 ^ (shift - 1)) in *.
  destruct ((half <? r) || ((r =? half) && Z.odd q))%bool eqn:Hup.
  - lia.
  - assert (r <= half).
    { apply Bool.orb_false_iff in Hup as [Hlt _]. apply Z.ltb_ge in Hlt. exact Hlt. }
    lia.
Qed.

Lemma round_nonneg (n : Z) : 0 <= n -> 0 <= round n.
Proof. intros Hn. pose proof (round_lower n Hn). lia. Qed.

(** ** The results of [Math.random()] *)

Lemma valueOf_range (x : Random) : 0 <= valueOf x <= one - 2 ^ 1021.
Proof.
  unfold valueOf.
  assert (He : 0 <= Z.of_N (exponentField x mod 1023) < 1023).
  { split; [apply N2Z.is_nonneg|].
    change 1023 with (Z.of_N 1023). apply N2Z.inj_lt.
    apply N.mod_upper_bound. discriminate. }
  assert (Hf : 0 <= Z.of_N (fractionField x mod 2 ^ 52) < 2 ^ 52).
  { split; [apply N2Z.is_nonneg|].
    change (2 ^ 52) with (Z.of_N (2 ^ 52)). apply N2Z.inj_lt.
    apply N.mod_upper_bound. discriminate. }
  set (e := Z.of_N (exponentField x mod 1023)) in *.
  set (f := Z.of_N (fractionField x mod 2 ^ 52)) in *.
  destruct (e =? 0) eqn:He0.
  - split; [lia|]. unfold one.
    apply Z.le_trans with (2 ^ 52); [lia|]. vm_compute. discriminate.
  - apply Z.eqb_neq in He0.
    assert (Hp : 0 < 2 ^ (e - 1) <= 2 ^ 1021).
    { split; [apply Z.pow_pos_nonneg; lia | apply Z.pow_le_mono_r; lia]. }
    split.
    + apply Z.mul_nonneg_nonneg; lia.
    + apply Z.le_trans with ((2 ^ 53 - 1) * 2 ^ 1021).
      * apply Z.mul_le_mono_nonneg; lia.
      * unfold one. vm_compute. discriminate.
Qed.

(** [Math.floor(Math.random() * 1000)] is an integer from 0 to 999: the
    product of the largest double below 1 rounds to a double below 1000. *)
Lemma floor_times_1000 (x : Random) :
  0 <= floor (times (valueOf x) 1000) < 1000.
Proof.
  pose proof (valueOf_range x) as Hx. unfold floor, times.
  set (n := valueOf x * 1000).
  assert (Hn : 0 <= n <= 1000 * one - 1000 * 2 ^ 1021) by (subst n; lia).
  assert (Hone : 0 < one) by (vm_compute; reflexivity).
  split.
  - apply Z.div_pos; [apply round_nonneg; lia | exact Hone].
  - apply Z.div_lt_upper_bound; [exact Hone|].
    pose proof (round_upper n ltac:(lia)) as Hup.
    assert (Hlog : 2 ^ (Z.log2 n - 53) <= 2 ^ 1030).
    { destruct (Z.le_gt_cases n 0) as [Hle | Hpos].
      - rewrite Z.log2_nonpos by exact Hle. vm_compute. discriminate.
      - apply Z.pow_le_mono_r; [lia|].
        assert (Z.log2 n < 1084); [|lia].
        apply Z.log2_lt_pow2; [exact Hpos|].
        apply Z.le_lt_trans with (1000 * one); [lia|]. vm_compute. reflexivity. }
    assert (Hgap : 2 ^ 1030 < 1000 * 2 ^ 1021) by (vm_compute; reflexivity).
    lia.
Qed.

(** ** [toString(36)] *)

Lemma carryOver_digits (written : list Z) :
  writtenDigits written -> writtenDigits (snd (carryOver written)).
Proof.
  induction written as [|digit before IH]; intros Hw; cbn [carryOver snd].
  - constructor.
  - inversion Hw as [|? ? Hd Hb]; subst.
    destruct (digit + 1 <? 36) eqn:Hlt; cbn [snd].
    + apply Z.ltb_lt in Hlt. constructor; [lia | exact Hb].
    + exact (IH Hb).
Qed.

(** One round of the loop: the digit written and what is left of the
    fraction. *)
Lemma digit_range (fraction : Z) :
  0 <= fraction < one ->
  0 <= floor (times fraction 36) < 128 /\
  0 <= times fraction 36 - floor (times fraction 36) * one < one.
Proof.
  intros Hf. unfold floor, times.
  assert (Hone : 0 < one) by (vm_compute; reflexivity).
  set (n := fraction * 36).
  assert (Hn : 0 <= n < 36 * one) by (subst n; lia).
  pose proof (round_nonneg n ltac:(lia)) as Hlow.
  pose proof (round_upper n ltac:(lia)) as Hup.
  assert (Hpow : 2 ^ (Z.log2 n - 53) <= n + 1).
  { destruct (Z.le_gt_cases n 0) as [Hle | Hpos].
    - rewrite Z.log2_nonpos by exact Hle. change (2 ^ (0 - 53)) with 0. lia.
    - apply Z.le_trans with (2 ^ Z.log2 n).
      + apply Z.pow_le_mono_r; lia.
      + pose proof (Z.log2_spec n Hpos). lia. }
  split.
  - split; [apply Z.div_pos; lia|].
    apply Z.div_lt_upper_bound; lia.
  - pose proof (Z.mod_pos_bound (round n) one Hone) as Hm.
    rewrite Z.mod_eq in Hm by lia. lia.
Qed.

Lemma fractionDigits_digits (fuel : nat) :
  forall fraction delta written,
    0 <= fraction < one -> writtenDigits written ->
    writtenDigits (snd (fractionDigits fuel fraction delta written)).
Proof.
  induction fuel as [|fuel IH]; intros fraction delta written Hf Hw;
    cbn [fractionDigits]; [exact Hw|].
  destruct (digit_range fraction Hf) as [Hd Hf'].
  cbv zeta.
  set (digit := floor (times fraction 36)) in *.
  set (fraction' := times fraction 36 - digit * one) in *.
  assert (Hw' : writtenDigits (digit :: written)) by (constructor; assumption).
  destruct (_ && _)%bool.
  - apply carryOver_digits. exact Hw'.
  - destruct (_ <=? _); [apply IH; assumption | exact Hw'].
Qed.

(** The loop ends by itself: each round makes [delta] at least twice as
    large, and the loop goes on only while [delta] is not above the
    fraction, which is below 1.  More rounds than enough change nothing. *)
Lemma fractionDigits_fuel_enough (extra fuel : nat) :
  forall fraction delta written,
    0 < delta <= fraction -> fraction < one -> one <= delta * 2 ^ Z.of_nat fuel ->
    fractionDigits (fuel + extra) fraction delta written
    = fractionDigits fuel fraction delta written.
Proof.
  induction fuel as [|fuel IH]; intros fraction delta written Hd Hf Hfuel.
  - change (2 ^ Z.of_nat 0) with 1 in Hfuel. lia.
  - cbn [Nat.add fractionDigits]. cbv zeta.
    destruct (_ && _)%bool; [reflexivity|].
    destruct (times delta 36 <=? _) eqn:Hgo; [|reflexivity].
    apply Z.leb_le in Hgo.
    assert (Hf0 : 0 <= fraction < one) by lia.
    destruct (digit_range fraction Hf0) as [_ Hf'].
    assert (Hgrow : 2 * delta <= times delta 36).
    { unfold times. pose proof (round_lower (delta * 36) ltac:(lia)). lia. }
    apply IH; [lia | lia |].
    rewrite Nat2Z.inj_succ, Z.pow_succ_r in Hfuel by lia.
    apply Z.le_trans with (1 := Hfuel).
    replace (delta * (2 * 2 ^ Z.of_nat fuel)) with (2 * delta * 2 ^ Z.of_nat fuel) by ring.
    apply Z.mul_le_mono_nonneg_r; [apply Z.pow_nonneg; lia | exact Hgrow].
Qed.

Lemma toString36_fuel_enough (extra : nat) (x : Z) :
  0 <= x < one -> toString36_within (1100 + extra) x = toString36 x.
Proof.
  intros Hx. unfold toString36, toString36_within.
  destruct (x =? 0); [reflexivity|]. cbv zeta.
  destruct (Z.max 1 (ulp x / 2) <=? x) eqn:Hgo; [|reflexivity].
  apply Z.leb_le in Hgo.
  rewrite fractionDigits_fuel_enough; [reflexivity | lia | lia |].
  apply Z.le_trans with (1 * 2 ^ Z.of_nat 1100).
  - vm_compute. discriminate.
  - apply Z.mul_le_mono_nonneg_r; [apply Z.pow_nonneg|]; lia.
Qed.

(** ** [round] is the rounding of the standard library *)

Section Binary64.
Import SpecFloat.

Lemma digits2_pos_log2 (p : positive) : Zpos (digits2_pos p) = Z.log2 (Zpos p) + 1.
Proof.
  assert (Hsize : forall q, digits2_pos q = Pos.size q)
    by (induction q as [q IH | q IH |]; cbn; congruence).
  destruct p as [p | p |]; cbn [Z.log2 digits2_pos]; rewrite ?Hsize; lia.
Qed.

Lemma iter_pos_nat {A} (f : A -> A) (p : positive) :
  forall x, iter_pos f p x = Nat.iter (Pos.to_nat p) f x.
Proof.
  induction p as [p IH | p IH |]; intros x; cbn [iter_pos].
  - rewrite !IH, Pos2Nat.inj_xI, Nat.iter_succ.
    replace (2 * Pos.to_nat p)%nat with (Pos.to_nat p + Pos.to_nat p)%nat by lia.
    now rewrite Nat.iter_add, !Nat.iter_swap.
  - rewrite !IH, Pos2Nat.inj_xO.
    replace (2 * Pos.to_nat p)%nat with (Pos.to_nat p + Pos.to_nat p)%nat by lia.
    now rewrite Nat.iter_add.
  - reflexivity.
Qed.

Lemma shr_1_nonneg (m : Z) (r s : bool) :
  0 <= m ->
  shr_1 {| shr_m := m; shr_r := r; shr_s := s |}
  = {| shr_m := m / 2; shr_r := Z.odd m; shr_s := r || s |}.
Proof.
  intros Hm. destruct m as [|p|p]; [reflexivity | | lia].
  destruct p as [p | p |]; cbn [shr_1 Z.odd].
  - f_equal. apply Z.div_unique with 1; lia.
  - f_equal. apply Z.div_unique with 0; lia.
  - reflexivity.
Qed.

Lemma odd_mod (a : Z) : Z.odd a = (a mod 2 =? 1).
Proof.
  rewrite <- Z.bit0_odd. pose proof (Z.bit0_mod a) as Hb.
  destruct (Z.testbit a 0); cbn [Z.b2z] in Hb; rewrite <- Hb; reflexivity.
Qed.

(** [k + 1] shifts leave the bits above them, the last bit shifted out and
    whether a bit below it was set. *)
Lemma shr_iter (m : Z) (k : nat) :
  0 <= m ->
  Nat.iter (S k) shr_1 {| shr_m := m; shr_r := false; shr_s := false |}
  = {| shr_m := m / 2 ^ (Z.of_nat k + 1);
       shr_r := Z.testbit m (Z.of_nat k);
       shr_s := negb (m mod 2 ^ Z.of_nat k =? 0) |}.
Proof.
  intros Hm. induction k as [|k IH].
  - cbn [Nat.iter nat_rect]. rewrite shr_1_nonneg by exact Hm.
    change (2 ^ (Z.of_nat 0 + 1)) with 2. change (2 ^ Z.of_nat 0) with 1.
    rewrite Z.mod_1_r, Z.bit0_odd. reflexivity.
  - rewrite Nat.iter_succ, IH.
    assert (Hpow : 0 < 2 ^ (Z.of_nat k + 1)) by (apply Z.pow_pos_nonneg; lia).
    assert (Hpowk : 0 < 2 ^ Z.of_nat k) by (apply Z.pow_pos_nonneg; lia).
    rewrite shr_1_nonneg by (apply Z.div_pos; lia).
    rewrite Nat2Z.inj_succ. unfold Z.succ.
    f_equal.
    + rewrite Z.div_div by lia. f_equal.
      rewrite (Z.pow_add_r 2 (Z.of_nat k + 1) 1) by lia. reflexivity.
    + rewrite Z.testbit_odd, Z.shiftr_div_pow2 by lia. reflexivity.
    + rewrite (Z.pow_add_r 2 (Z.of_nat k) 1) by lia. change (2 ^ 1) with 2.
      rewrite Z.rem_mul_r by lia.
      pose proof (Z.mod_pos_bound m (2 ^ Z.of_nat k) Hpowk) as Hlow.
      rewrite Z.testbit_odd, Z.shiftr_div_pow2 by lia.
      rewrite odd_mod.
      pose proof (Z.mod_pos_bound (m / 2 ^ Z.of_nat k) 2 ltac:(lia)) as Hbit.
      clear IH.
      destruct (Z.eqb_spec (m mod 2 ^ Z.of_nat k) 0) as [Hz | Hz];
        destruct (Z.eqb_spec ((m / 2 ^ Z.of_nat k) mod 2) 1) as [Hb | Hb];
        cbn [negb orb]; symmetry.
      * apply Bool.negb_true_iff, Z.eqb_neq. nia.
      * apply Bool.negb_false_iff, Z.eqb_eq. nia.
      * apply Bool.negb_true_iff, Z.eqb_neq. nia.
      * apply Bool.negb_true_iff, Z.eqb_neq. nia.
Qed.

Lemma Zdigits2_log2 (m : Z) : 0 < m -> Zdigits2 m = Z.log2 m + 1.
Proof.
  intros Hm. destruct m as [|p|p]; try lia. cbn [Zdigits2]. apply digits2_pos_log2.
Qed.

Lemma shr_fexp_exact (m e : Z) :
  0 < m -> shiftOf m e <= 0 ->
  shr_fexp 53 1024 m e loc_Exact
  = ({| shr_m := m; shr_r := false; shr_s := false |}, e).
Proof.
  intros Hm Hk. unfold shr_fexp, fexp, emin, shr_record_of_loc.
  rewrite Zdigits2_log2 by exact Hm.
  change (3 - 1024 - 53) with (-1074). fold (shiftOf m e).
  unfold shr. destruct (shiftOf m e); try reflexivity. lia.
Qed.

Lemma shr_fexp_shift (m e : Z) :
  0 < m -> 0 < shiftOf m e ->
  shr_fexp 53 1024 m e loc_Exact
  = ({| shr_m := m / 2 ^ shiftOf m e;
        shr_r := Z.testbit m (shiftOf m e - 1);
        shr_s := negb (m mod 2 ^ (shiftOf m e - 1) =? 0) |},
     e + shiftOf m e).
Proof.
  intros Hm Hk. unfold shr_fexp, fexp, emin, shr_record_of_loc.
  rewrite Zdigits2_log2 by exact Hm.
  change (3 - 1024 - 53) with (-1074). fold (shiftOf m e).
  unfold shr. destruct (shiftOf m e) as [|k|k] eqn:Hs; try lia.
  rewrite iter_pos_nat.
  destruct (Pos.to_nat k) as [|k'] eqn:Hk'; [lia|].
  rewrite shr_iter by lia.
  replace (Z.of_nat k' + 1) with (Z.pos k) by lia.
  replace (Z.of_nat k') with (Z.pos k - 1) by lia.
  reflexivity.
Qed.

(** The second look at the precision, after the rounding: it changes
    something only when the rounding has carried into a 54th bit. *)
Lemma rounded_fits (m e : Z) :
  2 ^ 52 <= m <= 2 ^ 53 -> -1074 < e <= 970 ->
  scaled
    (let '(mrs, e') := shr_fexp 53 1024 m e loc_Exact in
     match shr_m mrs with
     | 0 => S754_zero false
     | Z.pos m' =>
         if e' <=? 1024 - 53 then S754_finite false m' e' else S754_infinity false
     | Z.neg _ => S754_nan
     end)
  = m * 2 ^ (e + 1074).
Proof.
  intros Hm He.
  destruct (Z.eq_dec m (2 ^ 53)) as [-> | Hne].
  - assert (Hk : shiftOf (2 ^ 53) e = 1).
    { unfold shiftOf. change (Z.log2 (2 ^ 53)) with 53. lia. }
    rewrite shr_fexp_shift by (rewrite ?Hk; reflexivity).
    rewrite Hk. cbn [shr_m]. change (2 ^ 53 / 2 ^ 1) with (2 ^ 52).
    change (2 ^ 52) with (Z.pos (2 ^ 52)) at 1. cbv iota.
    replace (e + 1 <=? 1024 - 53) with true by (symmetry; apply Z.leb_le; lia).
    cbn [scaled].
    replace (e + 1 + 1074) with (Z.succ (e + 1074)) by lia.
    rewrite Z.pow_succ_r by lia.
    change (Z.pos (2 ^ 52)) with (2 ^ 52). change (2 ^ 53) with (2 ^ 52 * 2). ring.
  - assert (Hlog : Z.log2 m = 52) by (apply Z.log2_unique; lia).
    assert (Hk : shiftOf m e = 0) by (unfold shiftOf; lia).
    rewrite shr_fexp_exact by lia. cbn [shr_m].
    destruct m as [|m'|m']; try lia.
    replace (e <=? 1024 - 53) with true by (symmetry; apply Z.leb_le; lia).
    reflexivity.
Qed.

(** The rounding of [round] is the rounding of the standard
    library's model of binary64 (the numbers here stay below the largest
    double, 2^2097 being the integer that stands for 2^1023). *)
Theorem round_is_binary64_rounding (n : Z) :
  0 <= n < 2 ^ 2097 -> scaled (binary64 n) = round n.
Proof.
  intros [Hn Hmax]. destruct n as [|p|p]; [reflexivity | | lia]. clear Hn.
  assert (Hlog : 0 <= Z.log2 (Z.pos p) < 2097).
  { split; [apply Z.log2_nonneg | apply Z.log2_lt_pow2; lia]. }
  unfold binary64, binary_normalize, binary_round.
  assert (Halign : shl_align p (-1074) (fexp 53 1024 (Z.pos (digits2_pos p) + -1074))
                   = (p, -1074)).
  { unfold shl_align, fexp, emin. change (3 - 1024 - 53) with (-1074).
    destruct (Z.max _ _ - -1074) eqn:Hd; try reflexivity. lia. }
  rewrite Halign. unfold binary_round_aux, round.
  assert (Hshift : shiftOf (Z.pos p) (-1074) = Z.max (Z.log2 (Z.pos p) - 52) 0)
    by (unfold shiftOf; lia).
  destruct (Z.log2 (Z.pos p) - 52 <=? 0) eqn:Hs.
  - apply Z.leb_le in Hs.
    rewrite shr_fexp_exact by lia. cbn [shr_m loc_of_shr_record round_nearest_even].
    rewrite shr_fexp_exact by lia. cbn [shr_m].
    change (-1074 <=? 1024 - 53) with true. cbn [scaled].
    change (2 ^ (-1074 + 1074)) with 1. lia.
  - apply Z.leb_gt in Hs.
    rewrite shr_fexp_shift by lia. rewrite Hshift, Z.max_l by lia.
    set (k := Z.log2 (Z.pos p) - 52) in *.
    cbn [shr_m].
    set (n := Z.pos p) in *.
    assert (Hhalf : 0 < 2 ^ (k - 1)) by (apply Z.pow_pos_nonneg; lia).
    assert (Hpow : 2 ^ k = 2 ^ (k - 1) * 2).
    { replace k with (Z.succ (k - 1)) at 1 by lia. rewrite Z.pow_succ_r by lia. ring. }
    assert (Hrem : n mod 2 ^ k
                   = n mod 2 ^ (k - 1) + 2 ^ (k - 1) * ((n / 2 ^ (k - 1)) mod 2)).
    { rewrite Hpow. apply Z.rem_mul_r; lia. }
    assert (Hbit : Z.testbit n (k - 1) = ((n / 2 ^ (k - 1)) mod 2 =? 1)).
    { rewrite Z.testbit_odd, Z.shiftr_div_pow2 by lia. apply odd_mod. }
    pose proof (Z.mod_pos_bound n (2 ^ (k - 1)) Hhalf) as Hlow.
    pose proof (Z.mod_pos_bound (n / 2 ^ (k - 1)) 2 ltac:(lia)) as Hb.
    assert (Hq : 2 ^ 52 <= n / 2 ^ k < 2 ^ 53).
    { assert (Hk : 0 < 2 ^ k) by lia.
      pose proof (Z.log2_spec n ltac:(subst n; lia)) as Hspec.
      replace (Z.log2 n) with (52 + k) in Hspec by (subst k; lia).
      replace (Z.succ (52 + k)) with (53 + k) in Hspec by lia.
      rewrite !Z.pow_add_r in Hspec by lia.
      split.
      - apply Z.div_le_lower_bound; lia.
      - apply Z.div_lt_upper_bound; lia. }
    set (q := n / 2 ^ k) in *.
    assert (Hround :
              round_nearest_even q
                (loc_of_shr_record
                   {| shr_m := q;
                      shr_r := Z.testbit n (k - 1);
                      shr_s := negb (n mod 2 ^ (k - 1) =? 0) |})
              = if (2 ^ (k - 1) <? n mod 2 ^ k)
                   || (n mod 2 ^ k =? 2 ^ (k - 1)) && Z.odd q
                then q + 1 else q).
    { rewrite Hbit, Hrem. rewrite <- Z.negb_even.
      destruct (Z.eqb_spec ((n / 2 ^ (k - 1)) mod 2) 1) as [H1 | H1];
        destruct (Z.eqb_spec (n mod 2 ^ (k - 1)) 0) as [H0 | H0];
        cbn [negb loc_of_shr_record round_nearest_even].
      - rewrite H1, H0.
        replace (2 ^ (k - 1) <? 0 + 2 ^ (k - 1) * 1) with false
          by (symmetry; apply Z.ltb_ge; lia).
        replace (0 + 2 ^ (k - 1) * 1 =? 2 ^ (k - 1)) with true
          by (symmetry; apply Z.eqb_eq; lia).
        cbn [orb andb]. now destruct (Z.even q).
      - rewrite H1.
        replace (2 ^ (k - 1) <? n mod 2 ^ (k - 1) + 2 ^ (k - 1) * 1) with true
          by (symmetry; apply Z.ltb_lt; lia).
        reflexivity.
      - assert (Hzero : (n / 2 ^ (k - 1)) mod 2 = 0) by lia. rewrite Hzero, H0.
        replace (2 ^ (k - 1) <? 0 + 2 ^ (k - 1) * 0) with false
          by (symmetry; apply Z.ltb_ge; lia).
        replace (0 + 2 ^ (k - 1) * 0 =? 2 ^ (k - 1)) with false
          by (symmetry; apply Z.eqb_neq; lia).
        reflexivity.
      - assert (Hzero : (n / 2 ^ (k - 1)) mod 2 = 0) by lia. rewrite Hzero.
        replace (2 ^ (k - 1) <? n mod 2 ^ (k - 1) + 2 ^ (k - 1) * 0) with false
          by (symmetry; apply Z.ltb_ge; lia).
        replace (n mod 2 ^ (k - 1) + 2 ^ (k - 1) * 0 =? 2 ^ (k - 1)) with false
          by (symmetry; apply Z.eqb_neq; lia).
        reflexivity. }
    rewrite Hround.
    rewrite rounded_fits.
    + replace (-1074 + k + 1074) with k by lia.
      now destruct ((2 ^ (k - 1) <? n mod 2 ^ k)
                    || (n mod 2 ^ k =? 2 ^ (k - 1)) && Z.odd q)%bool.
    + destruct ((2 ^ (k - 1) <? n mod 2 ^ k)
                || (n mod 2 ^ k =? 2 ^ (k - 1)) && Z.odd q)%bool; lia.
    + subst k. lia.
Qed.

End Binary64.

(** ** Known values *)

(** [Math.floor(0.998 * 1000)] is 998: the product, nearer to 998 than to
    the double before it, is rounded to 998. *)
Example floor_of_0998_times_1000 :
  floor (times (valueOf (mkRandom 1022 4485585228861014)) 1000) = 998.
Proof. vm_compute. reflexivity. Qed.

(** On 0.998 and on the largest double below 1, the product and the sum
    are those of the standard library's multiplication and addition. *)
Example times_and_plus_are_those_of_binary64 :
  Forall (fun x =>
            scaled (SpecFloat.SFmul 53 1024 (binary64 x) (binary64 (1000 * one)))
            = times x 1000
            /\ scaled (SpecFloat.SFmul 53 1024 (binary64 x) (binary64 (36 * one)))
               = times x 36
            /\ scaled (SpecFloat.SFadd 53 1024 (binary64 x) (binary64 (ulp x / 2)))
               = plus x (ulp x / 2))
         [valueOf (mkRandom 1022 4485585228861014); valueOf (mkRandom 1022 (2 ^ 52 - 1))].
Proof. repeat constructor; vm_compute; reflexivity. Qed.

(** [(0.1).toString(36)], [(0.5).toString(36)] and the largest double
    below 1. *)
Example toString36_known :
  toString36 (valueOf (mkRandom 1019 2702159776422298)) = "0.3lllllllllm"
  /\ toString36 (valueOf (mkRandom 1022 0)) = "0.i"
  /\ toString36 (valueOf (mkRandom 1022 (2 ^ 52 - 1))) = "0.zzzzzzzzzza".
Proof. vm_compute. repeat split. Qed.

End JsNumberFacts.

(* ===================================================================== *)
(** * The outcome detector *)
(* ===================================================================== *)

Section DetectorFacts.
Context {W : Type} `{Env W}.
Import RegistrationPage.

(** [isElementVisible] never throws: it makes one wait of 5000 ms and
    answers whether that wait succeeded. *)
Lemma isElementVisible_total (selector : string) (w : W) :
  exists r,
    trace (BasePage.isElementVisible selector w)
    = [EvWaitForSelector selector Visible 5000 r]
    /\ outcome (BasePage.isElementVisible selector w) = Ret (succeeded r).
Proof.
  unfold_js. case_env; cbn [outcome trace app]; eexists; split; reflexivity.
Qed.

(** C1.  When the session shows, after the settle delay, a URL that
    contains 'register.htm' and then a nonzero count of '.error' elements,
    the detector returns false whatever else the page shows, and it does so
    before any success signal is looked up: its trace has no element wait,
    no text read and no page-content read; when the settle delay succeeds
    the calls are the delay, the URL read, the count and the read of the
    error texts, and no other. *)
Theorem rejection_precedes_success_signals
    (w : W) (currentUrl : string) (errorElements : nat) :
  let afterDelay := snd (env_waitForTimeout 2000 w) in
  let afterUrl := snd (env_url afterDelay) in
  fst (env_url afterDelay) = Ok currentUrl ->
  JsString.includes currentUrl "register.htm" = true ->
  fst (env_count ".error" afterUrl) = Ok errorElements ->
  errorElements <> 0%nat ->
  outcome (isRegistrationSuccessful w) = Ret false /\
  (forall ev, In ev (trace (isRegistrationSuccessful w)) ->
              successSignalLookup ev = false) /\
  (fst (env_waitForTimeout 2000 w) = Ok tt ->
   exists r,
     trace (isRegistrationSuccessful w)
     = [EvWaitForTimeout 2000 (Ok tt); EvUrl (Ok currentUrl);
        EvCount ".error" (Ok errorElements); EvAllTextContents ".error" r]).
Proof.
  cbv zeta. open_detector.
  destruct (env_waitForTimeout 2000 w) as [[[]|e] w1] eqn:Hdelay; cbn [fst snd].
  - destruct (env_url w1) as [[url|e] w2] eqn:Hurl; cbn [fst snd];
      intros Hu Hinc; [injection Hu as -> | discriminate Hu].
    rewrite Hinc.
    destruct (env_count ".error" w2) as [[n|e] w3] eqn:Hcount; cbn [fst snd];
      intros Hc Hpos; [injection Hc as -> | discriminate Hc].
    destruct (0 <? errorElements)%nat eqn:Hlt;
      [|apply Nat.ltb_ge in Hlt; lia].
    destruct (env_allTextContents ".error" w3) as [[texts|e] w4];
      cbn [outcome trace app].
    all: split; [reflexivity|].
    all: split; [intros ev Hin; split_in Hin; subst ev; reflexivity|].
    all: intros _; eexists; reflexivity.
  - intros _ _ _ _. cbn [outcome trace app].
    split; [reflexivity|].
    split; [intros ev Hin; split_in Hin; subst ev; reflexivity|].
    intros Habs. discriminate Habs.
Qed.

(** C4.  The detector always returns a boolean and never throws; whenever
    the body of its [try] throws the result is false; and whenever the
    environment rejected a call other than a visibility probe the result
    is false. *)
Theorem isRegistrationSuccessful_fail_closed (w : W) :
  (exists b, outcome (isRegistrationSuccessful w) = Ret b) /\
  (forall e, outcome (isRegistrationSuccessful_try w) = Throw e ->
             outcome (isRegistrationSuccessful w) = Ret false) /\
  (forall ev, In ev (trace (isRegistrationSuccessful w)) ->
              rejected ev = true -> visibilityProbe ev = false ->
              outcome (isRegistrationSuccessful w) = Ret false).
Proof.
  split; [|split].
  - open_detector. all_paths; eauto.
  - intros e. unfold isRegistrationSuccessful. unfold_js.
    destruct (isRegistrationSuccessful_try w) as [[b|e'|c] w' t];
      cbn [outcome]; intros He; try discriminate He; reflexivity.
  - open_detector. all_paths; try reflexivity.
    all: intros ev Hin Hr Hv; split_in Hin; subst ev; discriminate.
Qed.

(** C6, as amended.  When the session shows, after the settle delay, a URL
    that ends in 'register.htm', then no '.error' element, then none of the
    success banner, the account-created paragraph, the welcome title and
    the account-services section within the 5000 ms of each probe, and a
    page content that contains 'Your account was created successfully',
    the detector returns true.  Its calls are the delay, the URL read, the
    count and the four failed probes, followed by the read of the page
    content, so that the raw-text signal is the one that decides, unless
    the URL contains 'overview' or 'account': then the URL signal has
    answered true and the page content is not read. *)
Theorem raw_text_fallback_detects_success (w : W) (currentUrl pageContent : string) :
  let afterDelay := snd (env_waitForTimeout 2000 w) in
  let afterUrl := snd (env_url afterDelay) in
  let afterCount := snd (env_count ".error" afterUrl) in
  let afterBanner := snd (env_waitForSelector successMessage Visible 5000 afterCount) in
  let afterParagraph :=
    snd (env_waitForSelector usernameParagraph Visible 5000 afterBanner) in
  let afterTitle := snd (env_waitForSelector welcomeMessage Visible 5000 afterParagraph) in
  let afterSection :=
    snd (env_waitForSelector accountServicesSection Visible 5000 afterTitle) in
  fst (env_waitForTimeout 2000 w) = Ok tt ->
  fst (env_url afterDelay) = Ok currentUrl ->
  JsString.endsWith currentUrl "register.htm" = true ->
  fst (env_count ".error" afterUrl) = Ok 0%nat ->
  succeeded (fst (env_waitForSelector successMessage Visible 5000 afterCount)) = false ->
  succeeded (fst (env_waitForSelector usernameParagraph Visible 5000 afterBanner)) = false ->
  succeeded (fst (env_waitForSelector welcomeMessage Visible 5000 afterParagraph)) = false ->
  succeeded (fst (env_waitForSelector accountServicesSection Visible 5000 afterTitle))
  = false ->
  fst (env_content afterSection) = Ok pageContent ->
  JsString.includes pageContent "Your account was created successfully" = true ->
  outcome (isRegistrationSuccessful w) = Ret true /\
  exists e1 e2 e3 e4,
    trace (isRegistrationSuccessful w)
    = ([EvWaitForTimeout 2000 (Ok tt); EvUrl (Ok currentUrl); EvCount ".error" (Ok 0%nat);
        EvWaitForSelector successMessage Visible 5000 (Err e1);
        EvWaitForSelector usernameParagraph Visible 5000 (Err e2);
        EvWaitForSelector welcomeMessage Visible 5000 (Err e3);
        EvWaitForSelector accountServicesSection Visible 5000 (Err e4)]
       ++ (if JsString.includes currentUrl "overview"
              || JsString.includes currentUrl "account"
           then []
           else [EvContent (Ok pageContent)]))%list.
Proof.
  cbv zeta. open_detector.
  destruct (env_waitForTimeout 2000 w) as [[[]|e] w1]; cbn [fst snd];
    intros Hdelay; [clear Hdelay | discriminate Hdelay].
  destruct (env_url w1) as [[url|e] w2]; cbn [fst snd];
    intros Hu Hends; [injection Hu as -> | discriminate Hu].
  rewrite (JsStringFacts.endsWith_includes _ _ Hends).
  destruct (env_count ".error" w2) as [[n|e] w3]; cbn [fst snd];
    intros Hc; [injection Hc as -> | discriminate Hc].
  cbn [Nat.ltb Nat.leb].
  destruct (env_waitForSelector successMessage Visible 5000 w3) as [[[]|e1] w4];
    cbn [fst snd succeeded]; intros H1; [discriminate H1 | clear H1].
  destruct (env_waitForSelector usernameParagraph Visible 5000 w4) as [[[]|e2] w5];
    cbn [fst snd succeeded]; intros H2; [discriminate H2 | clear H2].
  destruct (env_waitForSelector welcomeMessage Visible 5000 w5) as [[[]|e3] w6];
    cbn [fst snd succeeded]; intros H3; [discriminate H3 | clear H3].
  destruct (env_waitForSelector accountServicesSection Visible 5000 w6) as [[[]|e4] w7];
    cbn [fst snd succeeded]; intros H4; [discriminate H4 | clear H4].
  cbn [negb]. rewrite Bool.orb_false_r.
  destruct (JsString.includes currentUrl "overview"
            || JsString.includes currentUrl "account")%bool.
  - intros _ _. cbn [outcome trace app].
    split; [reflexivity|]. exists e1, e2, e3, e4. reflexivity.
  - destruct (env_content w7) as [[content|e] w8]; cbn [fst snd];
      intros Hcontent Hinc; [injection Hcontent as -> | discriminate Hcontent].
    rewrite (JsStringFacts.success_text_keyword _ Hinc).
    cbn [orb outcome trace app].
    split; [reflexivity|]. exists e1, e2, e3, e4. reflexivity.
Qed.

End DetectorFacts.

Section ToleranceFacts.
Context {W : Type} `{Env W}.
Import RegistrationPage.

Lemma continues_after_failed_probe (w : W) :
  continues_after_failed visibilityProbe (isRegistrationSuccessful w).
Proof.
  unfold continues_after_failed.
  open_detector. all_paths; intros before ev after Hcut Hl Hr.
  all: cut_at Hcut; try discriminate Hl; try discriminate Hr.
  all: unfold goesOn, lookupOf, successMessage, usernameParagraph, welcomeMessage,
         accountServicesSection; eval_eqb; cbv iota.
  all: try (do 2 eexists; split; [reflexivity | vm_compute; reflexivity]).
  all: unfold urlSignalIn, urlSignal; cbn [existsb orb]; use_tests; cbn [negb orb].
  all: try rewrite !Bool.orb_false_r; use_tests.
  all: try (split; reflexivity).
  all: try (eexists; reflexivity).
Qed.

(** A rejected element lookup that is not a visibility probe, which is the
    wait or the text read of Method 3, ends the evaluation: it is the last
    call, and the result is false. *)
Lemma text_read_is_not_tolerated (w : W) :
  forall before ev after,
    trace (isRegistrationSuccessful w) = (before ++ ev :: after)%list ->
    elementLookup ev = true -> visibilityProbe ev = false -> rejected ev = true ->
    after = [] /\ outcome (isRegistrationSuccessful w) = Ret false.
Proof.
  open_detector. all_paths; intros before ev after Hcut Hl Hv Hr.
  all: split_at Hcut; try discriminate Hl; try discriminate Hr; try discriminate Hv.
  all: split; reflexivity.
Qed.

(** With a URL that no longer contains 'register.htm' and the four probes
    failing, all four are made and the URL signal answers true. *)
Lemma redirect_detected_without_elements (w : W) (currentUrl : string) :
  let afterDelay := snd (env_waitForTimeout 2000 w) in
  let afterUrl := snd (env_url afterDelay) in
  let afterBanner := snd (env_waitForSelector successMessage Visible 5000 afterUrl) in
  let afterParagraph :=
    snd (env_waitForSelector usernameParagraph Visible 5000 afterBanner) in
  let afterTitle := snd (env_waitForSelector welcomeMessage Visible 5000 afterParagraph) in
  fst (env_waitForTimeout 2000 w) = Ok tt ->
  fst (env_url afterDelay) = Ok currentUrl ->
  JsString.includes currentUrl "register.htm" = false ->
  succeeded (fst (env_waitForSelector successMessage Visible 5000 afterUrl)) = false ->
  succeeded (fst (env_waitForSelector usernameParagraph Visible 5000 afterBanner)) = false ->
  succeeded (fst (env_waitForSelector welcomeMessage Visible 5000 afterParagraph)) = false ->
  succeeded (fst (env_waitForSelector accountServicesSection Visible 5000 afterTitle))
  = false ->
  outcome (isRegistrationSuccessful w) = Ret true /\
  exists e1 e2 e3 e4,
    trace (isRegistrationSuccessful w)
    = [EvWaitForTimeout 2000 (Ok tt); EvUrl (Ok currentUrl);
       EvWaitForSelector successMessage Visible 5000 (Err e1);
       EvWaitForSelector usernameParagraph Visible 5000 (Err e2);
       EvWaitForSelector welcomeMessage Visible 5000 (Err e3);
       EvWaitForSelector accountServicesSection Visible 5000 (Err e4)].
Proof.
  cbv zeta. open_detector.
  destruct (env_waitForTimeout 2000 w) as [[[]|e] w1]; cbn [fst snd];
    intros Hdelay; [clear Hdelay | discriminate Hdelay].
  destruct (env_url w1) as [[url|e] w2]; cbn [fst snd];
    intros Hu Hinc; [injection Hu as -> | discriminate Hu].
  rewrite Hinc.
  destruct (env_waitForSelector successMessage Visible 5000 w2) as [[[]|e1] w4];
    cbn [fst snd succeeded]; intros H1; [discriminate H1 | clear H1].
  destruct (env_waitForSelector usernameParagraph Visible 5000 w4) as [[[]|e2] w5];
    cbn [fst snd succeeded]; intros H2; [discriminate H2 | clear H2].
  destruct (env_waitForSelector welcomeMessage Visible 5000 w5) as [[[]|e3] w6];
    cbn [fst snd succeeded]; intros H3; [discriminate H3 | clear H3].
  destruct (env_waitForSelector accountServicesSection Visible 5000 w6) as [[[]|e4] w7];
    cbn [fst snd succeeded]; intros H4; [discriminate H4 | clear H4].
  cbn [negb]. rewrite !Bool.orb_true_r. cbn [outcome trace app].
  split; [reflexivity|]. exists e1, e2, e3, e4. reflexivity.
Qed.

(** C5, as amended.  A failed visibility lookup is treated as 'not
    visible': [isElementVisible] answers false for it and never throws.
    In the detector the evaluation goes on after every rejected visibility
    probe: the probe of the success message is followed by the probe of
    the account-created paragraph, that one by the probe of the welcome
    title, that one by the probe of the account-services section, and that
    one by the read of the page content, unless the URL signal, which
    makes no call, answers true.  A later signal can still answer true:
    when the URL no longer contains 'register.htm' and the four probes
    fail, all four are made and the result is true.  A rejected wait or
    text read of Method 3 is not tolerated: it is the last call and the
    result is false. *)
Theorem failed_visibility_probe_is_not_visible (w : W) :
  (forall selector w',
      exists r,
        trace (BasePage.isElementVisible selector w')
        = [EvWaitForSelector selector Visible 5000 r]
        /\ outcome (BasePage.isElementVisible selector w') = Ret (succeeded r)) /\
  continues_after_failed visibilityProbe (isRegistrationSuccessful w) /\
  (forall currentUrl,
      let afterDelay := snd (env_waitForTimeout 2000 w) in
      let afterUrl := snd (env_url afterDelay) in
      let afterBanner := snd (env_waitForSelector successMessage Visible 5000 afterUrl) in
      let afterParagraph :=
        snd (env_waitForSelector usernameParagraph Visible 5000 afterBanner) in
      let afterTitle :=
        snd (env_waitForSelector welcomeMessage Visible 5000 afterParagraph) in
      fst (env_waitForTimeout 2000 w) = Ok tt ->
      fst (env_url afterDelay) = Ok currentUrl ->
      JsString.includes currentUrl "register.htm" = false ->
      succeeded (fst (env_waitForSelector successMessage Visible 5000 afterUrl)) = false ->
      succeeded (fst (env_waitForSelector usernameParagraph Visible 5000 afterBanner))
      = false ->
      succeeded (fst (env_waitForSelector welcomeMessage Visible 5000 afterParagraph))
      = false ->
      succeeded (fst (env_waitForSelector accountServicesSection Visible 5000 afterTitle))
      = false ->
      outcome (isRegistrationSuccessful w) = Ret true /\
      exists e1 e2 e3 e4,
        trace (isRegistrationSuccessful w)
        = [EvWaitForTimeout 2000 (Ok tt); EvUrl (Ok currentUrl);
           EvWaitForSelector successMessage Visible 5000 (Err e1);
           EvWaitForSelector usernameParagraph Visible 5000 (Err e2);
           EvWaitForSelector welcomeMessage Visible 5000 (Err e3);
           EvWaitForSelector accountServicesSection Visible 5000 (Err e4)]) /\
  (forall before ev after,
      trace (isRegistrationSuccessful w) = (before ++ ev :: after)%list ->
      elementLookup ev = true -> visibilityProbe ev = false -> rejected ev = true ->
      after = [] /\ outcome (isRegistrationSuccessful w) = Ret false).
Proof.
  split; [|split; [|split]].
  - intros selector w'. apply isElementVisible_total.
  - apply continues_after_failed_probe.
  - intros currentUrl. apply redirect_detected_without_elements.
  - apply text_read_is_not_tolerated.
Qed.

End ToleranceFacts.

(* ===================================================================== *)
(** * getErrorMessages *)
(* ===================================================================== *)

Section ErrorMessagesFacts.
Context {W : Type} `{Env W}.
Import RegistrationPage.

Lemma messagesRead_app (t t' : list Event) :
  messagesRead (t ++ t') = (messagesRead t ++ messagesRead t')%list.
Proof.
  induction t as [|ev t IH]; [reflexivity|].
  destruct ev; cbn [app messagesRead]; try exact IH.
  destruct r as [[text|]|]; try exact IH.
  destruct (JsString.truthy (JsString.trim text)); cbn [app]; now rewrite IH.
Qed.


Lemma getErrorMessages_loop_spec (errorElements : list ElementHandle) :
  forall (errorMessages : list string) (w : W),
    (forall c, outcome (getErrorMessages_loop errorElements (errorMessages, w))
               <> Exit c) /\
    fst (final (getErrorMessages_loop errorElements (errorMessages, w)))
    = (errorMessages
       ++ messagesRead (trace (getErrorMessages_loop errorElements (errorMessages, w))))%list /\
    (forall ev,
        In ev (trace (getErrorMessages_loop errorElements (errorMessages, w))) ->
        exists h x, ev = EvElementTextContent h x).
Proof.
  induction errorElements as [|element rest IH]; intros errorMessages w.
  - cbn. rewrite app_nil_r. repeat split; [discriminate | contradiction].
  - cbn [getErrorMessages_loop]. unfold_js. cbn [fst snd].
    destruct (env_elementTextContent element w) as [[[text|]|e] w'].
    + destruct (JsString.truthy (JsString.trim text)) eqn:Ht.
      * specialize (IH (push errorMessages (JsString.trim text)) w').
        destruct (getErrorMessages_loop rest _) as [o [l s] t].
        cbn [outcome final trace fst] in IH |- *.
        destruct IH as (Hexit & Hmsgs & Hevs).
        cbn [app messagesRead]. rewrite Ht.
        split; [exact Hexit|]. split.
        -- rewrite Hmsgs. unfold push. now rewrite <- app_assoc.
        -- intros ev [<- | Hin]; [now eexists; eexists | exact (Hevs ev Hin)].
      * specialize (IH errorMessages w').
        destruct (getErrorMessages_loop rest _) as [o [l s] t].
        cbn [outcome final trace fst] in IH |- *.
        destruct IH as (Hexit & Hmsgs & Hevs).
        cbn [app messagesRead]. rewrite Ht.
        split; [exact Hexit|]. split; [exact Hmsgs|].
        intros ev [<- | Hin]; [now eexists; eexists | exact (Hevs ev Hin)].
    + cbn. rewrite app_nil_r. repeat split; try discriminate.
      intros ev [<- | []]. now eexists; eexists.
    + cbn. rewrite app_nil_r. repeat split; try discriminate.
      intros ev [<- | []]. now eexists; eexists.
Qed.


End ErrorMessagesFacts.

(* ===================================================================== *)
(** * The detector and the error collector on concrete pages *)
(* ===================================================================== *)

Lemma rejection_precedes_success_signals_witness :
  sc_waitForSelector everything_present RegistrationPage.successMessage Visible 5000
  = Ok tt /\
  outcome (RegistrationPage.isRegistrationSuccessful (session everything_present 0))
  = Ret false /\
  (forall ev,
      In ev (trace (RegistrationPage.isRegistrationSuccessful
                      (session everything_present 0))) ->
      successSignalLookup ev = false).
Proof.
  split; [reflexivity|].
  destruct (rejection_precedes_success_signals
              (session everything_present 0)
              "https://parabank.parasoft.com/parabank/register.htm" 1%nat)
    as (Hout & Hnone & _).
  - reflexivity.
  - vm_compute. reflexivity.
  - reflexivity.
  - discriminate.
  - split; assumption.
Defined.

Lemma isRegistrationSuccessful_fail_closed_witness :
  outcome (RegistrationPage.isRegistrationSuccessful (session (bare_page timedOut) 0))
  = Ret false.
Proof.
  apply (proj2 (proj2 (isRegistrationSuccessful_fail_closed
                         (session (bare_page timedOut) 0)))
               (EvContent timedOut)).
  - vm_compute. tauto.
  - vm_compute. reflexivity.
  - vm_compute. reflexivity.
Defined.

Lemma raw_text_fallback_detects_success_witness :
  outcome (RegistrationPage.isRegistrationSuccessful
             (session (bare_page (Ok "<p>Your account was created successfully. You are now logged in.</p>")) 0))
  = Ret true /\
  In (EvContent (Ok "<p>Your account was created successfully. You are now logged in.</p>"))
     (trace (RegistrationPage.isRegistrationSuccessful
               (session (bare_page (Ok "<p>Your account was created successfully. You are now logged in.</p>")) 0))).
Proof.
  destruct (raw_text_fallback_detects_success
              (session (bare_page (Ok "<p>Your account was created successfully. You are now logged in.</p>")) 0)
              "https://parabank.parasoft.com/parabank/register.htm"
              "<p>Your account was created successfully. You are now logged in.</p>")
    as (Hout & e1 & e2 & e3 & e4 & Htrace).
  - reflexivity.
  - reflexivity.
  - vm_compute. reflexivity.
  - reflexivity.
  - reflexivity.
  - reflexivity.
  - reflexivity.
  - reflexivity.
  - reflexivity.
  - vm_compute. reflexivity.
  - split; [exact Hout|]. rewrite Htrace. vm_compute. tauto.
Defined.

(** C6, as stated, fails in its last part: on a site whose address has
    'account' in it, with a URL that ends in 'register.htm', no error
    element, none of the success elements and the success text in the page
    content, the detector returns true, but through the URL signal: the
    page content is not read. *)
Lemma url_signal_answers_before_the_raw_text :
  sc_url account_site_page = Ok "https://account.parabank.example/register.htm" /\
  JsString.endsWith "https://account.parabank.example/register.htm" "register.htm" = true /\
  sc_count account_site_page ".error" = Ok 0%nat /\
  (forall selector, sc_waitForSelector account_site_page selector Visible 5000 = timedOut) /\
  (exists pageContent,
      sc_content account_site_page = Ok pageContent /\
      JsString.includes pageContent "Your account was created successfully" = true) /\
  outcome (RegistrationPage.isRegistrationSuccessful (session account_site_page 0))
  = Ret true /\
  (forall x, ~ In (EvContent x)
                  (trace (RegistrationPage.isRegistrationSuccessful
                            (session account_site_page 0)))).
Proof.
  split; [reflexivity|]. split; [vm_compute; reflexivity|].
  split; [reflexivity|]. split; [reflexivity|].
  split; [eexists; split; [reflexivity | vm_compute; reflexivity]|].
  split; [vm_compute; reflexivity|].
  intros x Hin. vm_compute in Hin.
  repeat (destruct Hin as [Hin | Hin]; [discriminate Hin|]). exact Hin.
Qed.

Lemma failed_visibility_probe_is_not_visible_witness :
  outcome (RegistrationPage.isRegistrationSuccessful (session redirected 0)) = Ret true.
Proof.
  apply (proj1 (proj2 (proj2 (failed_visibility_probe_is_not_visible (session redirected 0))))
               "https://parabank.parasoft.com/parabank/overview.htm").
  - reflexivity.
  - reflexivity.
  - vm_compute. reflexivity.
  - reflexivity.
  - reflexivity.
  - reflexivity.
  - reflexivity.
Defined.

(** C5, as stated, fails: with the welcome title shown, its text read
    rejected, the account-services section shown and the browser on the
    overview page, the detector stops at the failed text read and returns
    false; the signals after it are not looked up. *)
Lemma text_read_failure_stops_detection :
  sc_waitForSelector title_unreadable RegistrationPage.accountServicesSection Visible 5000
  = Ok tt /\
  outcome (RegistrationPage.isRegistrationSuccessful (session title_unreadable 0))
  = Ret false /\
  ~ continues_after_failed
      elementLookup
      (RegistrationPage.isRegistrationSuccessful (session title_unreadable 0)).
Proof.
  split; [reflexivity|]. split; [reflexivity|].
  intros Hcont.
  set (r := RegistrationPage.isRegistrationSuccessful (session title_unreadable 0)) in *.
  assert (Hcut : trace r
                 = (removelast (trace r)
                    ++ EvTextContent RegistrationPage.welcomeMessage
                         (Err (Error "Element is not attached to the DOM")) :: [])%list)
    by (vm_compute; reflexivity).
  specialize (Hcont _ _ _ Hcut eq_refl eq_refl).
  vm_compute in Hcont. destruct Hcont as (next & rest & Habs & _). discriminate Habs.
Qed.


(** An error element that holds white space only, be it of Unicode, gives
    no message. *)
Example getErrorMessages_drops_a_blank_element :
  outcome (RegistrationPage.getErrorMessages (session blank_error 0)) = Ret [].
Proof. vm_compute. reflexivity. Qed.


(* ===================================================================== *)
(** * Generated usernames *)
(* ===================================================================== *)

Section UsernameFacts.
Context {W : Type} `{Env W}.
Import JsString.

Lemma allChars_append (p : ascii -> bool) (a b : string) :
  allChars p (a ++ b) = allChars p a && allChars p b.
Proof.
  induction a as [|c a IH]; cbn; [reflexivity|].
  now rewrite IH, Bool.andb_assoc.
Qed.

Lemma allChars_substring (p : ascii -> bool) (s : string) :
  forall n m, allChars p s = true -> allChars p (String.substring n m s) = true.
Proof.
  induction s as [|c s IH]; intros n m Hs.
  - destruct n, m; reflexivity.
  - cbn in Hs. apply Bool.andb_true_iff in Hs as [Hc Hs].
    destruct n as [|n].
    + destruct m as [|m]; cbn; [reflexivity|].
      rewrite Hc. now apply IH.
    + cbn. now apply IH.
Qed.

Lemma includes_allChars (p : ascii -> bool) (s needle : string) :
  includes s needle = true -> allChars p s = true -> allChars p needle = true.
Proof.
  intros Hi Hs. destruct (JsStringFacts.includes_inv _ _ Hi) as (a & b & ->).
  rewrite !allChars_append in Hs.
  apply Bool.andb_true_iff in Hs as [_ Hs].
  now apply Bool.andb_true_iff in Hs as [Hs _].
Qed.

Lemma digitChar_notUnderscore (d : N) :
  (d < 128)%N -> notUnderscore (digitChar d) = true.
Proof.
  intros Hd.
  assert (Hall : forallb (fun k => notUnderscore (digitChar (N.of_nat k)))
                         (seq 0 128) = true) by (vm_compute; reflexivity).
  pose proof (proj1 (forallb_forall _ _) Hall (N.to_nat d)) as Hk.
  specialize (Hk ltac:(apply in_seq; lia)). cbv beta in Hk.
  now rewrite N2Nat.id in Hk.
Qed.

Lemma digitsOf_notUnderscore (fuel : nat) :
  forall n acc,
    allChars notUnderscore acc = true ->
    allChars notUnderscore (digitsOf fuel 36 n acc) = true.
Proof.
  induction fuel as [|fuel IH]; intros n acc Hacc; cbn [digitsOf]; [exact Hacc|].
  assert (Hacc' : allChars notUnderscore (String (digitChar (n mod 36)) acc) = true).
  { cbn [allChars]. rewrite Hacc, digitChar_notUnderscore; [reflexivity|].
    apply N.lt_trans with 36%N; [apply N.mod_lt; discriminate | reflexivity]. }
  destruct (n / 36 =? 0)%N; [exact Hacc' | now apply IH].
Qed.

Lemma toStringRadix36_notUnderscore (n : Z) :
  allChars notUnderscore (toStringRadix 36 n) = true.
Proof.
  unfold toStringRadix.
  assert (Hbody : forall fuel m,
             allChars notUnderscore (digitsOf fuel 36 m EmptyString) = true)
    by (intros; now apply digitsOf_notUnderscore).
  destruct (n <? 0); [cbn [allChars]; rewrite Hbody; reflexivity | apply Hbody].
Qed.

Lemma digitString_notUnderscore (written : list Z) :
  writtenDigits written ->
  allChars notUnderscore (JsNumber.digitString written) = true.
Proof.
  unfold JsNumber.digitString.
  assert (Hgen : forall acc,
             writtenDigits written -> allChars notUnderscore acc = true ->
             allChars notUnderscore
               (fold_left (fun s digit => String (digitChar (Z.to_N digit)) s)
                          written acc) = true).
  { induction written as [|digit before IH]; intros acc Hw Hacc; cbn [fold_left];
      [exact Hacc|].
    inversion Hw as [|? ? Hd Hb]; subst. apply IH; [exact Hb|].
    cbn [allChars]. rewrite Hacc, digitChar_notUnderscore; [reflexivity|].
    change 128%N with (Z.to_N 128). apply Z2N.inj_lt; lia. }
  intros Hw. now apply Hgen.
Qed.

(** What [toString(36)] writes for a number in [0, 1) has no underscore,
    whatever the number of rounds. *)
Lemma toString36_within_notUnderscore (fuel : nat) (x : Z) :
  0 <= x < JsNumber.one ->
  allChars notUnderscore (JsNumber.toString36_within fuel x) = true.
Proof.
  intros Hx. unfold JsNumber.toString36_within.
  destruct (x =? 0); [reflexivity|]. cbv zeta.
  assert (Hw : writtenDigits (snd (if Z.max 1 (JsNumber.ulp x / 2) <=? x
                            then JsNumber.fractionDigits fuel x (Z.max 1 (JsNumber.ulp x / 2)) []
                            else (false, [])))).
  { destruct (_ <=? _); [|constructor].
    apply JsNumberFacts.fractionDigits_digits; [exact Hx | constructor]. }
  destruct (if Z.max 1 (JsNumber.ulp x / 2) <=? x then _ else _) as [carried written].
  cbn [snd] in Hw.
  rewrite allChars_append.
  destruct written as [|digit before].
  - now destruct carried.
  - rewrite allChars_append, digitString_notUnderscore by exact Hw.
    now destruct carried.
Qed.

(** No username produced by [generateUniqueUser] contains 'testuser_': it
    is made of "u" and of base-36 digits. *)
Lemma generated_username_has_no_marker (wg : W) (userData : UserData) :
  outcome (UserDataGen.generateUniqueUser wg) = Ret userData ->
  includes (username userData) "testuser_" = false.
Proof.
  unfold UserDataGen.generateUniqueUser. unfold_js.
  destruct (env_dateNow wg) as [timestamp w1].
  destruct (env_random w1) as [r w2].
  destruct (env_random w2) as [r' w3].
  cbn [outcome]. intros Hu. injection Hu as <-. cbn [username].
  match goal with |- includes ?u _ = false => destruct (includes u "testuser_") eqn:Hi end;
    [|reflexivity].
  apply (includes_allChars notUnderscore) in Hi; [discriminate Hi|].
  cbn [allChars]. replace (notUnderscore "u") with true by reflexivity.
  rewrite !allChars_append, !toStringRadix36_notUnderscore.
  unfold substr. rewrite allChars_substring; [reflexivity|].
  apply toString36_within_notUnderscore.
  pose proof (JsNumberFacts.valueOf_range r') as Hr.
  assert (0 < 2 ^ 1021) by reflexivity. lia.
Qed.

(** Hence the choice made at the head of each pass of the retry loop is
    always the user data generated before the loop. *)
Lemma freshUserData_is_userData (wg : W) (userData : UserData) (w : W) :
  outcome (UserDataGen.generateUniqueUser wg) = Ret userData ->
  RegistrationSpec.freshUserData userData w = mkRun (Ret userData) w [].
Proof.
  intros Hgen. unfold RegistrationSpec.freshUserData.
  now rewrite (generated_username_has_no_marker _ _ Hgen).
Qed.

End UsernameFacts.

(* ===================================================================== *)
(** * The retry loop of TC 001 *)
(* ===================================================================== *)

Section MonadFacts.
Context {S A B : Type}.

Lemma bind_returns (m : M S A) (k : A -> M S B) (s : S) (a : A) :
  outcome (m s) = Ret a ->
  bind m k s = after_trace (trace (m s)) (k a (final (m s))).
Proof.
  unfold bind, after_trace. destruct (m s) as [[x|e|c] s1 t1]; cbn; intros Ha;
    try discriminate Ha. injection Ha as ->. now destruct (k a s1).
Qed.

Lemma bind_assoc {C} (m : M S A) (k : A -> M S B) (h : B -> M S C) (s : S) :
  bind (bind m k) h s = bind m (fun a => bind (k a) h) s.
Proof.
  unfold bind. destruct (m s) as [[a|e|c] s1 t1]; try reflexivity.
  destruct (k a s1) as [[b|e|c] s2 t2]; try reflexivity.
  destruct (h b s2) as [o s3 t3]. now rewrite app_assoc.
Qed.

End MonadFacts.

Section TraceFacts.

Lemma clicksOn_app (selector : string) (t t' : list Event) :
  clicksOn selector (t ++ t') = (clicksOn selector t + clicksOn selector t')%nat.
Proof. unfold clicksOn. now rewrite filter_app, length_app. Qed.

Lemma fillsOf_app (selector : string) (t t' : list Event) :
  fillsOf selector (t ++ t') = (fillsOf selector t ++ fillsOf selector t')%list.
Proof.
  induction t as [|ev t IH]; [reflexivity|]. cbn [app fillsOf].
  destruct (filledInto selector ev); cbn [app]; now rewrite IH.
Qed.

Lemma existsb_false_app {A} (p : A -> bool) (t t' : list A) :
  existsb p t = false -> existsb p t' = false -> existsb p (t ++ t') = false.
Proof. intros Ht Ht'. now rewrite existsb_app, Ht, Ht'. Qed.

(** A trace without form actions counts no click and no fill. *)
Lemma no_formAction (selector : string) (t : list Event) :
  existsb formAction t = false ->
  clicksOn selector t = 0%nat /\ fillsOf selector t = [].
Proof.
  induction t as [|ev t IH]; [now split|]. cbn [existsb].
  intros Hq. apply Bool.orb_false_iff in Hq as [Hev Ht].
  destruct (IH Ht) as [Hc Hf].
  unfold clicksOn in *. cbn [filter fillsOf].
  destruct ev; try discriminate Hev; cbn; now rewrite ?Hc, ?Hf.
Qed.

End TraceFacts.

Section RetryFacts.
Context {W : Type} `{Env W}.
Import RegistrationPage RegistrationSpec.

Lemma validateFormData_makes_no_formAction (userData : UserData) (w : W) :
  existsb formAction (trace (validateFormData userData w)) = false.
Proof. unfold validateFormData. unfold_js. all_paths; reflexivity. Qed.

Lemma isRegistrationSuccessful_makes_no_formAction (w : W) :
  existsb formAction (trace (isRegistrationSuccessful w)) = false.
Proof. open_detector. all_paths; reflexivity. Qed.

Lemma existsb_false_forall {A} (p : A -> bool) (t : list A) :
  (forall x, In x t -> p x = false) -> existsb p t = false.
Proof.
  induction t as [|x t IH]; [reflexivity|]. intros Hall. cbn.
  rewrite (Hall x (or_introl eq_refl)), IH; [reflexivity|].
  intros y Hy. apply Hall. now right.
Qed.

Lemma getErrorMessages_makes_no_formAction (w : W) :
  existsb formAction (trace (getErrorMessages w)) = false.
Proof.
  unfold getErrorMessages, errorMessage. unfold_js. cbn [fst snd].
  destruct (env_queryAll ".error" w) as [[errorElements|e] w']; [|reflexivity].
  destruct (getErrorMessages_loop_spec errorElements [] w') as (_ & _ & Hevs).
  destruct (getErrorMessages_loop errorElements ([], w')) as [o [l s] t].
  cbn [trace] in Hevs.
  assert (Ht : existsb formAction t = false).
  { apply existsb_false_forall. intros ev Hin.
    destruct (Hevs ev Hin) as (h & x & ->). reflexivity. }
  destruct o as [[]|e|c]; cbn; rewrite ?app_nil_r; exact Ht.
Qed.

Lemma fillRegistrationForm_trace (userData : UserData) (w : W) :
  outcome (fillRegistrationForm userData w) = Ret tt ->
  clicksOn registerButton (trace (fillRegistrationForm userData w)) = 0%nat /\
  fillsOf usernameInput (trace (fillRegistrationForm userData w))
  = [username userData].
Proof.
  unfold fillRegistrationForm. unfold_js.
  all_paths; intros Hout; try discriminate Hout; split; reflexivity.
Qed.

Lemma submitRegistration_trace (w : W) :
  outcome (submitRegistration w) = Ret tt ->
  clicksOn registerButton (trace (submitRegistration w)) = 1%nat /\
  fillsOf usernameInput (trace (submitRegistration w)) = [].
Proof.
  unfold submitRegistration. unfold_js.
  all_paths; intros Hout; try discriminate Hout; split; reflexivity.
Qed.

Lemma reloadAndReopen_trace (w : W) :
  clicksOn registerButton (trace (reloadAndReopen w)) = 0%nat /\
  fillsOf usernameInput (trace (reloadAndReopen w)) = [].
Proof.
  unfold reloadAndReopen, HomePage.clickRegisterLink. unfold_js.
  all_paths; split; reflexivity.
Qed.

(** A pass that returns has clicked the Register button once and filled
    the username field once, with the username of the data it was given. *)
Lemma attemptPass_trace (userData : UserData) (w : W) (x : bool * bool * list string) :
  outcome (attemptPass userData w) = Ret x ->
  clicksOn registerButton (trace (attemptPass userData w)) = 1%nat /\
  fillsOf usernameInput (trace (attemptPass userData w)) = [username userData].
Proof.
  unfold attemptPass, bind, ret.
  pose proof (fillRegistrationForm_trace userData w) as Hfill.
  destruct (fillRegistrationForm userData w) as [[[]|e|c] w1 t1];
    cbn [outcome trace final] in *; try discriminate.
  destruct (Hfill eq_refl) as [Hc1 Hf1].
  pose proof (no_formAction registerButton _
                (validateFormData_makes_no_formAction userData w1)) as [Hc2 _].
  pose proof (no_formAction usernameInput _
                (validateFormData_makes_no_formAction userData w1)) as [_ Hf2].
  destruct (validateFormData userData w1) as [[v|e|c] w2 t2];
    cbn [outcome trace final] in *; try discriminate.
  pose proof (submitRegistration_trace w2) as Hsub.
  destruct (submitRegistration w2) as [[[]|e|c] w3 t3];
    cbn [outcome trace final] in *; try discriminate.
  destruct (Hsub eq_refl) as [Hc3 Hf3].
  pose proof (no_formAction registerButton _
                (isRegistrationSuccessful_makes_no_formAction w3)) as [Hc4 _].
  pose proof (no_formAction usernameInput _
                (isRegistrationSuccessful_makes_no_formAction w3)) as [_ Hf4].
  destruct (isRegistrationSuccessful w3) as [[b|e|c] w4 t4];
    cbn [outcome trace final] in *; try discriminate.
  pose proof (no_formAction registerButton _
                (getErrorMessages_makes_no_formAction w4)) as [Hc5 _].
  pose proof (no_formAction usernameInput _
                (getErrorMessages_makes_no_formAction w4)) as [_ Hf5].
  destruct (getErrorMessages w4) as [[msgs|e|c] w5 t5];
    cbn [outcome trace final] in *; try discriminate.
  intros _. rewrite !clicksOn_app, !fillsOf_app.
  rewrite Hc1, Hc2, Hc3, Hc4, Hc5, Hf1, Hf2, Hf3, Hf4, Hf5. split; reflexivity.
Qed.

(** One pass of the loop in which the form is valid and the detector
    answers false: the loop reloads and goes on when the messages signal a
    conflict and attempts remain, and ends otherwise. *)
Lemma retryLoop_pass (fuel : nat) (userData : UserData) (attempt : Z) (w : W)
      (errorMessages : list string) :
  JsString.includes (username userData) "testuser_" = false ->
  attempt < maxAttempts ->
  outcome (attemptPass userData w) = Ret (true, false, errorMessages) ->
  retryLoop (S fuel) userData attempt false w
  = after_trace
      (trace (attemptPass userData w))
      (if hasUsernameConflict errorMessages && (attempt + 1 <? maxAttempts)
       then bind reloadAndReopen
                 (fun _ => retryLoop fuel userData (attempt + 1) false)
                 (final (attemptPass userData w))
       else mkRun (Ret (Some false)) (final (attemptPass userData w)) []).
Proof.
  intros Hmarker Hlt Hout. cbn [retryLoop].
  apply Z.ltb_lt in Hlt. rewrite Hlt. cbn [negb andb].
  unfold freshUserData. rewrite Hmarker.
  unfold expect_toBeTruthy.
  unfold attemptPass, reloadAndReopen, after_trace, bind, ret, throw in *.
  destruct (fillRegistrationForm userData w) as [[[]|e|c] w1 t1];
    cbn [outcome trace final app] in *; try discriminate Hout.
  destruct (validateFormData userData w1) as [[[|]|e|c] w2 t2];
    cbn [outcome trace final app] in *; try discriminate Hout.
  2: { exfalso. revert Hout.
       destruct (submitRegistration w2) as [[[]|e|c] w3 t3];
         cbn [outcome final]; try discriminate.
       destruct (isRegistrationSuccessful w3) as [[b|e|c] w4 t4];
         cbn [outcome final]; try discriminate.
       destruct (getErrorMessages w4) as [[msgs|e|c] w5 t5];
         cbn [outcome final]; discriminate. }
  destruct (submitRegistration w2) as [[[]|e|c] w3 t3];
    cbn [outcome trace final app] in *; try discriminate Hout.
  destruct (isRegistrationSuccessful w3) as [[[|]|e|c] w4 t4];
    cbn [outcome trace final app] in *; try discriminate Hout.
  { exfalso. destruct (getErrorMessages w4) as [[msgs|e|c] w5 t5];
      cbn [outcome] in Hout; discriminate Hout. }
  destruct (getErrorMessages w4) as [[msgs|e|c] w5 t5];
    cbn [outcome trace final app] in *; try discriminate Hout.
  injection Hout as ->.
  cbn [outcome trace final app].
  destruct (hasUsernameConflict errorMessages && (attempt + 1 <? maxAttempts)).
  - destruct (Page.reload w5) as [[[]|e|c] w6 t6]; cbn [outcome trace final app];
      rewrite ?app_nil_r, <- ?app_assoc; try reflexivity.
    destruct (HomePage.clickRegisterLink w6) as [[[]|e|c] w7 t7];
      cbn [outcome trace final app];
      rewrite ?app_nil_r, <- ?app_assoc; try reflexivity.
    destruct (retryLoop fuel userData (attempt + 1) false w7) as [o w8 t8].
    cbn [outcome trace final app]. now rewrite <- ?app_assoc.
  - cbn [outcome trace final app]. now rewrite ?app_nil_r, <- ?app_assoc.
Qed.

(** The loop ends within [maxAttempts] passes: fuel for the passes that
    remain is enough. *)
Lemma retryLoop_fuel_enough (fuel : nat) (userData : UserData) :
  forall (attempt : Z) (success : bool) (w : W),
    (Z.to_nat (maxAttempts - attempt) <= fuel)%nat ->
    outcome (retryLoop fuel userData attempt success w) <> Ret None.
Proof.
  induction fuel as [|fuel IH]; intros attempt success w Hfuel.
  - cbn [retryLoop]. destruct (attempt <? maxAttempts) eqn:Hlt.
    + apply Z.ltb_lt in Hlt. unfold maxAttempts in *. lia.
    + cbn. discriminate.
  - cbn [retryLoop].
    destruct ((attempt <? maxAttempts) && negb success) eqn:Hguard;
      [|cbn; discriminate].
    assert (Hrec : forall b w', outcome (retryLoop fuel userData (attempt + 1) b w')
                                <> Ret None)
      by (intros; apply IH; unfold maxAttempts in *; lia).
    unfold expect_toBeTruthy. unfold freshUserData, bind, ret, throw.
    destruct (JsString.includes (username userData) "testuser_");
      [cbn [outcome final trace]; discriminate|].
    destruct (fillRegistrationForm userData w) as [[[]|e|c] w1 t1];
      cbn [outcome final trace]; try discriminate.
    destruct (validateFormData userData w1) as [[[|]|e|c] w2 t2];
      cbn [outcome final trace]; try discriminate.
    destruct (submitRegistration w2) as [[[]|e|c] w3 t3];
      cbn [outcome final trace]; try discriminate.
    destruct (isRegistrationSuccessful w3) as [[[|]|e|c] w4 t4];
      cbn [outcome final trace]; try discriminate.
    + specialize (Hrec true w4).
      destruct (retryLoop fuel userData (attempt + 1) true w4) as [o w5 t5].
      exact Hrec.
    + destruct (getErrorMessages w4) as [[msgs|e|c] w5 t5];
        cbn [outcome final trace]; try discriminate.
      destruct (hasUsernameConflict msgs && (attempt + 1 <? maxAttempts));
        [|cbn; discriminate].
      destruct (Page.reload w5) as [[[]|e|c] w6 t6]; cbn [outcome final trace]; try discriminate.
      destruct (HomePage.clickRegisterLink w6) as [[[]|e|c] w7 t7];
        cbn [outcome final trace]; try discriminate.
      specialize (Hrec success w7).
      destruct (retryLoop fuel userData (attempt + 1) success w7) as [o w8 t8].
      exact Hrec.
Qed.

(** C3.  Let the user data come from [generateUniqueUser].  When three
    passes in a row find the form valid, the detector false and the
    collected messages signalling a username conflict, with the reload
    between them succeeding, the step throws
    'Registration failed after 3 attempts' after exactly these three
    passes and two reloads: the Register button has been clicked three
    times, whatever fuel above three the loop is given. *)
Theorem retry_loop_exhausts_after_three_attempts
    (fuel : nat) (wg w0 : W) (userData : UserData)
    (messages1 messages2 messages3 : list string) :
  let pass1 := attemptPass userData w0 in
  let reload1 := reloadAndReopen (final pass1) in
  let pass2 := attemptPass userData (final reload1) in
  let reload2 := reloadAndReopen (final pass2) in
  let pass3 := attemptPass userData (final reload2) in
  (3 <= fuel)%nat ->
  outcome (UserDataGen.generateUniqueUser wg) = Ret userData ->
  outcome pass1 = Ret (true, false, messages1) ->
  hasUsernameConflict messages1 = true ->
  outcome reload1 = Ret tt ->
  outcome pass2 = Ret (true, false, messages2) ->
  hasUsernameConflict messages2 = true ->
  outcome reload2 = Ret tt ->
  outcome pass3 = Ret (true, false, messages3) ->
  hasUsernameConflict messages3 = true ->
  outcome (fillRegistrationStep fuel userData w0)
  = Throw (Error "Registration failed after 3 attempts") /\
  trace (fillRegistrationStep fuel userData w0)
  = (trace pass1 ++ trace reload1 ++ trace pass2 ++ trace reload2 ++ trace pass3)%list /\
  final (fillRegistrationStep fuel userData w0) = final pass3 /\
  clicksOn registerButton (trace (fillRegistrationStep fuel userData w0)) = 3%nat.
Proof.
  intros pass1 reload1 pass2 reload2 pass3 Hfuel Hgen
         Hp1 Hc1 Hr1 Hp2 Hc2 Hr2 Hp3 Hc3.
  pose proof (generated_username_has_no_marker _ _ Hgen) as Hmarker.
  destruct fuel as [|[|[|fuel]]]; try lia.
  assert (Hloop :
            retryLoop (S (S (S fuel))) userData 0 false w0
            = mkRun (Ret (Some false)) (final pass3)
                    (trace pass1 ++ trace reload1 ++ trace pass2 ++ trace reload2
                     ++ trace pass3)%list).
  { rewrite (retryLoop_pass _ _ 0 _ messages1 Hmarker eq_refl Hp1).
    rewrite Hc1. cbn [andb]. change (0 + 1 <? maxAttempts) with true. cbv iota.
    fold pass1. rewrite (bind_returns _ _ _ tt Hr1). fold reload1.
    rewrite (retryLoop_pass _ _ 1 _ messages2 Hmarker eq_refl Hp2).
    rewrite Hc2. cbn [andb]. change (0 + 1 + 1 <? maxAttempts) with true. cbv iota.
    fold pass2. rewrite (bind_returns _ _ _ tt Hr2). fold reload2.
    rewrite (retryLoop_pass _ _ 2 _ messages3 Hmarker eq_refl Hp3).
    rewrite Hc3. cbn [andb]. change (0 + 1 + 1 + 1 <? maxAttempts) with false. cbv iota.
    fold pass3. unfold after_trace. cbn [outcome final trace].
    now rewrite ?app_nil_r. }
  unfold fillRegistrationStep, bind. rewrite Hloop. cbn [negb].
  unfold throw. cbn [outcome trace final]. rewrite app_nil_r.
  split; [reflexivity|]. split; [reflexivity|]. split; [reflexivity|].
  rewrite !clicksOn_app.
  pose proof (proj1 (attemptPass_trace _ _ _ Hp1)) as Hk1.
  pose proof (proj1 (attemptPass_trace _ _ _ Hp2)) as Hk2.
  pose proof (proj1 (attemptPass_trace _ _ _ Hp3)) as Hk3.
  pose proof (proj1 (reloadAndReopen_trace (final pass1))) as Hk4.
  pose proof (proj1 (reloadAndReopen_trace (final pass2))) as Hk5.
  fold pass1 in Hk1. fold reload1 in Hk2, Hk4. fold pass2 in Hk2, Hk5.
  fold reload2 in Hk3, Hk5. fold pass3 in Hk3.
  now rewrite Hk1, Hk2, Hk3, Hk4, Hk5.
Qed.

End RetryFacts.

(* ===================================================================== *)
(** * The run recorder *)
(* ===================================================================== *)

Section RecorderFacts.
Context {W : Type} `{Env W}.
Import TestSuite.

Lemma step1_never_exits : never_exits step1.
Proof. intros w c. unfold step1. open_step. all_paths; discriminate. Qed.

Lemma step2_never_exits : never_exits step2.
Proof. intros w c. unfold step2. open_step. all_paths; discriminate. Qed.

Lemma step3_never_exits (uniqueUsername : string) (testData : UserData) :
  never_exits (step3 uniqueUsername testData).
Proof. intros w c. unfold step3. open_step. all_paths; discriminate. Qed.

Lemma step4_never_exits : never_exits step4.
Proof. intros w c. unfold step4. open_step. all_paths; discriminate. Qed.

Lemma step5_never_exits (uniqueUsername : string) :
  never_exits (step5 uniqueUsername).
Proof. intros w c. unfold step5. open_step. all_paths; discriminate. Qed.

(** [executeStep] closes the step record whether the step function
    returns or throws: the end time is set, and the status is PASSED on a
    return and FAILED, with the message of the error, on a throw, which is
    then thrown on. *)
Lemma executeStep_try_finalizes
      (stepFunction : M W string) (step : StepResult) (w : W) :
  never_exits stepFunction ->
  step_endTime (fst (final (executeStep_try stepFunction (step, w)))) <> None /\
  ((outcome (executeStep_try stepFunction (step, w)) = Ret tt /\
    step_status (fst (final (executeStep_try stepFunction (step, w)))) = PASSED) \/
   (exists e,
       outcome (executeStep_try stepFunction (step, w)) = Throw e /\
       finalizedAsFailed e (fst (final (executeStep_try stepFunction (step, w)))))).
Proof.
  intros Hfn. unfold executeStep_try, finalizedAsFailed. unfold_js. cbn [fst snd].
  pose proof (Hfn w) as Hexit.
  destruct (stepFunction w) as [[result|e|c] w1 t1]; cbn [outcome] in Hexit;
    [| |now destruct (Hexit c)];
    cbn [fst snd]; destruct (env_dateNow w1) as [now w2]; cbn.
  - split; [discriminate|]. left. now split.
  - split; [discriminate|]. right. exists e. repeat split. discriminate.
Qed.

Lemma executeStep_spec (stepName : string) (stepFunction : M W string) (w : W) :
  never_exits stepFunction ->
  exists o w' t,
    executeStep stepName stepFunction w = mkRun o w' t /\
    ((exists step, o = Ret step /\ step_status step = PASSED
                   /\ step_endTime step <> None) \/
     (exists e, o = Throw e)).
Proof.
  intros Hfn. unfold executeStep, Sys.dateNow, observe, bind, in_frame, ret.
  destruct (env_dateNow w) as [now w0].
  destruct (executeStep_try_finalizes
              stepFunction (mkStep stepName RUNNING now None None None) w0 Hfn)
    as [Hend [[Hout Hst] | (e & Hout & _)]];
    destruct (executeStep_try stepFunction _) as [o [step w1] t1];
    cbn [outcome final fst] in *; subst o; cbn [fst snd].
  - do 3 eexists. split; [reflexivity|]. left. exists step. now repeat split.
  - do 3 eexists. split; [reflexivity|]. right. now exists e.
Qed.

(** A step is pushed onto the case only when [executeStep] returned it;
    a step that threw leaves the case as it was. *)
Lemma pushStep_spec (stepName : string) (stepFunction : M W string)
      (c : CaseResult) (suite : Suite) (w : W) :
  never_exits stepFunction ->
  exists o c' w' t,
    pushStep stepName stepFunction (c, (suite, w)) = mkRun o (c', (suite, w')) t /\
    ((o = Ret tt /\
      exists step, c' = push_case_step step c /\ step_status step = PASSED) \/
     (exists e, o = Throw e /\ c' = c)).
Proof.
  intros Hfn. unfold pushStep, bind, lift, modifyL. cbn [fst snd].
  destruct (executeStep_spec stepName stepFunction w Hfn)
    as (o & w1 & t1 & -> & [(step & -> & Hst & _) | (e & ->)]); cbn [fst snd].
  - do 4 eexists. split; [reflexivity|]. left. split; [reflexivity|].
    exists step. now split.
  - do 4 eexists. split; [reflexivity|]. right. now exists e.
Qed.

Lemma allStepsPassed_push (step : StepResult) (c : CaseResult) :
  allStepsPassed c -> step_status step = PASSED ->
  allStepsPassed (push_case_step step c).
Proof.
  unfold allStepsPassed, push_case_step, push. cbn [case_steps].
  intros Hc Hs. apply Forall_app. split; [exact Hc | now constructor].
Qed.

(** The [try] block of [runTestCase001]: it ends with the case marked
    PASSED and counted as passed, or it throws with the counts
    untouched. *)
Lemma runTestCase001_try_spec (c : CaseResult) (suite : Suite) (w : W) :
  allStepsPassed c ->
  exists o c' suite' w' t,
    runTestCase001_try (c, (suite, w)) = mkRun o (c', (suite', w')) t /\
    allStepsPassed c' /\
    ((o = Ret tt /\ case_status c' = PASSED /\ case_endTime c' <> None /\
      suite' = on_testResults incr_passedTests suite) \/
     (exists e, o = Throw e /\ suite' = suite)).
Proof.
  intros Hc. unfold runTestCase001_try.
  push_one pushStep_spec step1_never_exits.
  pose proof (allStepsPassed_push _ _ Hc Hst) as Hc1.
  push_one pushStep_spec step2_never_exits.
  pose proof (allStepsPassed_push _ _ Hc1 Hst0) as Hc2.
  unfold bind at 1. unfold lift at 1 2. unfold Sys.dateNow at 1. unfold observe.
  cbn [fst snd]. destruct (env_dateNow w1) as [timestamp w2].
  push_one pushStep_spec
           (step3_never_exits
              ("testuser" ++ JsString.toString timestamp)
              {| firstName := "Test"; lastName := "User";
                 address := "123 Test Street"; city := "Test City"; state := "CA";
                 zipCode := "12345"; phone := "555-123-4567"; ssn := "123-45-6789";
                 username := "testuser" ++ JsString.toString timestamp;
                 password := "TestPass123!" |}).
  pose proof (allStepsPassed_push _ _ Hc2 Hst1) as Hc3.
  push_one pushStep_spec step4_never_exits.
  pose proof (allStepsPassed_push _ _ Hc3 Hst2) as Hc4.
  push_one pushStep_spec (step5_never_exits ("testuser" ++ JsString.toString timestamp)).
  pose proof (allStepsPassed_push _ _ Hc4 Hst3) as Hc5.
  unfold_js. cbn [fst snd]. destruct (env_dateNow w5) as [now w6].
  do 5 eexists. split; [reflexivity|]. split; [exact Hc5|].
  left. repeat split. discriminate.
Qed.

(** The [catch] block of [runTestCase001] always returns: the case is
    marked FAILED with an end time and counted as failed; a screenshot
    that fails is ignored. *)
Lemma runTestCase001_catch_spec (error : JsError) (c : CaseResult) (suite : Suite) (w : W) :
  exists c' w' t,
    runTestCase001_catch error (c, (suite, w))
    = mkRun (Ret tt) (c', (on_testResults incr_failedTests suite, w')) t /\
    case_status c' = FAILED /\ case_endTime c' <> None /\
    case_steps c' = case_steps c.
Proof.
  unfold runTestCase001_catch. unfold_js. cbn [fst snd].
  destruct (env_dateNow w) as [now w1]. cbn [fst snd].
  destruct (env_screenshot "test-results/failure-screenshot.png" w1) as [[[]|e] w2];
    cbn [fst snd]; do 3 eexists; (split; [reflexivity|]); repeat split; discriminate.
Qed.

(** [runTestCase001] always returns its case: the case is terminal, holds
    passed steps only, has been appended to [testCases], and exactly one
    of [passedTests] and [failedTests] has been incremented along with
    [totalTests]. *)
Lemma runTestCase001_spec (suite : Suite) (w : W) :
  exists c w' t,
    runTestCase001 (suite, w)
    = mkRun (Ret c)
            (on_testResults
               (fun r => incr_totalTests
                           (push_testCase
                              c
                              (match case_status c with
                               | PASSED => incr_passedTests r
                               | _ => incr_failedTests r
                               end)))
               suite,
             w') t /\
    terminal c /\ allStepsPassed c.
Proof.
  unfold runTestCase001, lift, Sys.dateNow, observe, bind, in_frame, try_catch.
  cbn [fst snd]. destruct (env_dateNow w) as [now w0].
  set (c0 := mkCase "TC 001" "Verify that user can register a new customer"
                    RUNNING [] now None None).
  assert (Hc0 : allStepsPassed c0) by constructor.
  destruct (runTestCase001_try_spec c0 suite w0 Hc0)
    as (o & c1 & suite1 & w1 & t1 & -> & Hsteps
        & [(-> & Hst & Hend & ->) | (e & -> & ->)]).
  - unfold modifyL, ret. cbn [fst snd outcome final trace].
    do 3 eexists. split.
    + rewrite Hst. destruct suite. reflexivity.
    + split; [|exact Hsteps]. split; [now left | exact Hend].
  - destruct (runTestCase001_catch_spec e c1 suite w1)
      as (c2 & w2 & t2 & -> & Hst & Hend & Hsame).
    unfold modifyL, ret. cbn [fst snd outcome final trace].
    do 3 eexists. split.
    + rewrite Hst. destruct suite. reflexivity.
    + split; [split; [now right | exact Hend]|].
      unfold allStepsPassed. now rewrite Hsame.
Qed.

Lemma recordInvariant_after_case (r : RunRecord) (c : CaseResult) :
  recordInvariant r -> terminal c ->
  recordInvariant
    (incr_totalTests
       (push_testCase c (match case_status c with
                         | PASSED => incr_passedTests r
                         | _ => incr_failedTests r
                         end))).
Proof.
  intros (Hsum & Hlen & Hall) Hc. unfold recordInvariant.
  destruct (case_status c); cbn; unfold push; rewrite length_app, Forall_app;
    cbn [List.length]; (split; [lia|]); (split; [lia|]);
    (split; [exact Hall | now constructor]).
Qed.

(** C10.  The run record made by the constructor satisfies the invariant,
    and every call of [runTestCase001] on a record that satisfies it
    returns a terminal case, which it has appended to [testCases], and
    leaves a record that satisfies it: [totalTests] is the sum of
    [passedTests] and [failedTests] and the length of [testCases], and
    every case in [testCases] is PASSED or FAILED with an end time. *)
Theorem run_record_invariant :
  (forall w : W, exists suite,
      outcome (constructor w) = Ret suite /\ recordInvariant (testResults suite)) /\
  (forall (suite : Suite) (w : W),
      recordInvariant (testResults suite) ->
      exists testCase,
        outcome (runTestCase001 (suite, w)) = Ret testCase /\
        terminal testCase /\
        In testCase (testCases (testResults (fst (final (runTestCase001 (suite, w)))))) /\
        recordInvariant (testResults (fst (final (runTestCase001 (suite, w)))))).
Proof.
  split.
  - intros w. unfold constructor. unfold_js. destruct (env_dateNow w) as [now w'].
    eexists. split; [reflexivity|]. cbn. repeat split; constructor.
  - intros suite w Hinv.
    destruct (runTestCase001_spec suite w) as (c & w' & t & -> & Hterm & _).
    exists c. cbn [outcome final fst]. split; [reflexivity|]. split; [exact Hterm|].
    unfold on_testResults. cbn [testResults]. split.
    + cbn [incr_totalTests testCases push_testCase]. unfold push.
      apply in_or_app. right. now left.
    + now apply recordInvariant_after_case.
Qed.

(** No step that failed is ever found in the steps of the case that
    [runTestCase001] returns. *)
Lemma recorded_steps_have_passed (suite : Suite) (w : W) (testCase : CaseResult) :
  outcome (runTestCase001 (suite, w)) = Ret testCase ->
  forall step, In step (case_steps testCase) -> step_status step = PASSED.
Proof.
  destruct (runTestCase001_spec suite w) as (c & w' & t & -> & _ & Hsteps).
  cbn [outcome]. intros Hc. injection Hc as <-.
  exact (proj1 (Forall_forall _ _) Hsteps).
Qed.

(** ** [run] and the exit status *)

Section Run.
Variable renderReport : RunRecord -> option string -> Z -> string.

Lemma initialize_never_exits : never_exits initialize.
Proof.
  intros [suite w] c. unfold initialize. unfold_js. cbn [fst snd].
  destruct (env_getEnv "HEADLESS" w) as [v w0]. cbn [fst snd].
  all_paths; discriminate.
Qed.

(** [generateReport] leaves the suite object as it is and never ends the
    process. *)
Lemma generateReport_spec (suite : Suite) (w : W) :
  exists o w' t,
    generateReport renderReport (suite, w) = mkRun o (suite, w') t /\
    forall code, o <> Exit code.
Proof.
  unfold generateReport. unfold_js. cbn [fst snd].
  destruct (env_getEnv "CI" w) as [ci w0]. cbn [fst snd].
  destruct (env_dateNow w0) as [now w1]. cbn [fst snd].
  all_paths; cbn [fst snd]; all_paths; do 3 eexists; (split; [reflexivity|]);
    discriminate.
Qed.

(** C9, as amended.  [run] always ends the process, and the exit status
    is non-zero exactly when [failedTests] is positive at the exit, or
    [initialize] threw, or [generateReport] threw. *)
Theorem exit_status_of_run (suite : Suite) (w : W) :
  let init := initialize (suite, w) in
  let case := runTestCase001 (final init) in
  let report := generateReport renderReport (final case) in
  exists code,
    outcome (run renderReport (suite, w)) = Exit code /\
    (code <> 0 <->
     0 < failedTests (testResults (fst (final (run renderReport (suite, w)))))
     \/ (exists e, outcome init = Throw e)
     \/ (exists e, outcome report = Throw e)).
Proof.
  intros init case report. subst report case init.
  unfold run, try_finally, try_catch, bind, process_exit, getL.
  pose proof (initialize_never_exits (suite, w)) as Hinit.
  destruct (initialize (suite, w)) as [[[]|e|c] [s1 w1] t1];
    cbn [outcome final trace fst snd] in *.
  - destruct (runTestCase001_spec s1 w1) as (c & w2 & t2 & -> & _).
    cbn [outcome final trace fst snd].
    match goal with
    | |- context [generateReport renderReport (?s, w2)] => set (s2 := s)
    end.
    destruct (generateReport_spec s2 w2) as (o & w3 & t3 & -> & Hexit).
    destruct o as [report|e|c']; [| |now destruct (Hexit c')];
      cbn [outcome final trace fst snd].
    + destruct (0 <? failedTests (testResults s2)) eqn:Hfailed;
        cbn [outcome final trace fst snd].
      * exists 1. split; [reflexivity|]. split; [|discriminate].
        intros _. left. now apply Z.ltb_lt.
      * exists 0. split; [reflexivity|]. split; [intros Hne; now destruct Hne|].
        apply Z.ltb_ge in Hfailed.
        intros [Hlt | [[e He] | [e He]]]; [lia | discriminate He | discriminate He].
    + exists 1. split; [reflexivity|]. split; [|discriminate].
      intros _. right. right. now exists e.
  - exists 1. split; [reflexivity|]. split; [|discriminate].
    intros _. right. left. now exists e.
  - now destruct (Hinit c).
Qed.

End Run.

End RecorderFacts.

(* ===================================================================== *)
(** * The recorder and the retry loop on concrete runs *)
(* ===================================================================== *)

Lemma retry_loop_exhausts_after_three_attempts_witness :
  outcome (RegistrationSpec.fillRegistrationStep
             3 sample_user (final (UserDataGen.generateUniqueUser test_start)))
  = Throw (Error "Registration failed after 3 attempts") /\
  clicksOn RegistrationPage.registerButton
           (trace (RegistrationSpec.fillRegistrationStep
                     3 sample_user (final (UserDataGen.generateUniqueUser test_start))))
  = 3%nat.
Proof.
  destruct (retry_loop_exhausts_after_three_attempts
              3 test_start (final (UserDataGen.generateUniqueUser test_start))
              sample_user
              ["This username already exists."]
              ["This username already exists."]
              ["This username already exists."])
    as (Hout & _ & _ & Hclicks);
    try (vm_compute; reflexivity).
  split; assumption.
Defined.

(** C2 fails on the code.  On the site where every username is taken, the
    three passes of the retry loop fill the username field with the very
    username generated before the loop, and the loop reads neither the clock
    nor the random source. *)
Theorem retry_resubmits_the_same_username :
  outcome (UserDataGen.generateUniqueUser test_start) = Ret sample_user /\
  fillsOf RegistrationPage.usernameInput
          (trace (RegistrationSpec.fillRegistrationStep
                    3 sample_user (final (UserDataGen.generateUniqueUser test_start))))
  = [username sample_user; username sample_user; username sample_user] /\
  existsb readsTimeOrRandomness
          (trace (RegistrationSpec.fillRegistrationStep
                    3 sample_user (final (UserDataGen.generateUniqueUser test_start))))
  = false.
Proof. repeat split; vm_compute; reflexivity. Qed.

(** C8 fails on the code.  When the site cannot be reached, the first step
    throws: its record is closed as FAILED with the message and an end time
    before the error is thrown on, but the case that [runTestCase001]
    returns has no step at all. *)
Theorem failed_step_is_closed_but_not_recorded :
  (exists e,
      outcome (TestSuite.executeStep_try
                 TestSuite.step1
                 (mkStep "Navigate to ParaBank homepage" RUNNING 7 None None None,
                  session site_unreachable 8))
      = Throw e /\
      finalizedAsFailed
        e
        (fst (final (TestSuite.executeStep_try
                       TestSuite.step1
                       (mkStep "Navigate to ParaBank homepage" RUNNING 7 None None None,
                        session site_unreachable 8))))) /\
  (exists testCase,
      outcome (TestSuite.runTestCase001 (newSuite 5, session site_unreachable 6))
      = Ret testCase /\
      case_status testCase = FAILED /\
      case_steps testCase = []).
Proof.
  split.
  - exists (TimeoutError "Timeout exceeded"). split; [reflexivity|].
    repeat split. discriminate.
  - eexists. split; [vm_compute; reflexivity|]. split; reflexivity.
Qed.

Lemma exit_status_of_run_witness :
  outcome (TestSuite.run sampleReport (newSuite 5, session everything_present 6))
  = Exit 0.
Proof.
  destruct (exit_status_of_run sampleReport (newSuite 5) (session everything_present 6))
    as (code & Hout & Hcode).
  destruct (Z.eq_dec code 0) as [-> | Hne]; [exact Hout|].
  exfalso. apply Hcode in Hne. vm_compute in Hne.
  destruct Hne as [Hlt | [[e He] | [e He]]]; discriminate.
Defined.

(** C9, as stated, fails: the registration passes, [failedTests] is zero
    and [initialize] returned, yet the exit status is 1, because the report
    file could not be written. *)
Lemma exit_status_nonzero_without_failed_test :
  outcome (TestSuite.run sampleReport (newSuite 5, session report_unwritable 6))
  = Exit 1 /\
  failedTests
    (testResults
       (fst (final (TestSuite.run sampleReport
                      (newSuite 5, session report_unwritable 6))))) = 0 /\
  outcome (TestSuite.initialize (newSuite 5, session report_unwritable 6)) = Ret tt.
Proof. repeat split; vm_compute; reflexivity. Qed.

Lemma run_record_invariant_witness :
  recordInvariant
    (testResults
       (fst (final (TestSuite.runTestCase001
                      (newSuite 5, session site_unreachable 6))))).
Proof.
  destruct (proj2 run_record_invariant (newSuite 5) (session site_unreachable 6))
    as (testCase & _ & _ & _ & Hinv).
  - vm_compute. repeat split. constructor.
  - exact Hinv.
Defined.

(* ===================================================================== *)
(** * More proof automation *)
(* ===================================================================== *)

Ltac units := repeat match goal with u : unit |- _ => destruct u end.

(** [Hall] says that every rejected call of an explicit trace is of some
    kind: refuted by a rejected call of the trace that is not. *)
Ltac offender Hall :=
  match type of Hall with
  | forall ev, In ev ?t -> _ =>
      let rec go l :=
        lazymatch l with
        | ?x :: ?rest =>
            first [ let Habs := fresh "Habs" in
                    assert (Habs := Hall x ltac:(cbn [In app]; tauto) eq_refl);
                    vm_compute in Habs; discriminate Habs
                  | go rest ]
        end in
      go t
  end.

Lemma cons_eq_inv {A} (x y : A) (l l' : list A) :
  (x :: l = y :: l')%list -> x = y /\ l = l'.
Proof. intros Heq. now injection Heq. Qed.

(** A trace that is an explicit list, cut at an entry of a given shape: one
    case per entry, with the equation [Hhead] between the two. *)
Ltac split_cut H Hhead :=
  repeat match type of H with
         | (_ :: _)%list = (?before ++ _ :: _)%list =>
             destruct before as [|? before]; cbn [app] in H;
             apply cons_eq_inv in H;
             [ destruct H as [Hhead _] | destruct H as [<- H] ]
         | [] = (?before ++ _ :: _)%list =>
             destruct before; discriminate H
         end.

(** Membership in an explicit trace, by the first entry that fits. *)
Ltac pick_in := cbn [In app]; repeat first [left; reflexivity | right].

(** A rejected call of an explicit trace that is not a visibility probe. *)
Ltac rejected_call :=
  match goal with
  | |- exists ev, In ev ?t /\ _ =>
      let rec go l :=
        lazymatch l with
        | ?x :: ?rest =>
            first [ exists x; split; [pick_in | split; reflexivity] | go rest ]
        end in
      go t
  end.

(** As [all_paths], through the readings of the clock and the frames. *)
Ltac case_now :=
  match goal with
  | |- context [match env_dateNow ?x with pair _ _ => _ end] =>
      destruct (env_dateNow x) as [? ?] eqn:?
  end.

Ltac all_paths_now :=
  repeat (first [case_env | case_now | case_if | case_option];
          cbn [outcome trace final app fst snd browser TestSuite.set_browser]).

(* ===================================================================== *)
(** * Calls made, kind by kind *)
(* ===================================================================== *)

Section BindFacts.
Context {S A B : Type}.

Lemma bind_ret_inv (m : M S A) (k : A -> M S B) (s : S) (b : B) :
  outcome (bind m k s) = Ret b ->
  exists a,
    outcome (m s) = Ret a /\
    outcome (k a (final (m s))) = Ret b /\
    trace (bind m k s) = (trace (m s) ++ trace (k a (final (m s))))%list.
Proof.
  unfold bind. destruct (m s) as [[a|e|c] s1 t1]; cbn [outcome]; try discriminate.
  destruct (k a s1) as [o s2 t2] eqn:Hk. cbn [outcome trace final]. intros ->.
  exists a. rewrite Hk. now repeat split.
Qed.

End BindFacts.

Section CallsFacts.
Context {S : Type}.
Variable P : Event -> bool.

Lemma calls_only_ret {A} (a : A) : calls_only P (@ret S A a).
Proof. intros s. reflexivity. Qed.

Lemma calls_only_throw {A} (e : JsError) : calls_only P (@throw S A e).
Proof. intros s. reflexivity. Qed.

Lemma calls_only_process_exit {A} (code : Z) : calls_only P (@process_exit S A code).
Proof. intros s. reflexivity. Qed.

Lemma calls_only_expect (b : bool) : calls_only P (@expect_toBeTruthy S b).
Proof. intros s. now destruct b. Qed.

Lemma calls_only_bind {A B} (m : M S A) (k : A -> M S B) :
  calls_only P m -> (forall a, calls_only P (k a)) -> calls_only P (bind m k).
Proof.
  intros Hm Hk s. unfold bind. specialize (Hm s).
  destruct (m s) as [[a|e|c] s1 t1]; cbn [trace] in *; try exact Hm.
  specialize (Hk a s1). destruct (k a s1) as [o s2 t2]. cbn [trace] in *.
  now rewrite forallb_app, Hm, Hk.
Qed.

Lemma calls_only_try_catch {A} (m : M S A) (h : JsError -> M S A) :
  calls_only P m -> (forall e, calls_only P (h e)) -> calls_only P (try_catch m h).
Proof.
  intros Hm Hh s. unfold try_catch. specialize (Hm s).
  destruct (m s) as [[a|e|c] s1 t1]; cbn [trace] in *; try exact Hm.
  specialize (Hh e s1). destruct (h e s1) as [o s2 t2]. cbn [trace] in *.
  now rewrite forallb_app, Hm, Hh.
Qed.

Lemma calls_only_promise_catch {A} (m : M S A) (dflt : A) :
  calls_only P m -> calls_only P (promise_catch m dflt).
Proof.
  intros Hm. apply calls_only_try_catch; [exact Hm|]. intros e. apply calls_only_ret.
Qed.

Lemma calls_only_try_finally {A} (m : M S A) (f : M S unit) :
  calls_only P m -> calls_only P f -> calls_only P (try_finally m f).
Proof.
  intros Hm Hf s. unfold try_finally. specialize (Hm s).
  destruct (m s) as [[a|e|c] s1 t1]; cbn [trace] in *; try exact Hm.
  all: specialize (Hf s1); destruct (f s1) as [[[]|e'|c'] s2 t2]; cbn [trace] in *.
  all: now rewrite forallb_app, Hm, Hf.
Qed.

Lemma calls_only_lift {L A} (m : M S A) :
  calls_only P m -> calls_only P (@lift L S A m).
Proof.
  intros Hm [l s]. unfold lift. cbn [snd fst]. specialize (Hm s).
  now destruct (m s) as [o s1 t1].
Qed.

Lemma calls_only_getL {L} : calls_only P (@getL L S).
Proof. intros s. reflexivity. Qed.

Lemma calls_only_modifyL {L} (f : L -> L) : calls_only P (@modifyL L S f).
Proof. intros s. reflexivity. Qed.

Lemma calls_only_in_frame {L A} (init : L) (body : M (L * S) A) :
  calls_only P body -> calls_only P (in_frame init body).
Proof.
  intros Hb s. unfold in_frame. specialize (Hb (init, s)).
  now destruct (body (init, s)) as [[a|e|c] [l s1] t1].
Qed.

Lemma calls_only_perform {A} (op : S -> Result A * S) (ev : Result A -> Event) :
  (forall r, P (ev r) = true) -> calls_only P (perform op ev).
Proof.
  intros Hev s. unfold perform. destruct (op s) as [[a|e] s1]; cbn; now rewrite Hev.
Qed.

Lemma calls_only_observe {A} (op : S -> A * S) (ev : A -> Event) :
  (forall a, P (ev a) = true) -> calls_only P (observe op ev).
Proof.
  intros Hev s. unfold observe. destruct (op s) as [a s1]; cbn; now rewrite Hev.
Qed.

End CallsFacts.

(** The page calls, down to [perform] and [observe], with the monad kept. *)
Ltac unfold_calls :=
  cbv beta zeta delta
    [Page.waitForTimeout Page.url Page.locator_count Page.locator_allTextContents
     Page.waitForSelector Page.textContent Page.content Page.queryAll
     Page.element_textContent Page.fill Page.click Page.inputValue
     Page.waitForLoadState Page.goto Page.reload Page.title Page.isVisible
     Page.screenshot
     Sys.dateNow Sys.random Sys.getEnv Sys.launch Sys.newContext Sys.newPage
     Sys.browserClose Sys.existsSync Sys.mkdirSync Sys.writeFileSync
     BasePage.waitForElement BasePage.clickElement BasePage.fillField
     BasePage.getTextContent BasePage.isElementVisible BasePage.waitForPageLoad
     BasePage.handleCloudflareChallenge BasePage.getCurrentUrl
     BasePage.getPageTitle BasePage.navigateTo].

(** [calls_only P m] for [m] built from the monad and the page calls, when
    [P] holds of each call by computation. *)
Ltac calls_step :=
  lazymatch goal with
  | |- calls_only _ (bind _ _) => apply calls_only_bind; [|intros ?]
  | |- calls_only _ (try_catch _ _) => apply calls_only_try_catch; [|intros ?]
  | |- calls_only _ (try_finally _ _) => apply calls_only_try_finally
  | |- calls_only _ (promise_catch _ _) => apply calls_only_promise_catch
  | |- calls_only _ (lift _) => apply calls_only_lift
  | |- calls_only _ (in_frame _ _) => apply calls_only_in_frame
  | |- calls_only _ (ret _) => apply calls_only_ret
  | |- calls_only _ (throw _) => apply calls_only_throw
  | |- calls_only _ getL => apply calls_only_getL
  | |- calls_only _ (modifyL _) => apply calls_only_modifyL
  | |- calls_only _ (process_exit _) => apply calls_only_process_exit
  | |- calls_only _ (expect_toBeTruthy _) => apply calls_only_expect
  | |- calls_only _ (perform _ _) =>
      apply calls_only_perform; intros ?; cbn; rewrite ?String.eqb_refl; reflexivity
  | |- calls_only _ (observe _ _) =>
      apply calls_only_observe; intros ?; cbn; rewrite ?String.eqb_refl; reflexivity
  | |- calls_only _ (if ?b then _ else _) => destruct b
  | |- calls_only _ (match ?x with _ => _ end) => destruct x
  end.

Ltac calls_auto := unfold_calls; repeat calls_step.

Section CountFacts.
Context {S : Type}.
Variable p : Event -> bool.

Lemma countOf_app (t t' : list Event) :
  countOf p (t ++ t') = (countOf p t + countOf p t')%nat.
Proof. unfold countOf. now rewrite filter_app, length_app. Qed.

Lemma countOf_none (t : list Event) :
  forallb (fun ev => negb (p ev)) t = true -> countOf p t = 0%nat.
Proof.
  unfold countOf. induction t as [|ev t IH]; [reflexivity|]. cbn [forallb filter].
  intros Hall. apply andb_prop in Hall as [Hev Ht].
  destruct (p ev); [discriminate Hev | exact (IH Ht)].
Qed.

Lemma calls_at_most_none {A} (m : M S A) :
  calls_only (fun ev => negb (p ev)) m -> calls_at_most p 0 m.
Proof. intros Hm s. now rewrite (countOf_none _ (Hm s)). Qed.

Lemma calls_at_most_weaken {A} (n n' : nat) (m : M S A) :
  calls_at_most p n m -> (n <= n')%nat -> calls_at_most p n' m.
Proof. intros Hm Hle s. specialize (Hm s). lia. Qed.

Lemma calls_at_most_bind {A B} (n1 n2 : nat) (m : M S A) (k : A -> M S B) :
  calls_at_most p n1 m -> (forall a, calls_at_most p n2 (k a)) ->
  calls_at_most p (n1 + n2) (bind m k).
Proof.
  intros Hm Hk s. unfold bind. specialize (Hm s).
  destruct (m s) as [[a|e|c] s1 t1]; cbn [trace] in *; try lia.
  specialize (Hk a s1). destruct (k a s1) as [o s2 t2]. cbn [trace] in *.
  rewrite countOf_app. lia.
Qed.

End CountFacts.

Lemma existsb_none (p : Event -> bool) (t : list Event) :
  forallb (fun ev => negb (p ev)) t = true -> existsb p t = false.
Proof.
  induction t as [|ev t IH]; [reflexivity|].
  cbn [forallb existsb]. intros Hall. apply andb_prop in Hall as [Hev Ht].
  apply Bool.negb_true_iff in Hev. now rewrite Hev, IH.
Qed.

Section BindCalls.
Context {S A B : Type}.

Lemma calls_only_bind_ret (P : Event -> bool) (a : A) (k : A -> M S B) :
  calls_only P (k a) -> calls_only P (bind (ret a) k).
Proof.
  intros Hk s. unfold bind, ret. specialize (Hk s).
  now destruct (k a s) as [o s2 t2].
Qed.

Lemma calls_only_bind_throw (P : Event -> bool) (e : JsError) (k : A -> M S B) :
  calls_only P (bind (throw e) k).
Proof. intros s. reflexivity. Qed.

Lemma calls_at_most_bind_ret (p : Event -> bool) (n : nat) (a : A) (k : A -> M S B) :
  calls_at_most p n (k a) -> calls_at_most p n (bind (ret a) k).
Proof.
  intros Hk s. unfold bind, ret. specialize (Hk s).
  now destruct (k a s) as [o s2 t2].
Qed.

Lemma calls_at_most_bind_throw (p : Event -> bool) (n : nat) (e : JsError)
      (k : A -> M S B) :
  calls_at_most p n (bind (throw e) k).
Proof. intros s. cbn. lia. Qed.

End BindCalls.

(* ===================================================================== *)
(** * The page objects *)
(* ===================================================================== *)

Section PageObjectFacts.
Context {W : Type} `{Env W}.

(** X1.  [handleCloudflareChallenge] never throws.  It probes the challenge
    container once, for 5000 ms; when the probe fails it makes no other
    call; when the probe succeeds it waits once, for 30000 ms, for the
    container to be hidden, and returns whether or not that wait
    succeeded. *)
Theorem handleCloudflareChallenge_is_advisory (w : W) :
  outcome (BasePage.handleCloudflareChallenge w) = Ret tt /\
  exists probe,
    match probe with
    | Err _ =>
        trace (BasePage.handleCloudflareChallenge w)
        = [EvWaitForSelector ".cf-challenge-container" Visible 5000 probe]
    | Ok _ =>
        exists cleared,
          trace (BasePage.handleCloudflareChallenge w)
          = [EvWaitForSelector ".cf-challenge-container" Visible 5000 probe;
             EvWaitForSelector ".cf-challenge-container" Hidden 30000 cleared]
    end.
Proof.
  unfold_js. all_paths; units; (split; [reflexivity|]).
  - exists (Ok tt). eexists. reflexivity.
  - exists (Ok tt). eexists. reflexivity.
  - exists (Err e). reflexivity.
Qed.

(** X2.  [submitRegistration] returns exactly when no call other than a
    wait on the challenge container was rejected: a challenge that does not
    clear never fails the submission, while a failed wait for the button, a
    failed click or a failed wait for the load state is thrown on.  The
    Register button is clicked at most once. *)
Theorem submitRegistration_ignores_the_challenge (w : W) :
  (outcome (RegistrationPage.submitRegistration w) = Ret tt <->
   forall ev, In ev (trace (RegistrationPage.submitRegistration w)) ->
              rejected ev = true -> challengeWait ev = true) /\
  (outcome (RegistrationPage.submitRegistration w) <> Ret tt ->
   exists e, outcome (RegistrationPage.submitRegistration w) = Throw e) /\
  (clicksOn RegistrationPage.registerButton
            (trace (RegistrationPage.submitRegistration w)) <= 1)%nat.
Proof.
  unfold RegistrationPage.submitRegistration. unfold_js.
  all_paths; units; (split; [split; [intros Hout | intros Hall] | split; [intros Hne|]]).
  all: try discriminate Hout.
  all: try (intros ev Hin Hr; split_in Hin; subst ev; first [discriminate Hr | reflexivity]).
  all: try reflexivity.
  all: try (first [now destruct Hne | eexists; reflexivity]).
  all: try (vm_compute; lia).
  all: exfalso; offender Hall.
Qed.

(** X3.  [HomePage.open] starts with the navigation to the home page,
    waiting for 'networkidle', and returns exactly when no call other than
    a wait on the challenge container was rejected. *)
Theorem open_ignores_the_challenge (w : W) :
  (outcome (HomePage.open w) = Ret tt <->
   forall ev, In ev (trace (HomePage.open w)) ->
              rejected ev = true -> challengeWait ev = true) /\
  (outcome (HomePage.open w) <> Ret tt ->
   exists e, outcome (HomePage.open w) = Throw e) /\
  (exists r rest,
      trace (HomePage.open w)
      = EvGoto "https://parabank.parasoft.com/parabank" "networkidle" None r :: rest).
Proof.
  unfold HomePage.open, BasePage.navigateTo. unfold_js.
  all_paths; units; (split; [split; [intros Hout | intros Hall] | split; [intros Hne|]]).
  all: try discriminate Hout.
  all: try (intros ev Hin Hr; split_in Hin; subst ev; first [discriminate Hr | reflexivity]).
  all: try reflexivity.
  all: try (first [now destruct Hne | eexists; reflexivity]).
  all: try (do 2 eexists; reflexivity).
  all: exfalso; offender Hall.
Qed.

(** X4.  [fillRegistrationForm] fills the eleven fields in the order of the
    form, the password into both password fields: the fills the page
    accepted are a prefix of that list, and the method returns exactly when
    they are the whole list.  Every fill comes right after a successful
    30000 ms wait for the same field, and nothing is called after a
    rejected call. *)
Theorem fillRegistrationForm_fills_in_order (userData : UserData) (w : W) :
  (exists n, successfulFills (trace (RegistrationPage.fillRegistrationForm userData w))
             = firstn n (formValues userData)) /\
  (outcome (RegistrationPage.fillRegistrationForm userData w) = Ret tt <->
   successfulFills (trace (RegistrationPage.fillRegistrationForm userData w))
   = formValues userData) /\
  (forall before selector value r after,
      trace (RegistrationPage.fillRegistrationForm userData w)
      = (before ++ EvFill selector value r :: after)%list ->
      exists before',
        before = (before' ++ [EvWaitForSelector selector Visible 30000 (Ok tt)])%list) /\
  (forall before ev after,
      trace (RegistrationPage.fillRegistrationForm userData w)
      = (before ++ ev :: after)%list ->
      rejected ev = true -> after = []).
Proof.
  unfold RegistrationPage.fillRegistrationForm. unfold_js.
  all_paths; units; (split; [|split; [split; [intros Hout | intros Hall]|split]]).
  all: try discriminate Hout.
  all: try reflexivity.
  all: try (cbn in Hall; discriminate Hall).
  all: try (intros before selector value r after Hcut; split_cut Hcut Hhead;
            try discriminate Hhead; injection Hhead as <- <- <-;
            match goal with
            | |- exists b, ?l = (b ++ [_])%list =>
                exists (removelast l); reflexivity
            end).
  all: try (intros before ev after Hcut Hr; split_at Hcut;
            first [discriminate Hr | reflexivity]).
  all: cbn [successfulFills].
  all: first [ exists 0%nat; reflexivity | exists 1%nat; reflexivity
             | exists 2%nat; reflexivity | exists 3%nat; reflexivity
             | exists 4%nat; reflexivity | exists 5%nat; reflexivity
             | exists 6%nat; reflexivity | exists 7%nat; reflexivity
             | exists 8%nat; reflexivity | exists 9%nat; reflexivity
             | exists 10%nat; reflexivity | exists 11%nat; reflexivity ].
Qed.

(** X5.  [clearForm] never throws and makes fills only, without waiting
    for the fields: it attempts to empty every field of [formFields], in
    order, whichever of the attempts are rejected; these are the fields
    that [fillRegistrationForm] fills. *)
Theorem clearForm_attempts_every_field (userData : UserData) (w : W) :
  outcome (RegistrationPage.clearForm w) = Ret tt /\
  forallb isFill (trace (RegistrationPage.clearForm w)) = true /\
  fillAttempts (trace (RegistrationPage.clearForm w))
  = map (fun field => (field, EmptyString)) RegistrationPage.formFields /\
  map fst (fillAttempts (trace (RegistrationPage.clearForm w)))
  = map fst (formValues userData).
Proof.
  assert (Hloop : forall fields (w' : W),
             outcome (RegistrationPage.clearForm_loop fields w') = Ret tt /\
             forallb isFill (trace (RegistrationPage.clearForm_loop fields w')) = true /\
             fillAttempts (trace (RegistrationPage.clearForm_loop fields w'))
             = map (fun field => (field, EmptyString)) fields).
  { induction fields as [|field rest IH]; intros w'; [now cbn|].
    cbn [RegistrationPage.clearForm_loop]. unfold_js.
    destruct (env_fill field EmptyString w') as [[[]|e] w1];
      specialize (IH w1);
      destruct (RegistrationPage.clearForm_loop rest w1) as [o w2 t];
      cbn [outcome trace final app] in *;
      destruct IH as (-> & Hfills & Hattempts);
      cbn [forallb isFill fillAttempts map andb]; rewrite Hattempts; auto. }
  unfold RegistrationPage.clearForm.
  destruct (Hloop RegistrationPage.formFields w) as (Hout & Hfills & Hattempts).
  repeat split; try assumption. rewrite Hattempts. reflexivity.
Qed.

(** X6.  [validateFormData] never throws.  It reads the first name, the
    last name and the username fields and nothing else, and returns true
    exactly when the three reads answered the expected values: the other
    eight fields, the password among them, are not compared. *)
Theorem validateFormData_checks_three_fields (expectedData : UserData) (w : W) :
  (exists b, outcome (RegistrationPage.validateFormData expectedData w) = Ret b) /\
  (outcome (RegistrationPage.validateFormData expectedData w) = Ret true <->
   In (EvInputValue RegistrationPage.firstNameInput (Ok (firstName expectedData)))
      (trace (RegistrationPage.validateFormData expectedData w)) /\
   In (EvInputValue RegistrationPage.lastNameInput (Ok (lastName expectedData)))
      (trace (RegistrationPage.validateFormData expectedData w)) /\
   In (EvInputValue RegistrationPage.usernameInput (Ok (username expectedData)))
      (trace (RegistrationPage.validateFormData expectedData w))) /\
  (forall ev, In ev (trace (RegistrationPage.validateFormData expectedData w)) ->
              exists selector r,
                ev = EvInputValue selector r /\
                In selector [RegistrationPage.firstNameInput;
                             RegistrationPage.lastNameInput;
                             RegistrationPage.usernameInput]).
Proof.
  unfold RegistrationPage.validateFormData. unfold_js.
  all_paths; (split; [eexists; reflexivity
                     |split; [split; [intros Hout | intros (H1 & H2 & H3)]|]]).
  all: try (intros ev Hin; split_in Hin; subst ev; do 2 eexists;
            (split; [reflexivity|cbn [In]; tauto])).
  all: try discriminate Hout.
  all: try (split_in H1; discriminate H1).
  all: try (split_in H2; discriminate H2).
  all: try (split_in H3; discriminate H3).
  - injection Hout as Hout.
    apply andb_prop in Hout as [Hout Hu]. apply andb_prop in Hout as [Hf Hl].
    apply String.eqb_eq in Hf, Hl, Hu. subst. cbn [In]. tauto.
  - split_in H1; try discriminate H1. split_in H2; try discriminate H2.
    split_in H3; try discriminate H3.
    injection H1 as ->. injection H2 as ->. injection H3 as ->.
    now rewrite !String.eqb_refl.
Qed.

(** X7.  [getRegistrationPageTitle] returns the text of the '.title'
    element when the wait for it and the read both succeed, and then the
    page title is not asked for.  When either is rejected it asks for the
    page title instead: it returns that title, and throws only when the
    title itself cannot be read. *)
Theorem getRegistrationPageTitle_falls_back_on_the_page_title (w : W) :
  (exists text,
      outcome (RegistrationPage.getRegistrationPageTitle w) = Ret text /\
      In (EvTextContent ".title" (Ok text))
         (trace (RegistrationPage.getRegistrationPageTitle w)) /\
      forall x, ~ In (EvTitle x) (trace (RegistrationPage.getRegistrationPageTitle w))) \/
  (exists ev x,
      In ev (trace (RegistrationPage.getRegistrationPageTitle w)) /\
      rejected ev = true /\ elementLookup ev = true /\
      In (EvTitle x) (trace (RegistrationPage.getRegistrationPageTitle w)) /\
      outcome (RegistrationPage.getRegistrationPageTitle w)
      = match x with
        | Ok title => Ret (Some title)
        | Err e => Throw e
        end).
Proof.
  unfold RegistrationPage.getRegistrationPageTitle, RegistrationPage.pageTitle.
  unfold_js. all_paths.
  - left. eexists. split; [reflexivity|]. split; [cbn [In]; tauto|].
    intros x Hin. split_in Hin; discriminate Hin.
  - right. do 2 eexists. split; [cbn [In]; right; left; reflexivity|].
    split; [reflexivity|]. split; [reflexivity|]. split; [pick_in | reflexivity].
  - right. do 2 eexists. split; [cbn [In]; right; left; reflexivity|].
    split; [reflexivity|]. split; [reflexivity|]. split; [pick_in | reflexivity].
  - right. do 2 eexists. split; [cbn [In]; left; reflexivity|].
    split; [reflexivity|]. split; [reflexivity|]. split; [pick_in | reflexivity].
  - right. do 2 eexists. split; [cbn [In]; left; reflexivity|].
    split; [reflexivity|]. split; [reflexivity|]. split; [pick_in | reflexivity].
Qed.

(** X8.  [isHomePageLoaded] and [isRegistrationPageLoaded] never throw:
    each answers whether none of its calls was rejected.  They wait, for
    30000 ms each, for the logo, the Register link and the login panel,
    and for the form and the first-name field, in this order, and stop at
    the first wait that fails. *)
Theorem page_loaded_checks_never_throw (w : W) :
  (outcome (HomePage.isHomePageLoaded w)
   = Ret (negb (existsb rejected (trace (HomePage.isHomePageLoaded w)))) /\
   (exists n, waitedFor 30000 (trace (HomePage.isHomePageLoaded w))
              = firstn n [HomePage.logo; HomePage.registerLink; HomePage.loginSection]) /\
   (outcome (HomePage.isHomePageLoaded w) = Ret true ->
    waitedFor 30000 (trace (HomePage.isHomePageLoaded w))
    = [HomePage.logo; HomePage.registerLink; HomePage.loginSection]) /\
   (forall before ev after,
       trace (HomePage.isHomePageLoaded w) = (before ++ ev :: after)%list ->
       rejected ev = true -> after = [])) /\
  (outcome (RegistrationPage.isRegistrationPageLoaded w)
   = Ret (negb (existsb rejected (trace (RegistrationPage.isRegistrationPageLoaded w)))) /\
   (exists n, waitedFor 30000 (trace (RegistrationPage.isRegistrationPageLoaded w))
              = firstn n [RegistrationPage.registrationForm;
                          RegistrationPage.firstNameInput]) /\
   (outcome (RegistrationPage.isRegistrationPageLoaded w) = Ret true ->
    waitedFor 30000 (trace (RegistrationPage.isRegistrationPageLoaded w))
    = [RegistrationPage.registrationForm; RegistrationPage.firstNameInput]) /\
   (forall before ev after,
       trace (RegistrationPage.isRegistrationPageLoaded w) = (before ++ ev :: after)%list ->
       rejected ev = true -> after = [])).
Proof.
  split.
  - unfold HomePage.isHomePageLoaded. unfold_js.
    all_paths; (split; [reflexivity|split; [|split; [intros Hout|]]]).
    all: try discriminate Hout.
    all: try reflexivity.
    all: try (intros before ev after Hcut Hr; split_at Hcut;
              first [discriminate Hr | reflexivity]).
    all: first [ exists 0%nat; reflexivity | exists 1%nat; reflexivity
               | exists 2%nat; reflexivity | exists 3%nat; reflexivity ].
  - unfold RegistrationPage.isRegistrationPageLoaded. unfold_js.
    all_paths; (split; [reflexivity|split; [|split; [intros Hout|]]]).
    all: try discriminate Hout.
    all: try reflexivity.
    all: try (intros before ev after Hcut Hr; split_at Hcut;
              first [discriminate Hr | reflexivity]).
    all: first [ exists 0%nat; reflexivity | exists 1%nat; reflexivity
               | exists 2%nat; reflexivity ].
Qed.

(** X9.  [areNavigationLinksVisible] never throws and makes visibility
    probes only: it probes the About, Services, Products and Locations
    links in this order, stops at the first probe that fails, and answers
    whether none failed. *)
Theorem areNavigationLinksVisible_stops_at_the_first_hidden_link (w : W) :
  outcome (HomePage.areNavigationLinksVisible w)
  = Ret (negb (existsb rejected (trace (HomePage.areNavigationLinksVisible w)))) /\
  forallb visibilityProbe (trace (HomePage.areNavigationLinksVisible w)) = true /\
  (exists n, waitedFor 5000 (trace (HomePage.areNavigationLinksVisible w))
             = firstn n HomePage.links) /\
  (outcome (HomePage.areNavigationLinksVisible w) = Ret true ->
   waitedFor 5000 (trace (HomePage.areNavigationLinksVisible w)) = HomePage.links) /\
  (forall before ev after,
      trace (HomePage.areNavigationLinksVisible w) = (before ++ ev :: after)%list ->
      rejected ev = true -> after = []).
Proof.
  unfold HomePage.areNavigationLinksVisible.
  generalize (HomePage.links). intros links. revert w.
  induction links as [|link rest IH]; intros w.
  - cbn. repeat split; try reflexivity.
    + now exists 0%nat.
    + intros [|? ?] ? ? Hcut; discriminate Hcut.
  - cbn [HomePage.areNavigationLinksVisible_loop]. unfold_js.
    destruct (env_waitForSelector link Visible 5000 w) as [[[]|e] w1];
      cbn [outcome trace final app negb].
    + specialize (IH w1).
      destruct (HomePage.areNavigationLinksVisible_loop rest w1) as [o w2 t].
      cbn [outcome trace final app] in *.
      destruct IH as (Hout & Hprobes & (n & Hwaited) & Hall & Hstop).
      cbn [existsb rejected succeeded negb orb forallb visibilityProbe waitedFor andb].
      change (5000 =? 5000) with true. cbv iota. cbn [andb].
      split; [exact Hout|]. split; [exact Hprobes|]. split; [|split].
      * exists (S n). cbn [firstn]. now rewrite Hwaited.
      * intros Ho. now rewrite (Hall Ho).
      * intros [|ev0 before] ev after Hcut Hr; cbn [app] in Hcut;
          apply cons_eq_inv in Hcut as [Hhead Hcut].
        -- subst ev. discriminate Hr.
        -- exact (Hstop _ _ _ Hcut Hr).
    + repeat split.
      * now exists 1%nat.
      * intros Ho. discriminate Ho.
      * intros before ev after Hcut Hr. split_at Hcut. reflexivity.
Qed.

(** X10.  [HomePage.login] clicks the Log In button only after the page
    accepted the username and then the password into their fields, and it
    returns only after that click and the wait for the load state
    succeeded. *)
Theorem login_submits_after_both_fields (name pass : string) (w : W) :
  (forall r, In (EvClick HomePage.loginButton r) (trace (HomePage.login name pass w)) ->
             successfulFills (trace (HomePage.login name pass w))
             = [(HomePage.usernameInput, name); (HomePage.passwordInput, pass)]) /\
  (outcome (HomePage.login name pass w) = Ret tt ->
   In (EvClick HomePage.loginButton (Ok tt)) (trace (HomePage.login name pass w)) /\
   In (EvWaitForLoadState "networkidle" (Ok tt)) (trace (HomePage.login name pass w))) /\
  (forall before ev after,
      trace (HomePage.login name pass w) = (before ++ ev :: after)%list ->
      rejected ev = true -> after = []).
Proof.
  unfold HomePage.login. unfold_js.
  all_paths; units; (split; [intros r Hin|split; [intros Hout|]]).
  all: try discriminate Hout.
  all: try (split_in Hin; discriminate Hin).
  all: try reflexivity.
  all: try (split; pick_in).
  all: intros before ev after Hcut Hr; split_at Hcut;
    first [discriminate Hr | reflexivity].
Qed.

End PageObjectFacts.

(* ===================================================================== *)
(** * More on the outcome detector *)
(* ===================================================================== *)

Section MoreDetectorFacts.
Context {W : Type} `{Env W}.
Import RegistrationPage.

(** X11.  The first call of [isRegistrationSuccessful] is the settle delay
    of 2000 ms; the detector makes at most ten calls, and the delays and
    time limits it asks for add up to at most 52000 ms: the delay, four
    probes of 5000 ms and the 30000 ms wait before the welcome text is
    read. *)
Theorem detector_waits_are_bounded (w : W) :
  (exists r rest, trace (isRegistrationSuccessful w) = EvWaitForTimeout 2000 r :: rest) /\
  totalWait (trace (isRegistrationSuccessful w)) <= 52000 /\
  (List.length (trace (isRegistrationSuccessful w)) <= 10)%nat.
Proof.
  open_detector. all_paths; (split; [do 2 eexists; reflexivity|]).
  all: split; [vm_compute; discriminate | cbn [List.length]; lia].
Qed.

(** X12.  [isRegistrationSuccessful] answers true only on evidence: its
    trace then holds an answer that one of the six methods takes as a sign
    of success (a success element seen, a welcome text read, a URL off the
    registration page, or a page content with a success word). *)
Theorem detector_answers_true_only_on_evidence (w : W) :
  outcome (isRegistrationSuccessful w) = Ret true ->
  existsb affirmative (trace (isRegistrationSuccessful w)) = true.
Proof.
  open_detector. all_paths; intros Hout; try discriminate Hout.
  all: cbn [existsb affirmative].
  all: repeat match goal with
              | Heq : _ = true |- _ => rewrite Heq
              | Heq : _ = false |- _ => rewrite Heq
              end.
  all: try (vm_compute; reflexivity).
  all: cbn; rewrite ?Bool.orb_true_r; reflexivity.
Qed.

(** X13.  Once the URL read no longer contains 'register.htm', the
    detector never looks at the '.error' elements, and it answers true
    unless a call other than a visibility probe was rejected or the welcome
    text read was null. *)
Theorem detector_off_the_registration_page (w : W) (currentUrl : string) :
  In (EvUrl (Ok currentUrl)) (trace (isRegistrationSuccessful w)) ->
  JsString.includes currentUrl "register.htm" = false ->
  existsb errorLookup (trace (isRegistrationSuccessful w)) = false /\
  (outcome (isRegistrationSuccessful w) = Ret true \/
   In (EvTextContent welcomeMessage (Ok None)) (trace (isRegistrationSuccessful w)) \/
   exists ev, In ev (trace (isRegistrationSuccessful w)) /\
              rejected ev = true /\ visibilityProbe ev = false).
Proof.
  open_detector. all_paths; intros Hu Hinc.
  all: split_in Hu; try discriminate Hu.
  all: injection Hu as ->; try congruence.
  all: (split; [reflexivity|]).
  all: try (left; reflexivity).
  all: try solve [right; left; pick_in].
  all: try solve [right; right; rejected_call].
  all: match goal with
       | Hno : (_ || _ || negb _)%bool = false |- _ =>
           rewrite ?Hinc in Hno; cbn [negb] in Hno;
           rewrite Bool.orb_true_r in Hno; discriminate Hno
       end.
Qed.

End MoreDetectorFacts.

(* ===================================================================== *)
(** * More on the retry loop of TC 001 *)
(* ===================================================================== *)

Section MoreRetryFacts.
Context {W : Type} `{Env W}.
Import RegistrationPage RegistrationSpec.

Lemma getErrorMessages_loop_calls (P : Event -> bool) (errorElements : list ElementHandle) :
  (forall h r, P (EvElementTextContent h r) = true) ->
  calls_only P (getErrorMessages_loop (W:=W) errorElements).
Proof.
  intros HP. induction errorElements as [|element rest IH];
    cbn [getErrorMessages_loop]; [apply calls_only_ret|].
  apply calls_only_bind.
  - apply calls_only_lift, calls_only_perform. intros r. apply HP.
  - intros [text|]; [|apply calls_only_throw].
    apply calls_only_bind; [|intros _; exact IH].
    destruct (JsString.truthy (JsString.trim text));
      [apply calls_only_modifyL | apply calls_only_ret].
Qed.

Lemma getErrorMessages_calls (P : Event -> bool) :
  (forall selector r, P (EvQueryAll selector r) = true) ->
  (forall h r, P (EvElementTextContent h r) = true) ->
  calls_only P (getErrorMessages (W:=W)).
Proof.
  intros Hq He. unfold getErrorMessages.
  apply calls_only_bind; [|intros r; apply calls_only_ret].
  apply calls_only_in_frame, calls_only_try_catch; [|intros e; apply calls_only_ret].
  apply calls_only_bind.
  - apply calls_only_lift, calls_only_perform. intros r. apply Hq.
  - intros errorElements. now apply getErrorMessages_loop_calls.
Qed.

(** ** The loop never renews the user data *)

Lemma keepsUsername_trace (name : string) (t : list Event) :
  forallb (keepsUsername name) t = true ->
  existsb readsTimeOrRandomness t = false /\
  Forall (fun value => value = name) (fillsOf usernameInput t).
Proof.
  induction t as [|ev t IH]; [now split|]. cbn [forallb existsb fillsOf].
  intros Hall. apply andb_prop in Hall as [Hev Ht].
  destruct (IH Ht) as [Hno Hfills]. unfold keepsUsername in Hev.
  apply andb_prop in Hev as [Hread Hfill].
  apply Bool.negb_true_iff in Hread. rewrite Hread, Hno. split; [reflexivity|].
  destruct (filledInto usernameInput ev) as [value|]; [|exact Hfills].
  constructor; [now apply String.eqb_eq | exact Hfills].
Qed.

Lemma retryLoop_keeps_username (userData : UserData) (fuel : nat) :
  forall (attempt : Z) (success : bool),
    calls_only (keepsUsername (username userData))
               (retryLoop (W:=W) fuel userData attempt success).
Proof.
  induction fuel as [|fuel IH]; intros attempt success; cbn [retryLoop];
    (destruct ((attempt <? maxAttempts) && negb success); [|apply calls_only_ret]);
    [apply calls_only_ret|].
  unfold freshUserData.
  destruct (JsString.includes (username userData) "testuser_");
    [apply calls_only_bind_throw | apply calls_only_bind_ret].
  apply calls_only_bind;
    [unfold fillRegistrationForm; calls_auto | intros _].
  apply calls_only_bind; [unfold validateFormData; calls_auto | intros isFormValid].
  apply calls_only_bind; [apply calls_only_expect | intros _].
  apply calls_only_bind; [unfold submitRegistration; calls_auto | intros _].
  apply calls_only_bind;
    [unfold isRegistrationSuccessful, isRegistrationSuccessful_try, successSignals,
       text_includes; calls_auto
    | intros isSuccessful].
  destruct isSuccessful; [apply IH|].
  apply calls_only_bind; [now apply getErrorMessages_calls | intros errorMessages].
  destruct (hasUsernameConflict errorMessages && (attempt + 1 <? maxAttempts));
    [|apply calls_only_ret].
  apply calls_only_bind; [calls_auto | intros _].
  apply calls_only_bind; [unfold HomePage.clickRegisterLink; calls_auto | intros _].
  apply IH.
Qed.

(** X14.  In every environment and for every user data, the step with the
    retry loop reads neither the clock nor the random source, and every
    value it fills into the username field is the username it was given:
    no attempt is made with new user data. *)
Theorem retry_never_renews_the_user_data (fuel : nat) (userData : UserData) (w : W) :
  existsb readsTimeOrRandomness (trace (fillRegistrationStep fuel userData w)) = false /\
  Forall (fun value => value = username userData)
         (fillsOf usernameInput (trace (fillRegistrationStep fuel userData w))).
Proof.
  apply keepsUsername_trace.
  assert (Hstep : calls_only (keepsUsername (username userData))
                             (fillRegistrationStep (W:=W) fuel userData)).
  { unfold fillRegistrationStep.
    apply calls_only_bind; [apply retryLoop_keeps_username | intros done].
    repeat calls_step. }
  apply Hstep.
Qed.

(** ** The loop is bounded in every environment *)

Lemma submitRegistration_clicks_at_most_once :
  calls_at_most (isClickOn registerButton) 1 (submitRegistration (W:=W)).
Proof.
  intros w. unfold submitRegistration. unfold_js. all_paths; vm_compute; lia.
Qed.

Lemma fillRegistrationForm_fills_username_at_most_once (userData : UserData) :
  calls_at_most isUsernameFill 1 (fillRegistrationForm (W:=W) userData).
Proof.
  intros w. unfold fillRegistrationForm. unfold_js. all_paths; vm_compute; lia.
Qed.

(** A kind of call that one pass of the loop makes at most once, and that
    is not made between two passes, is made at most once per attempt that
    remains. *)
Lemma retryLoop_calls_at_most (p : Event -> bool) (a b : nat) (userData : UserData) :
  (forall u, calls_at_most p a (fillRegistrationForm (W:=W) u)) ->
  (forall u, calls_only (fun ev => negb (p ev)) (validateFormData (W:=W) u)) ->
  calls_at_most p b (submitRegistration (W:=W)) ->
  calls_only (fun ev => negb (p ev)) (isRegistrationSuccessful (W:=W)) ->
  calls_only (fun ev => negb (p ev)) (getErrorMessages (W:=W)) ->
  calls_only (fun ev => negb (p ev)) (Page.reload (W:=W)) ->
  calls_only (fun ev => negb (p ev)) (HomePage.clickRegisterLink (W:=W)) ->
  (a + b <= 1)%nat ->
  forall (fuel : nat) (attempt : Z) (success : bool),
    calls_at_most p (Z.to_nat (maxAttempts - attempt))
                  (retryLoop (W:=W) fuel userData attempt success).
Proof.
  intros Hfill Hvalid Hsubmit Hdetect Hmessages Hreload Hlink Hab.
  assert (Hret : forall (n : nat) (x : option bool), calls_at_most p n (ret (S:=W) x))
    by (intros n x s; cbn; lia).
  induction fuel as [|fuel IH]; intros attempt success; cbn [retryLoop];
    (destruct ((attempt <? maxAttempts) && negb success) eqn:Hguard; [|apply Hret]);
    [apply Hret|].
  apply andb_prop in Hguard as [Hlt _]. apply Z.ltb_lt in Hlt.
  set (k := Z.to_nat (maxAttempts - (attempt + 1))).
  assert (Hk : Z.to_nat (maxAttempts - attempt) = S k) by (subst k; lia).
  assert (Hrec : forall b', calls_at_most p k (retryLoop fuel userData (attempt + 1) b'))
    by (intros b'; apply IH).
  rewrite Hk. clearbody k. clear Hk IH.
  unfold freshUserData.
  destruct (JsString.includes (username userData) "testuser_");
    [apply calls_at_most_bind_throw | apply calls_at_most_bind_ret].
  apply (calls_at_most_weaken p (a + (b + k))); [|lia].
  apply calls_at_most_bind; [apply Hfill | intros _].
  apply (calls_at_most_bind p 0); [apply calls_at_most_none, Hvalid | intros isFormValid].
  apply (calls_at_most_bind p 0);
    [apply calls_at_most_none, calls_only_expect | intros _].
  apply calls_at_most_bind; [apply Hsubmit | intros _].
  apply (calls_at_most_bind p 0); [apply calls_at_most_none, Hdetect | intros isSuccessful].
  destruct isSuccessful; [apply Hrec|].
  apply (calls_at_most_bind p 0);
    [apply calls_at_most_none, Hmessages | intros errorMessages].
  destruct (hasUsernameConflict errorMessages && (attempt + 1 <? maxAttempts));
    [|apply Hret].
  apply (calls_at_most_bind p 0); [apply calls_at_most_none, Hreload | intros _].
  apply (calls_at_most_bind p 0); [apply calls_at_most_none, Hlink | intros _].
  apply Hrec.
Qed.

(** A reload is made only when another attempt follows. *)
Lemma retryLoop_reloads (userData : UserData) (fuel : nat) :
  forall (attempt : Z) (success : bool),
    calls_at_most isReload (Z.to_nat (maxAttempts - 1 - attempt))
                  (retryLoop (W:=W) fuel userData attempt success).
Proof.
  assert (Hret : forall (n : nat) (x : option bool),
             calls_at_most isReload n (ret (S:=W) x))
    by (intros n x s; cbn; lia).
  induction fuel as [|fuel IH]; intros attempt success; cbn [retryLoop];
    (destruct ((attempt <? maxAttempts) && negb success) eqn:Hguard; [|apply Hret]);
    [apply Hret|].
  remember (Z.to_nat (maxAttempts - 1 - attempt)) as k eqn:Hk.
  unfold freshUserData.
  destruct (JsString.includes (username userData) "testuser_");
    [apply calls_at_most_bind_throw | apply calls_at_most_bind_ret].
  apply (calls_at_most_bind isReload 0);
    [apply calls_at_most_none; unfold fillRegistrationForm; calls_auto | intros _].
  apply (calls_at_most_bind isReload 0);
    [apply calls_at_most_none; unfold validateFormData; calls_auto | intros isFormValid].
  apply (calls_at_most_bind isReload 0);
    [apply calls_at_most_none, calls_only_expect | intros _].
  apply (calls_at_most_bind isReload 0);
    [apply calls_at_most_none; unfold submitRegistration; calls_auto | intros _].
  apply (calls_at_most_bind isReload 0);
    [apply calls_at_most_none;
     unfold isRegistrationSuccessful, isRegistrationSuccessful_try, successSignals,
       text_includes; calls_auto
    | intros isSuccessful].
  destruct isSuccessful.
  { apply (calls_at_most_weaken isReload 0); [|lia].
    destruct fuel; cbn [retryLoop]; rewrite Bool.andb_false_r; apply Hret. }
  apply (calls_at_most_bind isReload 0);
    [apply calls_at_most_none; now apply getErrorMessages_calls | intros errorMessages].
  destruct (hasUsernameConflict errorMessages && (attempt + 1 <? maxAttempts)) eqn:Hagain;
    [|apply Hret].
  apply andb_prop in Hagain as [_ Hlt]. apply Z.ltb_lt in Hlt.
  assert (k = S (Z.to_nat (maxAttempts - 1 - (attempt + 1)))) as -> by lia.
  apply (calls_at_most_bind isReload 1);
    [intros w; unfold_js; all_paths; vm_compute; lia | intros _].
  apply (calls_at_most_bind isReload 0);
    [apply calls_at_most_none; unfold HomePage.clickRegisterLink; calls_auto | intros _].
  apply IH.
Qed.

(** X15.  In every environment, whatever the page answers and whatever
    fuel the loop is given, the step clicks the Register button at most
    three times, fills the username field at most three times and reloads
    the page at most twice. *)
Theorem retry_is_bounded_in_every_environment (fuel : nat) (userData : UserData) (w : W) :
  (clicksOn registerButton (trace (fillRegistrationStep fuel userData w)) <= 3)%nat /\
  (List.length (fillsOf usernameInput (trace (fillRegistrationStep fuel userData w))) <= 3)%nat /\
  (countOf isReload (trace (fillRegistrationStep fuel userData w)) <= 2)%nat.
Proof.
  assert (Hstep : forall (p : Event -> bool) (n : nat),
             calls_at_most p n (retryLoop (W:=W) fuel userData 0 false) ->
             calls_at_most p n (fillRegistrationStep (W:=W) fuel userData)).
  { intros p n Hloop. unfold fillRegistrationStep.
    apply (calls_at_most_weaken p (n + 0)); [|lia].
    apply calls_at_most_bind; [exact Hloop | intros done].
    intros s. destruct done as [[|]|]; cbn; lia. }
  split; [|split].
  - apply (Hstep (isClickOn registerButton) 3%nat).
    apply (retryLoop_calls_at_most (isClickOn registerButton) 0 1 userData); try lia.
    + intros u. apply calls_at_most_none. unfold fillRegistrationForm. calls_auto.
    + intros u. unfold validateFormData. calls_auto.
    + apply submitRegistration_clicks_at_most_once.
    + unfold isRegistrationSuccessful, isRegistrationSuccessful_try, successSignals,
        text_includes. calls_auto.
    + now apply getErrorMessages_calls.
    + calls_auto.
    + unfold HomePage.clickRegisterLink. calls_auto.
  - assert (Hlen : forall t, List.length (fillsOf usernameInput t) = countOf isUsernameFill t).
    { induction t as [|ev t IH]; [reflexivity|]. unfold countOf, isUsernameFill in *.
      cbn [fillsOf filter]. destruct (filledInto usernameInput ev); cbn [List.length];
        now rewrite IH. }
    rewrite Hlen.
    apply (Hstep isUsernameFill 3%nat).
    apply (retryLoop_calls_at_most isUsernameFill 1 0 userData); try lia.
    + apply fillRegistrationForm_fills_username_at_most_once.
    + intros u. unfold validateFormData. calls_auto.
    + apply calls_at_most_none. unfold submitRegistration. calls_auto.
    + unfold isRegistrationSuccessful, isRegistrationSuccessful_try, successSignals,
        text_includes. calls_auto.
    + now apply getErrorMessages_calls.
    + calls_auto.
    + unfold HomePage.clickRegisterLink. calls_auto.
  - apply (Hstep isReload 2%nat). apply retryLoop_reloads.
Qed.

(** ** How the loop ends *)

Lemma retryLoop_done (fuel : nat) (userData : UserData) (attempt : Z) (w : W) :
  retryLoop fuel userData attempt true w = mkRun (Ret (Some true)) w [].
Proof. destruct fuel; cbn [retryLoop]; now rewrite Bool.andb_false_r. Qed.

Lemma retryLoop_success_comes_from_the_detector (userData : UserData) (fuel : nat) :
  forall (attempt : Z) (w : W),
    outcome (retryLoop fuel userData attempt false w) = Ret (Some true) ->
    exists before w',
      trace (retryLoop fuel userData attempt false w)
      = (before ++ trace (isRegistrationSuccessful w'))%list /\
      outcome (isRegistrationSuccessful w') = Ret true /\
      final (retryLoop fuel userData attempt false w)
      = final (isRegistrationSuccessful w').
Proof.
  induction fuel as [|fuel IH]; intros attempt w; cbn [retryLoop];
    (destruct ((attempt <? maxAttempts) && negb false); [|cbn; discriminate]);
    [cbn; discriminate|].
  unfold expect_toBeTruthy. unfold freshUserData, bind, ret, throw.
  destruct (JsString.includes (username userData) "testuser_");
    [cbn [outcome]; discriminate|].
  destruct (fillRegistrationForm userData w) as [[[]|e|c] w1 t1];
    cbn [outcome final trace]; try discriminate.
  destruct (validateFormData userData w1) as [[[|]|e|c] w2 t2];
    cbn [outcome final trace]; try discriminate.
  destruct (submitRegistration w2) as [[[]|e|c] w3 t3];
    cbn [outcome final trace]; try discriminate.
  destruct (isRegistrationSuccessful w3) as [[[|]|e|c] w4 t4] eqn:Hdetect;
    cbn [outcome final trace]; try discriminate.
  - rewrite retryLoop_done. cbn [outcome final trace]. intros _.
    exists (t1 ++ t2 ++ t3)%list, w3. rewrite Hdetect. cbn [outcome final trace app].
    rewrite ?app_nil_r, <- ?app_assoc. now repeat split.
  - destruct (getErrorMessages w4) as [[msgs|e|c] w5 t5];
      cbn [outcome final trace]; try discriminate.
    destruct (hasUsernameConflict msgs && (attempt + 1 <? maxAttempts));
      [|cbn; discriminate].
    destruct (Page.reload w5) as [[[]|e|c] w6 t6]; cbn [outcome final trace];
      try discriminate.
    destruct (HomePage.clickRegisterLink w6) as [[[]|e|c] w7 t7];
      cbn [outcome final trace]; try discriminate.
    specialize (IH (attempt + 1) w7).
    destruct (retryLoop fuel userData (attempt + 1) false w7) as [o w8 t8].
    cbn [outcome final trace] in *. intros Hout.
    destruct (IH Hout) as (before & w' & -> & Hyes & Hfinal).
    exists (t1 ++ t2 ++ t3 ++ t4 ++ t5 ++ t6 ++ t7 ++ before)%list, w'.
    cbn [app]. rewrite ?app_nil_r, <- ?app_assoc. now repeat split.
Qed.

(** X16.  The step returns only when the detector answered true: the last
    calls of the step are a run of [isRegistrationSuccessful] that returned
    true, and the step ends in the state that run ended in. *)
Theorem step_passes_only_after_detected_success
        (fuel : nat) (userData : UserData) (w : W) :
  outcome (fillRegistrationStep fuel userData w) = Ret (Some tt) ->
  exists before w',
    trace (fillRegistrationStep fuel userData w)
    = (before ++ trace (isRegistrationSuccessful w'))%list /\
    outcome (isRegistrationSuccessful w') = Ret true /\
    final (fillRegistrationStep fuel userData w) = final (isRegistrationSuccessful w').
Proof.
  unfold fillRegistrationStep, bind, ret, throw.
  pose proof (retryLoop_success_comes_from_the_detector userData fuel 0 w) as Hloop.
  destruct (retryLoop fuel userData 0 false w) as [[[[|]|]|e|c] w1 t1];
    cbn [outcome final trace negb] in *; try discriminate.
  intros _. destruct (Hloop eq_refl) as (before & w' & -> & Hyes & Hfinal).
  exists before, w'. rewrite app_nil_r. now repeat split.
Qed.

(** One pass of the loop on which the form is valid and the detector
    answers true ends the loop. *)
Lemma retryLoop_detected_pass (fuel : nat) (userData : UserData) (attempt : Z) (w : W) :
  JsString.includes (username userData) "testuser_" = false ->
  attempt < maxAttempts ->
  outcome (detectionPass userData w) = Ret (true, true) ->
  retryLoop (S fuel) userData attempt false w
  = mkRun (Ret (Some true)) (final (detectionPass userData w))
          (trace (detectionPass userData w)).
Proof.
  intros Hmarker Hlt Hout. cbn [retryLoop].
  apply Z.ltb_lt in Hlt. rewrite Hlt. cbn [negb andb].
  unfold freshUserData. rewrite Hmarker.
  unfold expect_toBeTruthy.
  unfold detectionPass, bind, ret, throw in *.
  destruct (fillRegistrationForm userData w) as [[[]|e|c] w1 t1];
    cbn [outcome trace final app] in *; try discriminate Hout.
  destruct (validateFormData userData w1) as [[[|]|e|c] w2 t2];
    cbn [outcome trace final app] in *; try discriminate Hout.
  2: { exfalso. revert Hout.
       destruct (submitRegistration w2) as [[[]|e|c] w3 t3];
         cbn [outcome final]; try discriminate.
       destruct (isRegistrationSuccessful w3) as [[b|e|c] w4 t4];
         cbn [outcome final]; discriminate. }
  destruct (submitRegistration w2) as [[[]|e|c] w3 t3];
    cbn [outcome trace final app] in *; try discriminate Hout.
  destruct (isRegistrationSuccessful w3) as [[[|]|e|c] w4 t4];
    cbn [outcome trace final app] in *; try discriminate Hout.
  rewrite retryLoop_done. cbn [outcome trace final app].
  now rewrite ?app_nil_r, <- ?app_assoc.
Qed.

Lemma attemptPass_makes_no_reload (userData : UserData) :
  calls_only (fun ev => negb (isReload ev)) (attemptPass (W:=W) userData).
Proof.
  unfold attemptPass.
  apply calls_only_bind; [unfold fillRegistrationForm; calls_auto | intros _].
  apply calls_only_bind; [unfold validateFormData; calls_auto | intros isFormValid].
  apply calls_only_bind; [unfold submitRegistration; calls_auto | intros _].
  apply calls_only_bind;
    [unfold isRegistrationSuccessful, isRegistrationSuccessful_try, successSignals,
       text_includes; calls_auto
    | intros isSuccessful].
  apply calls_only_bind; [now apply getErrorMessages_calls | intros errorMessages].
  apply calls_only_ret.
Qed.

Lemma detectionPass_trace (userData : UserData) (w : W) (x : bool * bool) :
  outcome (detectionPass userData w) = Ret x ->
  clicksOn registerButton (trace (detectionPass userData w)) = 1%nat /\
  countOf isReload (trace (detectionPass userData w)) = 0%nat.
Proof.
  intros Hout. split.
  - revert Hout. unfold detectionPass, bind, ret.
    pose proof (fillRegistrationForm_trace userData w) as Hfill.
    destruct (fillRegistrationForm userData w) as [[[]|e|c] w1 t1];
      cbn [outcome trace final] in *; try discriminate.
    destruct (Hfill eq_refl) as [Hc1 _].
    pose proof (no_formAction registerButton _
                  (validateFormData_makes_no_formAction userData w1)) as [Hc2 _].
    destruct (validateFormData userData w1) as [[v|e|c] w2 t2];
      cbn [outcome trace final] in *; try discriminate.
    pose proof (submitRegistration_trace w2) as Hsub.
    destruct (submitRegistration w2) as [[[]|e|c] w3 t3];
      cbn [outcome trace final] in *; try discriminate.
    destruct (Hsub eq_refl) as [Hc3 _].
    pose proof (no_formAction registerButton _
                  (isRegistrationSuccessful_makes_no_formAction w3)) as [Hc4 _].
    destruct (isRegistrationSuccessful w3) as [[b|e|c] w4 t4];
      cbn [outcome trace final] in *; try discriminate.
    intros _. rewrite app_nil_r, !clicksOn_app. now rewrite Hc1, Hc2, Hc3, Hc4.
  - apply countOf_none.
    assert (Hpass : calls_only (fun ev => negb (isReload ev)) (detectionPass (W:=W) userData)).
    { unfold detectionPass.
      apply calls_only_bind; [unfold fillRegistrationForm; calls_auto | intros _].
      apply calls_only_bind; [unfold validateFormData; calls_auto | intros isFormValid].
      apply calls_only_bind; [unfold submitRegistration; calls_auto | intros _].
      apply calls_only_bind;
        [unfold isRegistrationSuccessful, isRegistrationSuccessful_try, successSignals,
           text_includes; calls_auto
        | intros isSuccessful].
      apply calls_only_ret. }
    apply Hpass.
Qed.

Lemma reloadAndReopen_reloads_once (w : W) :
  outcome (reloadAndReopen w) = Ret tt ->
  countOf isReload (trace (reloadAndReopen w)) = 1%nat.
Proof.
  unfold reloadAndReopen, HomePage.clickRegisterLink. unfold_js.
  all_paths; intros Hout; try discriminate Hout; reflexivity.
Qed.

(** X17.  When two passes in a row find the form valid, the detector false
    and the collected messages signalling a username conflict, with the
    reloads succeeding, and the third pass finds the form valid and the
    detector true, the step returns after exactly these three passes and
    two reloads: three clicks on the Register button, two reloads, and no
    reading of the error messages after the success. *)
Theorem retry_succeeds_on_the_third_attempt
    (fuel : nat) (w0 : W) (userData : UserData) (messages1 messages2 : list string) :
  let pass1 := attemptPass userData w0 in
  let reload1 := reloadAndReopen (final pass1) in
  let pass2 := attemptPass userData (final reload1) in
  let reload2 := reloadAndReopen (final pass2) in
  let pass3 := detectionPass userData (final reload2) in
  (3 <= fuel)%nat ->
  JsString.includes (username userData) "testuser_" = false ->
  outcome pass1 = Ret (true, false, messages1) ->
  hasUsernameConflict messages1 = true ->
  outcome reload1 = Ret tt ->
  outcome pass2 = Ret (true, false, messages2) ->
  hasUsernameConflict messages2 = true ->
  outcome reload2 = Ret tt ->
  outcome pass3 = Ret (true, true) ->
  outcome (fillRegistrationStep fuel userData w0) = Ret (Some tt) /\
  trace (fillRegistrationStep fuel userData w0)
  = (trace pass1 ++ trace reload1 ++ trace pass2 ++ trace reload2 ++ trace pass3)%list /\
  final (fillRegistrationStep fuel userData w0) = final pass3 /\
  clicksOn registerButton (trace (fillRegistrationStep fuel userData w0)) = 3%nat /\
  countOf isReload (trace (fillRegistrationStep fuel userData w0)) = 2%nat.
Proof.
  intros pass1 reload1 pass2 reload2 pass3 Hfuel Hmarker
         Hp1 Hc1 Hr1 Hp2 Hc2 Hr2 Hp3.
  destruct fuel as [|[|[|fuel]]]; try lia.
  assert (Hloop :
            retryLoop (S (S (S fuel))) userData 0 false w0
            = mkRun (Ret (Some true)) (final pass3)
                    (trace pass1 ++ trace reload1 ++ trace pass2 ++ trace reload2
                     ++ trace pass3)%list).
  { rewrite (retryLoop_pass _ _ 0 _ messages1 Hmarker eq_refl Hp1).
    rewrite Hc1. cbn [andb]. change (0 + 1 <? maxAttempts) with true. cbv iota.
    fold pass1. rewrite (bind_returns _ _ _ tt Hr1). fold reload1.
    rewrite (retryLoop_pass _ _ 1 _ messages2 Hmarker eq_refl Hp2).
    rewrite Hc2. cbn [andb]. change (0 + 1 + 1 <? maxAttempts) with true. cbv iota.
    fold pass2. rewrite (bind_returns _ _ _ tt Hr2). fold reload2.
    rewrite (retryLoop_detected_pass _ _ 2 _ Hmarker eq_refl Hp3).
    fold pass3. unfold after_trace. cbn [outcome final trace].
    reflexivity. }
  unfold fillRegistrationStep, bind. rewrite Hloop. cbn [negb].
  unfold ret. cbn [outcome trace final]. rewrite app_nil_r.
  split; [reflexivity|]. split; [reflexivity|]. split; [reflexivity|].
  rewrite !clicksOn_app, !countOf_app.
  pose proof (proj1 (attemptPass_trace _ _ _ Hp1)) as Hk1.
  pose proof (proj1 (attemptPass_trace _ _ _ Hp2)) as Hk2.
  pose proof (detectionPass_trace _ _ _ Hp3) as [Hk3 Hn3].
  pose proof (proj1 (reloadAndReopen_trace (final pass1))) as Hk4.
  pose proof (proj1 (reloadAndReopen_trace (final pass2))) as Hk5.
  pose proof (countOf_none _ _ (attemptPass_makes_no_reload userData w0)) as Hn1.
  pose proof (countOf_none _ _ (attemptPass_makes_no_reload userData (final reload1)))
    as Hn2.
  pose proof (reloadAndReopen_reloads_once _ Hr1) as Hn4.
  pose proof (reloadAndReopen_reloads_once _ Hr2) as Hn5.
  fold pass1 in Hk1, Hn1. fold reload1 in Hk2, Hk4, Hn2, Hn4. fold pass2 in Hk2, Hk5, Hn2.
  fold reload2 in Hk3, Hk5, Hn3, Hn5. fold pass3 in Hk3, Hn3.
  rewrite Hk1, Hk2, Hk3, Hk4, Hk5, Hn1, Hn2, Hn3, Hn4, Hn5. split; reflexivity.
Qed.

(** X18.  When the first pass finds the form valid and the detector false
    and the collected messages signal no username conflict, the loop ends
    after this single pass, without a reload, and the step still throws
    'Registration failed after 3 attempts'. *)
Theorem other_failure_ends_the_loop_at_once
    (fuel : nat) (w : W) (userData : UserData) (messages : list string) :
  (1 <= fuel)%nat ->
  JsString.includes (username userData) "testuser_" = false ->
  outcome (attemptPass userData w) = Ret (true, false, messages) ->
  hasUsernameConflict messages = false ->
  outcome (fillRegistrationStep fuel userData w)
  = Throw (Error "Registration failed after 3 attempts") /\
  trace (fillRegistrationStep fuel userData w) = trace (attemptPass userData w) /\
  clicksOn registerButton (trace (fillRegistrationStep fuel userData w)) = 1%nat /\
  countOf isReload (trace (fillRegistrationStep fuel userData w)) = 0%nat.
Proof.
  intros Hfuel Hmarker Hpass Hother.
  destruct fuel as [|fuel]; [lia|].
  unfold fillRegistrationStep, bind.
  rewrite (retryLoop_pass _ _ 0 _ messages Hmarker eq_refl Hpass).
  rewrite Hother. cbn [andb]. unfold after_trace, throw.
  cbn [outcome final trace negb]. rewrite !app_nil_r.
  split; [reflexivity|]. split; [reflexivity|]. split.
  - exact (proj1 (attemptPass_trace _ _ _ Hpass)).
  - exact (countOf_none _ _ (attemptPass_makes_no_reload userData w)).
Qed.

Lemma getTestData_duplicate_user (data : UserDataGen.TestData) (w : W) :
  UserDataGen.getTestData data "duplicate_user" w
  = mkRun (Ret (UserDataGen.validUser data)) w [].
Proof. reflexivity. Qed.

(** X19.  The user data that [getTestData] returns for 'duplicate_user' is
    the [validUser] of the module, whose username contains 'testuser_';
    given such data the step throws the ReferenceError of the unbound
    [testData] before it makes any call. *)
Theorem duplicate_user_data_breaks_the_retry_step
    (fuel : nat) (wl wg w : W) (data : UserDataGen.TestData) (userData : UserData) :
  (1 <= fuel)%nat ->
  outcome (UserDataGen.testData wl) = Ret data ->
  outcome (UserDataGen.getTestData data "duplicate_user" wg) = Ret userData ->
  JsString.includes (username userData) "testuser_" = true /\
  fillRegistrationStep fuel userData w
  = mkRun (Throw (ReferenceError "testData is not defined")) w [].
Proof.
  intros Hfuel Hload Hget.
  assert (Hmarker : JsString.includes (username userData) "testuser_" = true).
  { revert Hload. unfold UserDataGen.testData. unfold_js.
    destruct (env_dateNow wl) as [now w1]. destruct (env_random w1) as [r w2].
    destruct (env_dateNow w2) as [now1 w3]. destruct (env_dateNow w3) as [now2 w4].
    cbn [outcome]. intros Hload. injection Hload as <-.
    rewrite getTestData_duplicate_user in Hget. cbn [outcome] in Hget.
    injection Hget as <-. cbn [username UserDataGen.validUser].
    exact (JsStringFacts.includes_append EmptyString "testuser_" _). }
  split; [exact Hmarker|].
  destruct fuel as [|fuel]; [lia|].
  unfold fillRegistrationStep. cbn [retryLoop].
  change (0 <? maxAttempts) with true. cbn [andb negb].
  unfold freshUserData. rewrite Hmarker. reflexivity.
Qed.

End MoreRetryFacts.

(* ===================================================================== *)
(** * The generated user data *)
(* ===================================================================== *)

Section GeneratorFacts.
Context {W : Type} `{Env W}.
Import UserDataGen.

Lemma small_numbers_pad_to_five (n : Z) :
  0 <= n < 1000 ->
  String.length (JsString.padStart (JsString.toString n) 5 "0") = 5%nat /\
  String.prefix "00" (JsString.padStart (JsString.toString n) 5 "0") = true.
Proof.
  intros Hn.
  assert (Hall : forallb
                   (fun k =>
                      let z := JsString.padStart (JsString.toString (Z.of_nat k)) 5 "0" in
                      (String.length z =? 5)%nat && String.prefix "00" z)
                   (seq 0 1000) = true) by (vm_compute; reflexivity).
  pose proof (proj1 (forallb_forall _ _) Hall (Z.to_nat n)) as Hk.
  specialize (Hk ltac:(apply in_seq; lia)). cbv beta zeta in Hk.
  rewrite Z2Nat.id in Hk by lia.
  apply andb_prop in Hk as [Hlen Hpre]. apply Nat.eqb_eq in Hlen. now split.
Qed.

(** X20.  [generateUniqueUser] always returns, after exactly one reading of
    the clock and two of the random source.  One number below 1000, the
    floor of the first random number times 1000 as doubles multiply, is
    shared by the first name, the last name, the address and the password;
    the ZIP code has five characters and starts with '00'; the phone
    number starts with '555-' and the username with 'u'. *)
Theorem generateUniqueUser_shape (w : W) :
  exists timestamp r r' randomNum userData,
    trace (generateUniqueUser w) = [EvDateNow timestamp; EvRandom r; EvRandom r'] /\
    outcome (generateUniqueUser w) = Ret userData /\
    randomNum = floorTimes r 1000 /\
    0 <= randomNum < 1000 /\
    firstName userData = "Test" ++ JsString.toString randomNum /\
    lastName userData = "User" ++ JsString.toString randomNum /\
    address userData = JsString.toString randomNum ++ " Test Street" /\
    password userData = "TestPass" ++ JsString.toString randomNum ++ "!" /\
    String.length (zipCode userData) = 5%nat /\
    String.prefix "00" (zipCode userData) = true /\
    String.prefix "555-" (phone userData) = true /\
    String.prefix "u" (username userData) = true.
Proof.
  unfold generateUniqueUser. unfold_js.
  destruct (env_dateNow w) as [timestamp w1].
  destruct (env_random w1) as [r w2].
  destruct (env_random w2) as [r' w3].
  exists timestamp, r, r', (floorTimes r 1000). eexists.
  split; [reflexivity|]. split; [reflexivity|]. split; [reflexivity|].
  pose proof (JsNumberFacts.floor_times_1000 r) as Hn. fold (floorTimes r 1000) in Hn.
  split; [exact Hn|]. cbn [firstName lastName address password zipCode phone username].
  do 4 (split; [reflexivity|]).
  destruct (small_numbers_pad_to_five _ Hn) as [Hlen Hpre].
  split; [exact Hlen|]. split; [exact Hpre|].
  split; apply JsStringFacts.prefix_append.
Qed.

End GeneratorFacts.

(* ===================================================================== *)
(** * The steps of TC 001 in the stand-alone runner *)
(* ===================================================================== *)

Section StepFacts.
Context {W : Type} `{Env W}.
Import TestSuite.

(** X21.  The first step returns only when the title read contains
    'ParaBank', and the second only when the URL read contains
    'register.htm'; the text each returns ends with what was read. *)
Theorem navigation_steps_pass_only_on_the_expected_page (w : W) (result : string) :
  (outcome (step1 w) = Ret result ->
   exists title,
     In (EvTitle (Ok title)) (trace (step1 w)) /\
     JsString.includes title "ParaBank" = true /\
     result = "Successfully navigated to ParaBank. Title: " ++ title) /\
  (outcome (step2 w) = Ret result ->
   exists url,
     In (EvUrl (Ok url)) (trace (step2 w)) /\
     JsString.includes url "register.htm" = true /\
     result = "Successfully navigated to registration page: " ++ url).
Proof.
  split.
  - unfold step1. open_step. all_paths; intros Hout; try discriminate Hout.
    injection Hout as <-. eexists. split; [cbn [In]; eauto 6|]. split; [|reflexivity].
    now apply Bool.negb_false_iff.
  - unfold step2. open_step. all_paths; intros Hout; try discriminate Hout.
    injection Hout as <-. eexists. split; [cbn [In]; eauto 6|]. split; [|reflexivity].
    now apply Bool.negb_false_iff.
Qed.

(** X22.  The step that submits the form returns only after the click on
    the Register button succeeded and either a wait for the success text
    succeeded (the first one, or the one made after a challenge page) or
    the body text read contains both 'Welcome' and 'Your account was
    created'. *)
Theorem step4_passes_only_on_evidence (w : W) (result : string) :
  outcome (step4 w) = Ret result ->
  In (EvClick ("input[value=" ++ dq ++ "Register" ++ dq ++ "]") (Ok tt)) (trace (step4 w)) /\
  ((exists timeout,
       In (EvWaitForSelector successText Visible timeout (Ok tt)) (trace (step4 w))) \/
   (exists body,
       In (EvTextContent "body" (Ok (Some body))) (trace (step4 w)) /\
       JsString.includes body "Welcome" = true /\
       JsString.includes body "Your account was created" = true)).
Proof.
  unfold step4. open_step. all_paths; units; intros Hout; try discriminate Hout.
  all: (split; [cbn [In]; tauto|]).
  all: try solve [left; eexists; pick_in].
  all: try match goal with
           | Hc : JsString.includes EmptyString _ = true |- _ =>
               vm_compute in Hc; discriminate Hc
           end.
  all: right; eexists; (split; [pick_in|]); split; assumption.
Qed.

End StepFacts.

Section Step5Facts.
Context {W : Type} `{Env W}.
Import TestSuite.

(** X23.  The last step returns only when the wait for the welcome text
    with the username succeeded or a positive count of 'text=Welcome' was
    read.  What it returns is three lines, one for the page title, one for
    the welcome message and one for the success message: a title that
    contains neither 'Customer Created' nor 'ParaBank' gives the line of an
    unexpected title and does not fail the step. *)
Theorem step5_passes_only_with_a_welcome_text
        (uniqueUsername : string) (w : W) (result : string) :
  outcome (step5 uniqueUsername w) = Ret result ->
  (In (EvWaitForSelector ("text=Welcome " ++ uniqueUsername) Visible 10000 (Ok tt))
      (trace (step5 uniqueUsername w)) \/
   exists n, (0 < n)%nat /\
             In (EvCount "text=Welcome" (Ok n)) (trace (step5 uniqueUsername w))) /\
  exists pageTitle welcomeLine successLine,
    In (EvTitle (Ok pageTitle)) (trace (step5 uniqueUsername w)) /\
    result
    = String.concat
        newline
        [if JsString.includes pageTitle "Customer Created"
            || JsString.includes pageTitle "ParaBank"
         then "✅ Page title indicates successful registration"
         else "❌ Unexpected page title: " ++ pageTitle;
         welcomeLine; successLine].
Proof.
  unfold step5. intros Hout.
  destruct (bind_ret_inv _ _ _ _ Hout) as (pageTitle & Htitle & Hrest & ->).
  destruct (bind_ret_inv _ _ _ _ Hrest) as ([] & Hwelcome & Hrest' & ->).
  clear Hout Hrest. split.
  - clear Hrest' Htitle. revert Hwelcome.
    generalize (final (Page.title w)). intros w1.
    match goal with
    | |- outcome (?check w1) = _ -> _ => set (welcomeCheck := check)
    end.
    intros Hwelcome.
    assert (Hfound :
              In (EvWaitForSelector ("text=Welcome " ++ uniqueUsername) Visible 10000 (Ok tt))
                 (trace (welcomeCheck w1)) \/
              exists n, (0 < n)%nat /\
                        In (EvCount "text=Welcome" (Ok n)) (trace (welcomeCheck w1))).
    { revert Hwelcome. subst welcomeCheck. unfold_js.
      all_paths; units; intros Hout; try discriminate Hout.
      - left. pick_in.
      - right. eexists. split; [|pick_in].
        match goal with
        | Hneg : negb (0 <? _)%nat = false |- _ =>
            apply Bool.negb_false_iff, Nat.ltb_lt in Hneg; exact Hneg
        end. }
    destruct Hfound as [Hin | (n & Hpos & Hin)].
    + left. apply in_or_app. right. apply in_or_app. now left.
    + right. exists n. split; [exact Hpos|].
      apply in_or_app. right. apply in_or_app. now left.
  - exists pageTitle.
    assert (Hread : In (EvTitle (Ok pageTitle)) (trace (Page.title w))).
    { revert Htitle. unfold_js. all_paths; intros Ht; try discriminate Ht.
      injection Ht as ->. now left. }
    clear Hwelcome Htitle. revert Hrest'.
    match goal with
    | |- outcome (_ ?w2) = _ -> _ => generalize w2
    end.
    intros w2 Hrest.
    destruct (bind_ret_inv _ _ _ _ Hrest) as (n & _ & Hrest1 & _). clear Hrest.
    cbv zeta in Hrest1.
    destruct (bind_ret_inv _ _ _ _ Hrest1) as (welcomeVisible & _ & Hrest2 & _).
    clear Hrest1.
    destruct (bind_ret_inv _ _ _ _ Hrest2) as (verifications2 & Hv2 & Hrest3 & _).
    clear Hrest2.
    destruct (bind_ret_inv _ _ _ _ Hrest3) as (verifications3 & Hv3 & Hrest4 & _).
    clear Hrest3. cbn [ret outcome] in Hrest4. injection Hrest4 as <-.
    assert (H2 : exists line, verifications2
                              = push [if JsString.includes pageTitle "Customer Created"
                                         || JsString.includes pageTitle "ParaBank"
                                      then "✅ Page title indicates successful registration"
                                      else "❌ Unexpected page title: " ++ pageTitle] line).
    { revert Hv2.
      destruct (JsString.includes pageTitle "Customer Created"
                || JsString.includes pageTitle "ParaBank");
        destruct welcomeVisible; open_step; all_paths; intros Hv;
        try discriminate Hv; injection Hv as <-; eexists; reflexivity. }
    destruct H2 as (welcomeLine & ->).
    assert (H3 : exists line, verifications3 = push (push [if JsString.includes pageTitle "Customer Created"
                                         || JsString.includes pageTitle "ParaBank"
                                      then "✅ Page title indicates successful registration"
                                      else "❌ Unexpected page title: " ++ pageTitle] welcomeLine) line).
    { revert Hv3. destruct (0 <? n)%nat; open_step; all_paths; intros Hv;
        try discriminate Hv; injection Hv as <-; eexists; reflexivity. }
    destruct H3 as (successLine & ->).
    exists welcomeLine, successLine. split; [|reflexivity].
    apply in_or_app. now left.
Qed.

End Step5Facts.

(* ===================================================================== *)
(** * More on the run recorder *)
(* ===================================================================== *)

Section MoreRecorderFacts.
Context {W : Type} `{Env W}.
Import TestSuite.

(** X24.  For a step function that does not end the process,
    [executeStep] reads the clock, runs the function and reads the clock
    again, whatever the function does.  When the function returns,
    [executeStep] returns the step with its name, the status PASSED, the
    two readings as start and end time, the returned text as result and no
    error; when the function throws, [executeStep] throws the same
    error. *)
Theorem executeStep_routes_the_result
        (stepName : string) (stepFunction : M W string) (w : W) :
  never_exits stepFunction ->
  let start := env_dateNow w in
  let body := stepFunction (snd start) in
  let stop := env_dateNow (final body) in
  trace (executeStep stepName stepFunction w)
  = (EvDateNow (fst start) :: trace body ++ [EvDateNow (fst stop)])%list /\
  final (executeStep stepName stepFunction w) = snd stop /\
  (forall result,
      outcome body = Ret result ->
      outcome (executeStep stepName stepFunction w)
      = Ret (mkStep stepName PASSED (fst start) (Some (fst stop)) (Some result) None)) /\
  (forall e,
      outcome body = Throw e ->
      outcome (executeStep stepName stepFunction w) = Throw e).
Proof.
  intros Hfn start body stop. subst stop body start.
  unfold executeStep, executeStep_try. unfold_js. cbn [fst snd].
  destruct (env_dateNow w) as [now w0]. cbn [fst snd].
  pose proof (Hfn w0) as Hexit.
  destruct (stepFunction w0) as [[result|e|c] w1 t1]; cbn [outcome final trace] in *;
    [| |now destruct (Hexit c)];
    cbn [fst snd]; destruct (env_dateNow w1) as [stop w2]; cbn [fst snd outcome final trace app].
  - rewrite ?app_nil_r. repeat split.
    + intros result' Hr. injection Hr as <-. reflexivity.
    + intros e He. discriminate He.
  - rewrite ?app_nil_r. repeat split.
    + intros result' Hr. discriminate Hr.
    + intros e' He. injection He as <-. reflexivity.
Qed.

(** X28.  On a suite whose browser is not set, [cleanup] run after
    [initialize] closes the browser exactly when the launch had succeeded,
    also when [initialize] threw after the launch.  When [cleanup]
    returns, the end time of the run is a reading of the clock it made;
    when it throws, the close was rejected and the end time is left as it
    was. *)
Theorem cleanup_closes_what_initialize_opened (suite : Suite) (w : W) :
  browser suite = false ->
  let init := initialize (suite, w) in
  let clean := cleanup (final init) in
  ((exists r, In (EvBrowserClose r) (trace clean)) <->
   (exists headless, In (EvLaunch headless (Ok tt)) (trace init))) /\
  (outcome clean = Ret tt ->
   exists now,
     In (EvDateNow now) (trace clean) /\
     endTime (testResults (fst (final clean))) = Some now) /\
  (forall e,
      outcome clean = Throw e ->
      In (EvBrowserClose (Err e)) (trace clean) /\
      endTime (testResults (fst (final clean))) = endTime (testResults suite)).
Proof.
  intros Hnew init clean. subst clean init.
  unfold initialize, cleanup. unfold_js. cbn [fst snd].
  destruct suite as [b record]. cbn [browser] in Hnew. subst b.
  destruct (env_getEnv "HEADLESS" w) as [v w0]. cbn [fst snd].
  all_paths_now; units.
  all: (split; [split; [intros (r & Hin) | intros (h & Hin)]
               | split; [intros Hout | intros e' Hout]]).
  all: try discriminate Hout.
  all: try (split_in Hin; discriminate Hin).
  all: try solve [eexists; pick_in].
  all: try solve [eexists; split; [pick_in | reflexivity]].
  all: injection Hout as <-; split; [pick_in | reflexivity].
Qed.

Section Report.
Variable renderReport : RunRecord -> option string -> Z -> string.

(** The only file [generateReport] writes is the report, with the text
    rendered from the run record of the suite. *)
Lemma generateReport_file (suite : Suite) (w : W) (path data : string) (r : Result unit) :
  In (EvWriteFileSync path data r) (trace (generateReport renderReport (suite, w))) ->
  path = "Test_Execution_Report.html" /\
  exists ci now, data = renderReport (testResults suite) ci now.
Proof.
  unfold generateReport. unfold_js. cbn [fst snd].
  destruct (env_getEnv "CI" w) as [ci w0]. cbn [fst snd].
  destruct (env_dateNow w0) as [now w1]. cbn [fst snd].
  all_paths_now; units; intros Hin.
  all: split_in Hin; try discriminate Hin; injection Hin as <- <- <-;
    (split; [reflexivity|]); exists ci, now; reflexivity.
Qed.

(** X27.  [generateReport] leaves the suite as it is.  It creates the
    directory 'test-results' exactly when it was told the directory does
    not exist.  The only file it writes is 'Test_Execution_Report.html',
    with the text rendered from the run record, and when it returns, it
    returns that text after the write succeeded. *)
Theorem generateReport_writes_what_it_returns (suite : Suite) (w : W) :
  fst (final (generateReport renderReport (suite, w))) = suite /\
  ((exists r, In (EvMkdirSync "test-results" r)
                 (trace (generateReport renderReport (suite, w)))) <->
   In (EvExistsSync "test-results" (Ok false))
      (trace (generateReport renderReport (suite, w)))) /\
  (forall report,
      outcome (generateReport renderReport (suite, w)) = Ret report ->
      exists ci now,
        report = renderReport (testResults suite) ci now /\
        In (EvGetEnv "CI" ci) (trace (generateReport renderReport (suite, w))) /\
        In (EvDateNow now) (trace (generateReport renderReport (suite, w))) /\
        In (EvWriteFileSync "Test_Execution_Report.html" report (Ok tt))
           (trace (generateReport renderReport (suite, w)))) /\
  (forall path data r,
      In (EvWriteFileSync path data r) (trace (generateReport renderReport (suite, w))) ->
      path = "Test_Execution_Report.html" /\
      exists ci now, data = renderReport (testResults suite) ci now).
Proof.
  unfold generateReport. unfold_js. cbn [fst snd].
  destruct (env_getEnv "CI" w) as [ci w0]. cbn [fst snd].
  destruct (env_dateNow w0) as [now w1]. cbn [fst snd].
  all_paths_now; units.
  all: repeat match goal with
              | Hb : negb ?a = _ |- _ => destruct a; try discriminate Hb; clear Hb
              end.
  all: (split; [reflexivity|]).
  all: (split; [split; [intros (r & Hin) | intros Hin]|]).
  all: try (split_in Hin; discriminate Hin).
  all: try solve [pick_in].
  all: try solve [eexists; pick_in].
  all: (split; [intros report Hout | intros path data r Hin]).
  all: try discriminate Hout.
  all: try (injection Hout as <-; exists ci, now; split; [reflexivity|];
            split; [pick_in|]; split; pick_in).
  all: try (split_in Hin; discriminate Hin).
  all: split_in Hin; try discriminate Hin; injection Hin as <- <- <-;
    (split; [reflexivity|]); exists ci, now; reflexivity.
Qed.

End Report.

End MoreRecorderFacts.

Section CaseFacts.
Context {W : Type} `{Env W}.
Import TestSuite.

Lemma executeStep_named (stepName : string) (stepFunction : M W string) (w : W) :
  never_exits stepFunction ->
  exists o w' t,
    executeStep stepName stepFunction w = mkRun o w' t /\
    ((exists step, o = Ret step /\ step_status step = PASSED
                   /\ step_name step = stepName) \/
     (exists e, o = Throw e)).
Proof.
  intros Hfn. unfold executeStep, executeStep_try. unfold_js. cbn [fst snd].
  destruct (env_dateNow w) as [now w0]. cbn [fst snd].
  pose proof (Hfn w0) as Hexit.
  destruct (stepFunction w0) as [[result|e|c] w1 t1]; cbn [outcome] in Hexit;
    [| |now destruct (Hexit c)];
    cbn [fst snd]; destruct (env_dateNow w1) as [stop w2]; cbn [fst snd].
  - do 3 eexists. split; [reflexivity|]. left. eexists. now repeat split.
  - do 3 eexists. split; [reflexivity|]. right. now exists e.
Qed.

Lemma pushStep_named (stepName : string) (stepFunction : M W string)
      (c : CaseResult) (suite : Suite) (w : W) :
  never_exits stepFunction ->
  exists o c' w' t,
    pushStep stepName stepFunction (c, (suite, w)) = mkRun o (c', (suite, w')) t /\
    ((o = Ret tt /\
      exists step, c' = push_case_step step c /\ step_name step = stepName) \/
     (exists e, o = Throw e /\ c' = c)).
Proof.
  intros Hfn. unfold pushStep, bind, lift, modifyL. cbn [fst snd].
  destruct (executeStep_named stepName stepFunction w Hfn)
    as (o & w1 & t1 & -> & [(step & -> & _ & Hname) | (e & ->)]); cbn [fst snd].
  - do 4 eexists. split; [reflexivity|]. left. split; [reflexivity|].
    exists step. now split.
  - do 4 eexists. split; [reflexivity|]. right. now exists e.
Qed.

(** The names of the steps pushed so far, once each is known. *)
Ltac step_names Hsteps :=
  cbn [case_steps push_case_step]; unfold push; rewrite Hsteps; cbn [app map];
  repeat match goal with
         | Hn : step_name _ = _ |- _ => rewrite Hn; clear Hn
         end.

(** One [pushStep] of [runTestCase001_try]: it returns with the named step
    pushed, or it throws, which ends the [try] block after the steps pushed
    before. *)
Ltac push_named Hfn Hsteps :=
  match goal with
  | |- context [bind (TestSuite.pushStep ?n ?f) _ (?c, (?s, ?w))] =>
      let o := fresh "o" in
      let c' := fresh "c" in
      let w' := fresh "w" in
      let t := fresh "t" in
      let E := fresh "E" in
      let step := fresh "step" in
      let e := fresh "e" in
      let Hname := fresh "Hname" in
      unfold bind at 1;
      destruct (pushStep_named n f c s w Hfn)
        as (o & c' & w' & t & E & [[-> (step & -> & Hname)] | (e & -> & ->)]);
      rewrite E; clear E;
      [ | do 5 eexists; split; [reflexivity|]; split; [reflexivity|];
          right; exists e;
          first [ exists 0%nat; split; [reflexivity|]; split; [lia|];
                  step_names Hsteps; reflexivity
                | exists 1%nat; split; [reflexivity|]; split; [lia|];
                  step_names Hsteps; reflexivity
                | exists 2%nat; split; [reflexivity|]; split; [lia|];
                  step_names Hsteps; reflexivity
                | exists 3%nat; split; [reflexivity|]; split; [lia|];
                  step_names Hsteps; reflexivity
                | exists 4%nat; split; [reflexivity|]; split; [lia|];
                  step_names Hsteps; reflexivity ] ]
  end.

Lemma runTestCase001_try_names (c : CaseResult) (suite : Suite) (w : W) :
  case_steps c = [] ->
  exists o c' suite' w' t,
    runTestCase001_try (c, (suite, w)) = mkRun o (c', (suite', w')) t /\
    case_error c' = case_error c /\
    ((o = Ret tt /\ case_status c' = PASSED /\
      map step_name (case_steps c') = stepNames) \/
     (exists e n, o = Throw e /\ (n < 5)%nat /\
                  map step_name (case_steps c') = firstn n stepNames)).
Proof.
  intros Hsteps. unfold runTestCase001_try.
  push_named step1_never_exits Hsteps.
  push_named step2_never_exits Hsteps.
  unfold bind at 1. unfold lift at 1 2. unfold Sys.dateNow at 1. unfold observe.
  cbn [fst snd]. destruct (env_dateNow w1) as [timestamp w2].
  push_named
    (step3_never_exits
       ("testuser" ++ JsString.toString timestamp)
       {| firstName := "Test"; lastName := "User";
          address := "123 Test Street"; city := "Test City"; state := "CA";
          zipCode := "12345"; phone := "555-123-4567"; ssn := "123-45-6789";
          username := "testuser" ++ JsString.toString timestamp;
          password := "TestPass123!" |})
    Hsteps.
  push_named step4_never_exits Hsteps.
  push_named (step5_never_exits ("testuser" ++ JsString.toString timestamp)) Hsteps.
  unfold_js. cbn [fst snd]. destruct (env_dateNow w5) as [now w6].
  do 5 eexists. split; [reflexivity|]. split; [reflexivity|].
  left. split; [reflexivity|]. split; [reflexivity|].
  cbn [fst snd case_steps set_case_endTime set_case_status]. step_names Hsteps. reflexivity.
Qed.

Lemma runTestCase001_try_takes_no_screenshot :
  calls_only (fun ev => negb (isScreenshot ev)) (runTestCase001_try (W:=W)).
Proof.
  unfold runTestCase001_try, pushStep, executeStep, executeStep_try,
    step1, step2, step3, step4, step5, text_includes.
  calls_auto.
Qed.

(** What [runTestCase001] returns and does, by the way its [try] block
    ended. *)
Lemma runTestCase001_cases (suite : Suite) (w : W) :
  exists c s' t,
    runTestCase001 (suite, w) = mkRun (Ret c) s' t /\
    ((case_status c = PASSED /\ case_error c = None /\
      map step_name (case_steps c) = stepNames /\
      existsb isScreenshot t = false) \/
     (case_status c = FAILED /\ (exists msg, case_error c = Some msg) /\
      (exists n, (n < 5)%nat /\ map step_name (case_steps c) = firstn n stepNames) /\
      exists before r,
        t = (before ++ [EvScreenshot "test-results/failure-screenshot.png" r])%list /\
        existsb isScreenshot before = false)).
Proof.
  unfold runTestCase001, lift, Sys.dateNow, observe, bind, in_frame, try_catch.
  cbn [fst snd]. destruct (env_dateNow w) as [now w0].
  set (c0 := mkCase "TC 001" "Verify that user can register a new customer"
                    RUNNING [] now None None).
  pose proof (existsb_none _ _ (runTestCase001_try_takes_no_screenshot (c0, (suite, w0))))
    as Hnone.
  destruct (runTestCase001_try_names c0 suite w0 eq_refl)
    as (o & c1 & suite1 & w1 & t1 & Htry & Herror & Hcases).
  rewrite Htry in Hnone |- *. cbn [trace] in Hnone.
  destruct Hcases as [(-> & Hstatus & Hnames) | (e & n & -> & Hn & Hnames)].
  - unfold modifyL, ret. cbn [fst snd outcome final trace].
    do 3 eexists. split; [reflexivity|]. left.
    split; [exact Hstatus|]. split; [exact Herror|]. split; [exact Hnames|].
    cbn [existsb isScreenshot app orb]. now rewrite !app_nil_r.
  - unfold runTestCase001_catch. unfold_js. cbn [fst snd].
    destruct (env_dateNow w1) as [stop w2]. cbn [fst snd].
    destruct (env_screenshot "test-results/failure-screenshot.png" w2) as [[[]|e'] w3];
      cbn [fst snd outcome final trace];
      do 3 eexists; (split; [reflexivity|]); right;
      (split; [reflexivity|]); (split; [eexists; reflexivity|]);
      (split; [exists n; split; [exact Hn | exact Hnames]|]).
    + exists (EvDateNow now :: t1 ++ [EvDateNow stop])%list, (Ok tt).
      cbn [app]. rewrite ?app_nil_r, <- ?app_assoc. split; [reflexivity|].
      cbn [existsb isScreenshot orb]. rewrite existsb_app, Hnone. reflexivity.
    + exists (EvDateNow now :: t1 ++ [EvDateNow stop])%list, (Err e').
      cbn [app]. rewrite ?app_nil_r, <- ?app_assoc. split; [reflexivity|].
      cbn [existsb isScreenshot orb]. rewrite existsb_app, Hnone. reflexivity.
Qed.

(** X25.  [runTestCase001] always returns its case.  The steps of the case
    are, by name and in order, a prefix of the five steps of TC 001; the
    case is PASSED exactly when all five are there, and exactly then it has
    no error text; otherwise it is FAILED. *)
Theorem runTestCase001_records_the_steps_that_passed (suite : Suite) (w : W) :
  exists testCase n,
    outcome (runTestCase001 (suite, w)) = Ret testCase /\
    (n <= 5)%nat /\
    map step_name (case_steps testCase) = firstn n stepNames /\
    (case_status testCase = PASSED <-> n = 5%nat) /\
    (case_status testCase = PASSED <-> case_error testCase = None) /\
    (case_status testCase = PASSED \/ case_status testCase = FAILED).
Proof.
  destruct (runTestCase001_cases suite w)
    as (c & s' & t & -> & [(Hst & Herr & Hnames & _)
                          | (Hst & (msg & Herr) & (n & Hn & Hnames) & _)]).
  - exists c, 5%nat. cbn [outcome]. split; [reflexivity|]. split; [lia|].
    split; [exact Hnames|]. split; [tauto|]. split; [tauto|]. now left.
  - exists c, n. cbn [outcome]. split; [reflexivity|]. split; [lia|].
    split; [exact Hnames|]. rewrite Hst, Herr.
    split; [split; [discriminate | lia]|]. split; [split; discriminate|]. now right.
Qed.

(** X26.  [runTestCase001] asks for the failure screenshot exactly when the
    case it returns is FAILED; it asks at most once, as its last call, and
    a rejected screenshot changes nothing of what is returned. *)
Theorem failure_screenshot_is_taken_exactly_on_failure (suite : Suite) (w : W) :
  exists testCase,
    outcome (runTestCase001 (suite, w)) = Ret testCase /\
    (case_status testCase = FAILED <->
     exists r, In (EvScreenshot "test-results/failure-screenshot.png" r)
                  (trace (runTestCase001 (suite, w)))) /\
    (countOf isScreenshot (trace (runTestCase001 (suite, w))) <= 1)%nat /\
    (forall before ev after,
        trace (runTestCase001 (suite, w)) = (before ++ ev :: after)%list ->
        isScreenshot ev = true -> after = []).
Proof.
  assert (Hcount : forall t, existsb isScreenshot t = false -> countOf isScreenshot t = 0%nat).
  { intros t Ht. unfold countOf. induction t as [|ev t IH]; [reflexivity|].
    cbn [existsb filter] in *. apply Bool.orb_false_iff in Ht as [Hev Ht].
    rewrite Hev. exact (IH Ht). }
  assert (Hno : forall t ev, existsb isScreenshot t = false -> In ev t ->
                             isScreenshot ev = false).
  { intros t ev Ht Hin. induction t as [|x t IH]; [contradiction|].
    cbn [existsb] in Ht. apply Bool.orb_false_iff in Ht as [Hx Ht].
    destruct Hin as [<- | Hin]; [exact Hx | exact (IH Ht Hin)]. }
  destruct (runTestCase001_cases suite w)
    as (c & s' & t & -> & [(Hst & _ & _ & Hnone)
                          | (Hst & _ & _ & (before & r & -> & Hnone))]);
    exists c; cbn [outcome trace]; (split; [reflexivity|]).
  - split; [|split].
    + rewrite Hst. split; [discriminate|]. intros (r & Hin).
      pose proof (Hno _ _ Hnone Hin) as Habs. discriminate Habs.
    + rewrite (Hcount _ Hnone). lia.
    + intros before ev after Hcut Hev.
      assert (Hin : In ev t) by (rewrite Hcut; apply in_or_app; right; now left).
      rewrite (Hno _ _ Hnone Hin) in Hev. discriminate Hev.
  - split; [|split].
    + split; [|intros _; exact Hst]. intros _. exists r. apply in_or_app. right. now left.
    + rewrite countOf_app, (Hcount _ Hnone). cbn. lia.
    + intros before' ev after Hcut Hev.
      destruct after as [|x after]; [reflexivity|]. exfalso.
      assert (Hin : In ev before).
      { assert (Hlen : ((before' ++ [ev]) ++ x :: after
                        = before ++ [EvScreenshot "test-results/failure-screenshot.png" r])%list)
          by (rewrite <- app_assoc; symmetry; exact Hcut).
        destruct (exists_last (l := x :: after)) as (mid & lst & Hlast); [discriminate|].
        rewrite Hlast, app_assoc in Hlen.
        apply app_inj_tail in Hlen as [Hbefore _].
        rewrite <- Hbefore. apply in_or_app. left. apply in_or_app. right. now left. }
      rewrite (Hno _ _ Hnone Hin) in Hev. discriminate Hev.
Qed.

End CaseFacts.

Section RunFacts.
Context {W : Type} `{Env W}.
Import TestSuite.
Variable renderReport : RunRecord -> option string -> Z -> string.

Lemma initialize_keeps_the_record (suite : Suite) (w : W) :
  exists o b w' t,
    initialize (suite, w) = mkRun o (mkSuite b (testResults suite), w') t /\
    forall code, o <> Exit code.
Proof.
  unfold initialize. unfold_js. cbn [fst snd]. destruct suite as [b record].
  destruct (env_getEnv "HEADLESS" w) as [v w0]. cbn [fst snd].
  all_paths_now; do 4 eexists; (split; [reflexivity|]); discriminate.
Qed.

Lemma initialize_closes_nothing :
  calls_only (fun ev => negb (isBrowserClose ev)) (initialize (W:=W)).
Proof. unfold initialize. calls_auto. Qed.

Lemma runTestCase001_closes_nothing :
  calls_only (fun ev => negb (isBrowserClose ev)) (runTestCase001 (W:=W)).
Proof.
  unfold runTestCase001, runTestCase001_try, runTestCase001_catch, pushStep,
    executeStep, executeStep_try, step1, step2, step3, step4, step5, text_includes.
  calls_auto.
Qed.

Lemma initialize_writes_nothing :
  calls_only (fun ev => negb (isFileWrite ev)) (initialize (W:=W)).
Proof. unfold initialize. calls_auto. Qed.

Lemma runTestCase001_writes_nothing :
  calls_only (fun ev => negb (isFileWrite ev)) (runTestCase001 (W:=W)).
Proof.
  unfold runTestCase001, runTestCase001_try, runTestCase001_catch, pushStep,
    executeStep, executeStep_try, step1, step2, step3, step4, step5, text_includes.
  calls_auto.
Qed.

Lemma generateReport_closes_nothing :
  calls_only (fun ev => negb (isBrowserClose ev)) (generateReport (W:=W) renderReport).
Proof. unfold generateReport. calls_auto. Qed.

(** X29.  [run] always ends the process from inside its [try] block, so
    that [cleanup] never runs: no call closes the browser, and the end time
    of the run record is what it was before the run.  The report file, when
    it is written, holds the text rendered from a record that has the case
    of the run and still that end time: unset, for a new suite. *)
Theorem run_exits_without_cleanup (suite : Suite) (w : W) :
  (exists code, outcome (run renderReport (suite, w)) = Exit code) /\
  (forall r, ~ In (EvBrowserClose r) (trace (run renderReport (suite, w)))) /\
  endTime (testResults (fst (final (run renderReport (suite, w)))))
  = endTime (testResults suite) /\
  (forall path data r,
      In (EvWriteFileSync path data r) (trace (run renderReport (suite, w))) ->
      exists record ci now,
        data = renderReport record ci now /\
        endTime record = endTime (testResults suite) /\
        List.length (testCases record)
        = S (List.length (testCases (testResults suite)))).
Proof.
  assert (Hclosed : forall t r,
             forallb (fun ev => negb (isBrowserClose ev)) t = true ->
             ~ In (EvBrowserClose r) t).
  { intros t r Hall Hin.
    pose proof (proj1 (forallb_forall _ _) Hall _ Hin) as Habs. discriminate Habs. }
  assert (Hwritten : forall t path data r,
             forallb (fun ev => negb (isFileWrite ev)) t = true ->
             ~ In (EvWriteFileSync path data r) t).
  { intros t path data r Hall Hin.
    pose proof (proj1 (forallb_forall _ _) Hall _ Hin) as Habs. discriminate Habs. }
  unfold run, try_finally, try_catch, bind, process_exit, getL.
  pose proof (initialize_closes_nothing (suite, w)) as Hc1.
  pose proof (initialize_writes_nothing (suite, w)) as Hw1.
  destruct (initialize_keeps_the_record suite w)
    as (o & b & w1 & t1 & Hinit & Hexit).
  rewrite Hinit in Hc1, Hw1 |- *. cbn [trace] in Hc1, Hw1.
  destruct o as [[]|e|c]; [| |now destruct (Hexit c)];
    cbn [outcome final trace fst snd].
  - pose proof (runTestCase001_closes_nothing (mkSuite b (testResults suite), w1)) as Hc2.
    pose proof (runTestCase001_writes_nothing (mkSuite b (testResults suite), w1)) as Hw2.
    destruct (runTestCase001_spec (mkSuite b (testResults suite)) w1)
      as (c & w2 & t2 & Hcase & _).
    rewrite Hcase in Hc2, Hw2 |- *. cbn [outcome final trace fst snd] in Hc2, Hw2 |- *.
    match goal with
    | |- context [generateReport renderReport (?s, w2)] => set (s2 := s) in *
    end.
    assert (Hend : endTime (testResults s2) = endTime (testResults suite))
      by (subst s2; cbn; now destruct (case_status c)).
    assert (Hlen : List.length (testCases (testResults s2))
                   = S (List.length (testCases (testResults suite)))).
    { subst s2. cbn. unfold push.
      destruct (case_status c); cbn; rewrite length_app; cbn; lia. }
    pose proof (generateReport_closes_nothing (s2, w2)) as Hc3.
    pose proof (generateReport_file renderReport s2 w2) as Hfile.
    destruct (generateReport_spec renderReport s2 w2) as (o & w3 & t3 & Hreport & Hexit3).
    rewrite Hreport in Hc3, Hfile |- *. cbn [trace] in Hc3, Hfile.
    assert (Hall : forallb (fun ev => negb (isBrowserClose ev)) (t1 ++ t2 ++ t3) = true)
      by (now rewrite !forallb_app, Hc1, Hc2, Hc3).
    assert (Hdata : forall path data r,
               In (EvWriteFileSync path data r) (t1 ++ t2 ++ t3) ->
               exists record ci now,
                 data = renderReport record ci now /\
                 endTime record = endTime (testResults suite) /\
                 List.length (testCases record)
                 = S (List.length (testCases (testResults suite)))).
    { intros path data r Hin.
      apply in_app_or in Hin as [Hin | Hin]; [now destruct (Hwritten _ _ _ _ Hw1 Hin)|].
      apply in_app_or in Hin as [Hin | Hin]; [now destruct (Hwritten _ _ _ _ Hw2 Hin)|].
      destruct (Hfile _ _ _ Hin) as (_ & ci & now & ->).
      exists (testResults s2), ci, now. now repeat split. }
    destruct o as [report|e|c']; [| |now destruct (Hexit3 c')];
      cbn [outcome final trace fst snd].
    + destruct (0 <? failedTests (testResults s2));
        cbn [outcome final trace fst snd]; rewrite ?app_nil_r, <- ?app_assoc;
        (split; [eexists; reflexivity|]);
        (split; [intros r; now apply Hclosed|]); (split; [exact Hend | exact Hdata]).
    + rewrite ?app_nil_r, <- ?app_assoc.
      split; [eexists; reflexivity|].
      split; [intros r; now apply Hclosed|]. split; [exact Hend | exact Hdata].
  - rewrite ?app_nil_r. split; [eexists; reflexivity|].
    split; [intros r; now apply Hclosed|]. split; [reflexivity|].
    intros path data r Hin. now destruct (Hwritten _ _ _ _ Hw1 Hin).
Qed.

End RunFacts.

(* ===================================================================== *)
(** * The further properties on concrete runs *)
(* ===================================================================== *)

Lemma detector_answers_true_only_on_evidence_witness :
  existsb affirmative
          (trace (RegistrationPage.isRegistrationSuccessful (session redirected 0)))
  = true.
Proof.
  apply (detector_answers_true_only_on_evidence (session redirected 0)).
  vm_compute. reflexivity.
Defined.

Lemma detector_off_the_registration_page_witness :
  existsb errorLookup
          (trace (RegistrationPage.isRegistrationSuccessful (session title_unreadable 0)))
  = false /\
  exists ev,
    In ev (trace (RegistrationPage.isRegistrationSuccessful (session title_unreadable 0))) /\
    rejected ev = true /\ visibilityProbe ev = false.
Proof.
  destruct (detector_off_the_registration_page
              (session title_unreadable 0)
              "https://parabank.parasoft.com/parabank/overview.htm")
    as [Hno [Htrue | [Hnull | Hrejected]]].
  - vm_compute. tauto.
  - vm_compute. reflexivity.
  - vm_compute in Htrue. discriminate Htrue.
  - exfalso. vm_compute in Hnull.
    repeat (destruct Hnull as [Hnull | Hnull]; [discriminate Hnull|]). exact Hnull.
  - split; [exact Hno | exact Hrejected].
Defined.

Lemma step_passes_only_after_detected_success_witness :
  exists before w',
    trace (RegistrationSpec.fillRegistrationStep 3 sample_user busy_start)
    = (before ++ trace (RegistrationPage.isRegistrationSuccessful w'))%list /\
    outcome (RegistrationPage.isRegistrationSuccessful w') = Ret true /\
    final (RegistrationSpec.fillRegistrationStep 3 sample_user busy_start)
    = final (RegistrationPage.isRegistrationSuccessful w').
Proof.
  apply (step_passes_only_after_detected_success 3 sample_user busy_start).
  vm_compute. reflexivity.
Defined.

Lemma retry_succeeds_on_the_third_attempt_witness :
  outcome (RegistrationSpec.fillRegistrationStep 3 sample_user busy_start)
  = Ret (Some tt) /\
  clicksOn RegistrationPage.registerButton
           (trace (RegistrationSpec.fillRegistrationStep 3 sample_user busy_start))
  = 3%nat /\
  countOf isReload (trace (RegistrationSpec.fillRegistrationStep 3 sample_user busy_start))
  = 2%nat.
Proof.
  destruct (retry_succeeds_on_the_third_attempt
              3 busy_start sample_user
              ["This username already exists."]
              ["This username already exists."])
    as (Hout & _ & _ & Hclicks & Hreloads);
    try (vm_compute; reflexivity).
  repeat split; assumption.
Defined.

Lemma other_failure_ends_the_loop_at_once_witness :
  outcome (RegistrationSpec.fillRegistrationStep 3 sample_user (session nothing_happened 5))
  = Throw (Error "Registration failed after 3 attempts") /\
  clicksOn RegistrationPage.registerButton
           (trace (RegistrationSpec.fillRegistrationStep
                     3 sample_user (session nothing_happened 5)))
  = 1%nat.
Proof.
  destruct (other_failure_ends_the_loop_at_once
              3 (session nothing_happened 5) sample_user [])
    as (Hout & _ & Hclicks & _);
    try (vm_compute; reflexivity).
  - lia.
  - split; assumption.
Defined.

Lemma duplicate_user_data_breaks_the_retry_step_witness :
  JsString.includes (username duplicate_user) "testuser_" = true /\
  outcome (RegistrationSpec.fillRegistrationStep
             3 duplicate_user (session username_taken 1700000000004))
  = Throw (ReferenceError "testData is not defined").
Proof.
  edestruct (duplicate_user_data_breaks_the_retry_step
               3 test_start (final (UserDataGen.testData test_start))
               (session username_taken 1700000000004))
    as [Hmarker Hrun].
  - lia.
  - vm_compute. reflexivity.
  - vm_compute. reflexivity.
  - split; [exact Hmarker|]. exact (f_equal outcome Hrun).
Defined.

Lemma step4_passes_only_on_evidence_witness :
  exists timeout,
    In (EvWaitForSelector TestSuite.successText Visible timeout (Ok tt))
       (trace (TestSuite.step4 (session everything_present 0))).
Proof.
  destruct (step4_passes_only_on_evidence
              (session everything_present 0)
              "Registration form submitted successfully")
    as [_ [Hwait | (body & Hin & _)]].
  - vm_compute. reflexivity.
  - exact Hwait.
  - exfalso. vm_compute in Hin.
    repeat (destruct Hin as [Hin | Hin]; [discriminate Hin|]). exact Hin.
Defined.

Lemma step5_passes_only_with_a_welcome_text_witness :
  In (EvWaitForSelector "text=Welcome testuser7" Visible 10000 (Ok tt))
     (trace (TestSuite.step5 "testuser7" (session everything_present 0))) \/
  exists n,
    (0 < n)%nat /\
    In (EvCount "text=Welcome" (Ok n))
       (trace (TestSuite.step5 "testuser7" (session everything_present 0))).
Proof.
  eapply proj1.
  eapply (step5_passes_only_with_a_welcome_text "testuser7" (session everything_present 0)).
  vm_compute. reflexivity.
Defined.

Lemma executeStep_routes_the_result_witness :
  outcome (TestSuite.executeStep "Navigate to ParaBank homepage" TestSuite.step1
                                 (session everything_present 7))
  = Ret (mkStep "Navigate to ParaBank homepage" PASSED 7 (Some 8)
                (Some "Successfully navigated to ParaBank. Title: ParaBank | Customer Created")
                None).
Proof.
  pose proof (executeStep_routes_the_result
                "Navigate to ParaBank homepage" TestSuite.step1
                (session everything_present 7) step1_never_exits) as Hrouted.
  cbv zeta in Hrouted. destruct Hrouted as (_ & _ & Hret & _).
  apply Hret. vm_compute. reflexivity.
Defined.

Lemma cleanup_closes_what_initialize_opened_witness :
  ~ exists r,
      In (EvBrowserClose r)
         (trace (TestSuite.cleanup
                   (final (TestSuite.initialize (newSuite 5, session launch_fails 6))))).
Proof.
  pose proof (cleanup_closes_what_initialize_opened
                (newSuite 5) (session launch_fails 6) eq_refl) as Hclean.
  cbv zeta in Hclean. destruct Hclean as ((Hclose & _) & _).
  intros Hclosed. destruct (Hclose Hclosed) as (headless & Hin).
  vm_compute in Hin.
  repeat (destruct Hin as [Hin | Hin]; [discriminate Hin|]). exact Hin.
Defined.
